(** * TrafficWatch: the polling-and-aggregation engine

    A shallow embedding of the two editions of the monitor that live in the
    repository:

    - [V2]: [server.js], "TrafficWatch - TomTom API edition": a flat list of
      routes taken from the environment, 500 readings kept per route;
    - [V3]: the "Nicosia Crossing Traffic Monitor v3": routes grouped under
      crossings, 1000 readings kept per route, plus a speed sample and a
      cached weather snapshot on every reading.

    Both are single-threaded Node programs.  An [async] function is embedded
    as a computation in a state-and-exception monad over the process state
    (the in-memory [readings], the files on disk, the weather cache, the
    console, the list of requests sent); what the outside world answers
    during one poll cycle (HTTP replies, clock readings, whether a disk
    write goes through) is an explicit argument of the cycle. *)

From Stdlib Require Import ZArith Lia Ascii String SpecFloat.
From stdpp Require Import base option list gmap strings pretty.

Local Open Scope string_scope.
Local Open Scope Z_scope.

(** ** JavaScript values used by the program *)

Module JS.

(** A JavaScript number is an IEEE 754 binary64 value.  [spec_float] is the
    Standard Library's specification of such values (one NaN, signed
    zeros and infinities, finite values [(-1)^s * m * 2^e]); the
    operations below are its binary64 instances. *)
Definition number : Type := spec_float.

Definition prec : Z := 53.
Definition emax : Z := 1024.

(** The number denoted by an integer literal or by an integer in a JSON
    payload (exact below 2^53, rounded to nearest-even above). *)
Definition of_Z (z : Z) : number := binary_normalize prec emax z 0 false.

Definition div (x y : number) : number := SFdiv prec emax x y.
Definition mul (x y : number) : number := SFmul prec emax x y.

Definition isFinite (x : number) : bool :=
  match x with
  | S754_zero _ | S754_finite _ _ _ => true
  | S754_infinity _ | S754_nan => false
  end.

(** [Math.round(x)]: the integral number closest to [x], ties going
    towards +Infinity; NaN, the infinities and the zeros are returned as
    they are, and a negative [x >= -0.5] gives [-0].  The value of a
    finite [x] is [v * 2^e] with [v = +-m], so for [e < 0] the result is
    [floor ((2 * v + 2^(-e)) / 2^(1 - e))], which is below 2^53 in
    magnitude and thus a number itself. *)
Definition Math_round (x : number) : number :=
  match x with
  | S754_finite s m e =>
      if 0 <=? e then x
      else
        let v := if s then Z.neg m else Z.pos m in
        binary_normalize prec emax ((2 * v + 2 ^ (- e)) `div` 2 ^ (1 - e)) 0 s
  | _ => x
  end.

(** The integer a finite integral number stands for ([None] for NaN, the
    infinities and numbers with a fractional part). *)
Definition to_Z (x : number) : option Z :=
  match x with
  | S754_zero _ => Some 0
  | S754_finite s m e =>
      let v := if s then Z.neg m else Z.pos m in
      if 0 <=? e then Some (v * 2 ^ e)
      else if (v `mod` 2 ^ (- e)) =? 0 then Some (v `div` 2 ^ (- e)) else None
  | _ => None
  end.

(** [+(x.toFixed(1))]: the number closest to [n / 10], where [n] is the
    integer closest to [10 * x] (of two equally close ones the one of
    larger magnitude).  An integral [x] is its own result. *)
Definition toFixed_1 (x : number) : number :=
  match x with
  | S754_finite s m e =>
      if 0 <=? e then x
      else
        match (20 * Z.pos m + 2 ^ (- e)) `div` 2 ^ (1 - e) with
        | Z.pos n => div (S754_finite s n 0) (of_Z 10)
        | _ => S754_zero s
        end
  | _ => x
  end.

(** [Math.round(s / d)] for integers [s] and [d > 0], as an integer:
    [floor (s / d + 1/2)].  The routing provider reports whole seconds,
    and the minute counts derived from them stay far below 2^53, where
    numbers represent integers exactly. *)
Definition Math_round_div (s d : Z) : Z := (2 * s + d) `div` (2 * d).

(** [Math.max(a, b)] on integers. *)
Definition Math_max (a b : Z) : Z := Z.max a b.

(** [a ?? b]: [b] when [a] is [null] or [undefined]. *)
Definition nullish {A : Type} (a : option A) (b : A) : A :=
  match a with Some v => v | None => b end.

(** [a ?? b] when [b] may be missing as well. *)
Definition nullish_opt {A : Type} (a b : option A) : option A :=
  match a with Some _ => a | None => b end.

(** [`${n}`] for an integer [n]. *)
Definition String_of_int (n : Z) : string := pretty n.

(** Arrays, as far as the program uses them: [arr.push(x)], [arr.shift()]
    (the statement form, the removed element is not used), [arr.length],
    [arr[arr.length - 1]] and [arr.indexOf(x)] (-1 when [x] is not in the
    array). *)
Definition push {A : Type} (arr : list A) (x : A) : list A := arr ++ [x].
Definition shift {A : Type} (arr : list A) : list A := tail arr.
Definition length {A : Type} (arr : list A) : Z := Z.of_nat (List.length arr).
Definition at_last {A : Type} (arr : list A) : option A := last arr.

Fixpoint indexOf_from {A : Type} `{EqDecision A} (i : Z) (arr : list A) (x : A) : Z :=
  match arr with
  | [] => -1
  | y :: arr' => if decide (y = x) then i else indexOf_from (i + 1) arr' x
  end.
Definition indexOf {A : Type} `{EqDecision A} (arr : list A) (x : A) : Z :=
  indexOf_from 0 arr x.

(** [arr[i]] for a number [i]: [undefined] outside the array. *)
Definition index {A : Type} (arr : list A) (i : Z) : option A :=
  if i <? 0 then None else arr !! Z.to_nat i.

End JS.

(** ** The Node process

    [Process] is what a run of the program can change and a later step can
    observe: the module-level variables of the script ([mem]), the files
    on disk, the lines printed so far and the URLs requested so far. *)

Record Process (Mem Line : Type) : Type := mkProcess {
  mem : Mem;
  files : gmap string string;
  console : list Line;
  requests : list string;
}.
Arguments mkProcess {Mem Line} _ _ _ _.
Arguments mem {Mem Line} _.
Arguments files {Mem Line} _.
Arguments console {Mem Line} _.
Arguments requests {Mem Line} _.

(** How a statement completes: normally with a value, or by throwing.  Every
    error the program looks at is looked at through [e.message] only. *)
Inductive Completion (A : Type) : Type :=
  | Normal (a : A)
  | Throw (message : string).
Arguments Normal {A} _.
Arguments Throw {A} _.

(** What an HTTPS GET comes back with: the parsed JSON body, or a failure
    (a network error, or a body that is not JSON). *)
Inductive Reply (A : Type) : Type :=
  | Body (data : A)
  | Failed (message : string).
Arguments Body {A} _.
Arguments Failed {A} _.

Definition Node (W A : Type) : Type := W -> Completion A * W.

#[global] Instance Node_ret {W} : MRet (Node W) :=
  fun A a w => (Normal a, w).
#[global] Instance Node_bind {W} : MBind (Node W) :=
  fun A B k m w =>
    match m w with
    | (Normal a, w') => k a w'
    | (Throw e, w') => (Throw e, w')
    end.

Module Node_ops.
Section Ops.
Context {Mem Line : Type}.
Local Abbreviation W := (Process Mem Line).

Definition throw {A} (message : string) : Node W A :=
  fun w => (Throw message, w).

(** [try { body } catch (e) { handler(e.message) }]: what [body] did to the
    process before it threw stays done. *)
Definition try_catch {A} (body : Node W A) (handler : string -> Node W A) : Node W A :=
  fun w =>
    match body w with
    | (Normal a, w') => (Normal a, w')
    | (Throw e, w') => handler e w'
    end.

Definition gets {A} (f : Mem -> A) : Node W A :=
  fun w => (Normal (f (mem w)), w).
Definition modify (f : Mem -> Mem) : Node W unit :=
  fun w => (Normal tt, mkProcess (f (mem w)) (files w) (console w) (requests w)).

(** [console.log] / [console.error], one entry per call. *)
Definition print (l : Line) : Node W unit :=
  fun w => (Normal tt, mkProcess (mem w) (files w) (console w ++ [l]) (requests w)).

(** [fs.existsSync(path)]. *)
Definition existsSync (path : string) : Node W bool :=
  fun w => (Normal (bool_decide (is_Some (files w !! path))), w).

(** [fs.writeFileSync(path, data)] and [fs.appendFileSync(path, data)].
    [fault] is what the disk answers this time: [None] when the write
    goes through, [Some message] when it throws (the file is then left
    as it was).  Appending to a file that does not exist creates it. *)
Definition writeFileSync (fault : option string) (path data : string) : Node W unit :=
  fun w =>
    match fault with
    | Some message => (Throw message, w)
    | None => (Normal tt, mkProcess (mem w) (<[path := data]> (files w)) (console w) (requests w))
    end.
Definition appendFileSync (fault : option string) (path data : string) : Node W unit :=
  fun w =>
    match fault with
    | Some message => (Throw message, w)
    | None =>
        (Normal tt,
         mkProcess (mem w) (<[path := default "" (files w !! path) +:+ data]> (files w))
                   (console w) (requests w))
    end.

(** [httpsGet(url)]: the request is sent, and the promise resolves with the
    parsed body or rejects. *)
Definition httpsGet {A} (url : string) (reply : Reply A) : Node W A :=
  fun w =>
    let w' := mkProcess (mem w) (files w) (console w) (requests w ++ [url]) in
    match reply with
    | Body data => (Normal data, w')
    | Failed message => (Throw message, w')
    end.

(** [await Promise.all([a, b])] for two calls started one after the other:
    both run, and the first rejection (if any) is thrown. *)
Definition Promise_all {A B} (a : Node W A) (b : Node W B) : Node W (A * B) :=
  fun w =>
    let '(ra, w1) := a w in
    let '(rb, w2) := b w1 in
    match ra, rb with
    | Normal x, Normal y => (Normal (x, y), w2)
    | Throw e, _ => (Throw e, w2)
    | _, Throw e => (Throw e, w2)
    end.

(** [for (let i = 0; i < xs.length; i++) { const x = xs[i]; body }] and
    [xs.forEach(x => body)]. *)
Fixpoint for_from {A} (i : nat) (xs : list A) (body : nat -> A -> Node W unit) : Node W unit :=
  match xs with
  | [] => mret tt
  | x :: xs' => body i x ;; for_from (S i) xs' body
  end.
Definition for_index {A} (xs : list A) (body : nat -> A -> Node W unit) : Node W unit :=
  for_from 0%nat xs body.
Definition forEach {A} (xs : list A) (body : A -> Node W unit) : Node W unit :=
  for_from 0%nat xs (fun _ => body).

End Ops.
End Node_ops.
Import Node_ops.

(** What a computation leaves behind, and what it returns. *)
Definition exec {W A} (m : Node W A) (w : W) : W := snd (m w).
Definition eval {W A} (m : Node W A) (w : W) : Completion A := fst (m w).

(** ** Data shared by the two editions *)

(** The severity strings ['LOW'], ['MODERATE'], ['HIGH']. *)
Inductive Level : Type := LOW | MODERATE | HIGH.

#[global] Instance Level_eq_dec : EqDecision Level.
Proof. solve_decision. Defined.

Definition Level_text (l : Level) : string :=
  match l with LOW => "LOW" | MODERATE => "MODERATE" | HIGH => "HIGH" end.

(** A coordinate is only ever spliced into a URL, so a point carries the
    decimal text of its latitude and longitude. *)
Module Point.
Record t : Type := make { lat : string; lng : string; label : string }.
End Point.

Module Route.
Record t : Type := make {
  name : string;
  logFile : string;
  origin : Point.t;
  dest : Point.t;
}.
End Route.

(** What [fetchRoute] returns. *)
Module Measurement.
Record t : Type := make {
  trafficMin : Z;
  normalMin : Z;
  distanceKm : JS.number;
}.
End Measurement.

(** The JSON bodies of the three upstream services, with the fields the
    program reads.  An optional field is one that can be missing or
    [null] in the body; the other fields are the ones the provider always
    sends.  The routing provider reports travel times in whole seconds and
    the length in whole metres, and weather codes are whole numbers; speeds,
    temperature, precipitation and wind are numbers. *)
Module Api.
Record Summary : Type := mkSummary {
  travelTimeInSeconds : Z;
  noTrafficTravelTimeInSeconds : option Z;
  historicTrafficTravelTimeInSeconds : option Z;
  lengthInMeters : Z;
}.
Record RouteEntry : Type := mkRouteEntry { summary : Summary }.
(** [detailedError] holds [detailedError.message] when there is one. *)
Record Routing : Type := mkRouting {
  routes : option (list RouteEntry);
  detailedError : option string;
}.

Record FlowSegment : Type := mkFlowSegment {
  currentSpeed : JS.number;
  freeFlowSpeed : JS.number;
}.
Record Flow : Type := mkFlow { flowSegmentData : option FlowSegment }.

Record Current : Type := mkCurrent {
  temperature_2m : JS.number;
  precipitation : JS.number;
  weather_code : Z;
  wind_speed_10m : JS.number;
}.
Record Forecast : Type := mkForecast { current : option Current }.
End Api.

Definition quote : string := String (ascii_of_nat 34) "".
Definition newline : string := String (ascii_of_nat 10) "".

(** [x || fallback] for a string that may be missing: the empty string is
    falsy too. *)
Definition or_text (x : option string) (fallback : string) : string :=
  match x with
  | Some (String c rest) => String c rest
  | _ => fallback
  end.

(** ** The crossings monitor (v3) *)

Module V3.

Module Crossing.
Record t : Type := make {
  id : string;
  name : string;
  shortName : string;
  description : string;
  routes : list Route.t;
}.
End Crossing.

(** The table [CROSSINGS] of the script. *)
Definition CROSSINGS : list Crossing.t :=
  [ Crossing.make "metehan" "Agios Dometios / Metehan" "Metehan" "Main Nicosia city crossing"
      [ Route.make "South to North" "log-metehan-s2n.csv"
          (Point.make "35.17738946649458" "33.323703790315996" "South")
          (Point.make "35.18248230357691" "33.32297160214468" "North");
        Route.make "North to South" "log-metehan-n2s.csv"
          (Point.make "35.189972638909815" "33.3267300933598" "North")
          (Point.make "35.17997580404659" "33.32508411149086" "South") ];
    Crossing.make "astromeritis" "Astromeritis / Zodia" "Astromeritis" "West Nicosia crossing"
      [ Route.make "South to North" "log-astromeritis-s2n.csv"
          (Point.make "35.14493622086859" "33.03599537704171" "South")
          (Point.make "35.15883484408819" "33.01875938024711" "North");
        Route.make "North to South" "log-astromeritis-n2s.csv"
          (Point.make "35.15883484408819" "33.01876659029276" "North")
          (Point.make "35.14498045733702" "33.03600414981479" "South") ] ].

(** [CONFIG], read from the environment when the script starts. *)
Record Config : Type := mkConfig {
  tomtomKey : string;
  intervalMin : Z;
}.

Module Speed.
Record t : Type := make {
  currentSpeed : JS.number;
  freeFlowSpeed : JS.number;
  speedPct : JS.number;
}.
End Speed.

Module Weather.
Record t : Type := make {
  tempC : JS.number;
  precipitation : JS.number;
  windKmh : JS.number;
  condition : string;
  icon : string;
}.
End Weather.

(** One entry of [readings[ci][ri]]. *)
Module Row.
Record t : Type := make {
  timestamp : string;
  trafficMin : Z;
  normalMin : Z;
  distanceKm : JS.number;
  delay : Z;
  level : Level;
  speed : option Speed.t;
  weather : option Weather.t;
}.
End Row.

(** The module-level variables: [readings], [weatherCache] and
    [weatherLastFetch]. *)
Record Memory : Type := mkMemory {
  readings : list (list (list Row.t));
  weatherCache : option Weather.t;
  weatherLastFetch : Z;
}.

(** What [ok(...)] and [err(...)] print, without the colour codes and the
    clock prefix:
    - [ok_weather w]: the "Weather: icon condition temp wind" line;
    - [ok_route short name trafficMin delay level speed]: the line of a
      recorded reading;
    - [err_route short name message]: the line of a failed poll;
    - [err_no_key]: "TOMTOM_KEY not set!". *)
Inductive Line : Type :=
  | ok_weather (w : Weather.t)
  | ok_route (short name : string) (trafficMin delay : Z) (level : Level) (speed : option Speed.t)
  | err_route (short name message : string)
  | err_no_key.

Abbreviation World := (Process Memory Line).

(** What the outside world answers during one run of [checkAll]: the two
    readings of [Date.now()] that [fetchWeather] may take, the reply to
    the weather request, and for the route at [ci], [ri] the replies to
    its routing and flow requests and the text of
    [new Date().toISOString()]; [disk path] is the fault, if any, of a
    write to [path]. *)
Record Upstream : Type := mkUpstream {
  now_test : Z;
  forecast : Reply Api.Forecast;
  now_store : Z;
  routing : nat -> nat -> Reply Api.Routing;
  flow : nat -> nat -> Reply Api.Flow;
  stamp : nat -> nat -> string;
  disk : string -> option string;
}.

Definition HEADER : string :=
  "timestamp,crossing,route,traffic_min,normal_min,delay_min,traffic_level" +:+ newline.

(** The line [appendCsv] writes for [row]. *)
Definition csvLine (c : Crossing.t) (r : Route.t) (row : Row.t) : string :=
  quote +:+ Row.timestamp row +:+ quote +:+ "," +:+
  quote +:+ Crossing.name c +:+ quote +:+ "," +:+
  quote +:+ Route.name r +:+ quote +:+ "," +:+
  JS.String_of_int (Row.trafficMin row) +:+ "," +:+
  JS.String_of_int (Row.normalMin row) +:+ "," +:+
  JS.String_of_int (Row.delay row) +:+ "," +:+
  quote +:+ Level_text (Row.level row) +:+ quote +:+ newline.

Definition weatherDescription (code : Z) : string :=
  if code =? 0 then "Clear sky"
  else if code <=? 2 then "Partly cloudy"
  else if code =? 3 then "Overcast"
  else if code <=? 49 then "Foggy"
  else if code <=? 59 then "Drizzle"
  else if code <=? 69 then "Rain"
  else if code <=? 79 then "Snow"
  else if code <=? 82 then "Rain showers"
  else if code <=? 86 then "Snow showers"
  else if code <=? 99 then "Thunderstorm"
  else "Unknown".

Definition weatherIcon (code : Z) : string :=
  if code =? 0 then "☀️"
  else if code <=? 2 then "⛅"
  else if code =? 3 then "☁️"
  else if code <=? 49 then "🌫️"
  else if code <=? 69 then "🌧️"
  else if code <=? 79 then "❄️"
  else if code <=? 82 then "🌦️"
  else if code <=? 86 then "🌨️"
  else if code <=? 99 then "⛈️"
  else "🌡️".

Definition trafficLevel (delay : Z) : Level :=
  if delay <=? 2 then LOW
  else if delay <=? 10 then MODERATE
  else HIGH.

(** [readings[ci][ri]], and the write-back of an array that was changed
    in place.  Reading a slot that is not there fails as the property
    access on [undefined] does. *)
Definition slot (rd : list (list (list Row.t))) (ci ri : nat) : option (list Row.t) :=
  rd !! ci ≫= (.!! ri).
Definition readings_at (ci ri : nat) : Node World (list Row.t) :=
  rd ← gets readings;
  match slot rd ci ri with
  | Some arr => mret arr
  | None => throw "Cannot read properties of undefined"
  end.
Definition readings_set (ci ri : nat) (arr : list Row.t) : Node World unit :=
  modify (fun m => mkMemory (alter (<[ri := arr]>) ci (readings m))
                            (weatherCache m) (weatherLastFetch m)).

Section Engine.
(** The functions below read the globals [CROSSINGS] and [CONFIG]; they
    are taken as arguments so that the results hold for any table. *)
Variable crossings : list Crossing.t.
Variable CONFIG : Config.

(** [const readings = CROSSINGS.map(c => c.routes.map(() => []))]. *)
Definition readings_init : list (list (list Row.t)) :=
  map (fun c => map (fun _ => []) (Crossing.routes c)) crossings.

Definition ensureCsv (disk : string -> option string) : Node World unit :=
  forEach crossings (fun c =>
    forEach (Crossing.routes c) (fun r =>
      found ← existsSync (Route.logFile r);
      if negb found
      then writeFileSync (disk (Route.logFile r)) (Route.logFile r) HEADER
      else mret tt)).

Definition appendCsv (disk : string -> option string) (ci ri : nat) (row : Row.t)
  : Node World unit :=
  match crossings !! ci with
  | Some c =>
      match Crossing.routes c !! ri with
      | Some r => appendFileSync (disk (Route.logFile r)) (Route.logFile r) (csvLine c r row)
      | None => throw "Cannot read properties of undefined"
      end
  | None => throw "Cannot read properties of undefined"
  end.

Definition routeUrl (origin dest : Point.t) : string :=
  "https://api.tomtom.com/routing/1/calculateRoute/" +:+
  Point.lat origin +:+ "," +:+ Point.lng origin +:+ ":" +:+
  Point.lat dest +:+ "," +:+ Point.lng dest +:+
  "/json?key=" +:+ tomtomKey CONFIG +:+
  "&traffic=true&travelMode=car&routeType=fastest&computeTravelTimeFor=all".

Definition fetchRoute (origin dest : Point.t) (reply : Reply Api.Routing)
  : Node World Measurement.t :=
  data ← httpsGet (routeUrl origin dest) reply;
  match Api.routes data with
  | Some (first :: _) =>
      let s := Api.summary first in
      mret (Measurement.make
        (JS.Math_round_div (Api.travelTimeInSeconds s) 60)
        (JS.Math_round_div
           (JS.nullish
              (JS.nullish_opt (Api.historicTrafficTravelTimeInSeconds s)
                              (Api.noTrafficTravelTimeInSeconds s))
              (Api.travelTimeInSeconds s)) 60)
        (JS.toFixed_1 (JS.div (JS.of_Z (Api.lengthInMeters s)) (JS.of_Z 1000))))
  | _ => throw (or_text (Api.detailedError data) "No route")
  end.

Definition speedUrl (lat lng : string) : string :=
  "https://api.tomtom.com/traffic/services/4/flowSegmentData/absolute/10/json?key=" +:+
  tomtomKey CONFIG +:+ "&point=" +:+ lat +:+ "," +:+ lng +:+ "&unit=KMPH".

Definition fetchSpeed (lat lng : string) (reply : Reply Api.Flow)
  : Node World (option Speed.t) :=
  try_catch
    (data ← httpsGet (speedUrl lat lng) reply;
     match Api.flowSegmentData data with
     | None => mret None
     | Some fd =>
         mret (Some (Speed.make
           (JS.Math_round (Api.currentSpeed fd))
           (JS.Math_round (Api.freeFlowSpeed fd))
           (JS.Math_round
              (JS.mul (JS.div (Api.currentSpeed fd) (Api.freeFlowSpeed fd)) (JS.of_Z 100)))))
     end)
    (fun _ => mret None).

Definition weatherUrl : string :=
  "https://api.open-meteo.com/v1/forecast?latitude=35.185&longitude=33.382" +:+
  "&current=temperature_2m,precipitation,weather_code,wind_speed_10m" +:+
  "&timezone=Asia/Nicosia&wind_speed_unit=kmh".

(** The cache test of [fetchWeather]:
    [weatherCache && Date.now() - weatherLastFetch < 10 * 60 * 1000]. *)
Definition weatherFresh (up : Upstream) (m : Memory) : bool :=
  match weatherCache m with
  | Some _ => now_test up - weatherLastFetch m <? 10 * 60 * 1000
  | None => false
  end.

Definition fetchWeather (up : Upstream) : Node World (option Weather.t) :=
  m ← gets id;
  if weatherFresh up m then mret (weatherCache m) else
  try_catch
    (data ← httpsGet weatherUrl (forecast up);
     match Api.current data with
     | None => throw "Cannot read properties of undefined"
     | Some c =>
         modify (fun m => mkMemory (readings m)
           (Some (Weather.make
              (JS.Math_round (Api.temperature_2m c))
              (Api.precipitation c)
              (JS.Math_round (Api.wind_speed_10m c))
              (weatherDescription (Api.weather_code c))
              (weatherIcon (Api.weather_code c))))
           (weatherLastFetch m));;
         modify (fun m => mkMemory (readings m) (weatherCache m) (now_store up));;
         gets weatherCache
     end)
    (fun _ => mret None).

(** The body of the inner loop of [checkAll], for the route [route] at
    index [ri] of the crossing [crossing] at index [ci]. *)
Definition pollRoute (up : Upstream) (weather : option Weather.t)
    (ci : nat) (crossing : Crossing.t) (ri : nat) (route : Route.t) : Node World unit :=
  try_catch
    ('(result, speed) ← Promise_all
        (fetchRoute (Route.origin route) (Route.dest route) (routing up ci ri))
        (fetchSpeed (Point.lat (Route.origin route)) (Point.lng (Route.origin route))
                    (flow up ci ri));
     let delay := JS.Math_max 0 (Measurement.trafficMin result - Measurement.normalMin result) in
     let level := trafficLevel delay in
     let row := Row.make (stamp up ci ri)
                  (Measurement.trafficMin result) (Measurement.normalMin result)
                  (Measurement.distanceKm result) delay level speed weather in
     arr ← readings_at ci ri;
     readings_set ci ri (JS.push arr row);;
     arr ← readings_at ci ri;
     (if 1000 <? JS.length arr then readings_set ci ri (JS.shift arr) else mret tt);;
     appendCsv (disk up) ci ri row;;
     print (ok_route (Crossing.shortName crossing) (Route.name route)
                     (Measurement.trafficMin result) delay level speed))
    (fun message =>
       print (err_route (Crossing.shortName crossing) (Route.name route) message)).

Definition checkAll (up : Upstream) : Node World unit :=
  weather ← fetchWeather up;
  match weather with Some w => print (ok_weather w) | None => mret tt end;;
  for_index crossings (fun ci crossing =>
    for_index (Crossing.routes crossing) (fun ri route =>
      pollRoute up weather ci crossing ri route)).

(** From [buildMainPage]: the latest reading of a route
    ([readings[ci][ri][readings[ci][ri].length - 1] || null]) and the
    badge of a crossing, computed from its first two routes. *)
Definition levels : list Level := [LOW; MODERATE; HIGH].

Definition latest (rd : list (list (list Row.t))) (ci ri : nat) : option Row.t :=
  slot rd ci ri ≫= JS.at_last.

Definition worst (l0 l1 : option Row.t) : option Level :=
  match l0, l1 with
  | Some r0, Some r1 =>
      JS.index levels
        (JS.Math_max (JS.indexOf levels (Row.level r0)) (JS.indexOf levels (Row.level r1)))
  | _, _ => None
  end.

Definition crossingWorst (rd : list (list (list Row.t))) (ci : nat) : option Level :=
  worst (latest rd ci 0) (latest rd ci 1).

(** [main]: refuse to start without a key, create the logs, poll once,
    then poll again on every tick of the timer.  [ticks] lists what the
    outside world answers in the first and in each later cycle; a cycle
    has run to its end when the next one starts.  The banner, the
    "Monitoring" lines and the HTTP server are left out. *)
Definition cycles (ticks : list Upstream) : Node World unit :=
  forEach ticks checkAll.

Definition main (boot_disk : string -> option string) (ticks : list Upstream)
  : Node World unit :=
  if decide (tomtomKey CONFIG = "") then print err_no_key
  else (ensureCsv boot_disk;; cycles ticks).

(** The process when the script is loaded. *)
Definition boot (disk_files : gmap string string) : World :=
  mkProcess (mkMemory readings_init None 0) disk_files [] [].

End Engine.
End V3.

(** ** The two-route edition ([server.js]) *)

Module V2.

(** [config]: the key, the interval and the routes (the [ROUTES] variable
    of the environment, or the two built-in Nicosia routes). *)
Record Config : Type := mkConfig {
  tomtomKey : string;
  intervalMin : Z;
  routes : list Route.t;
}.

Definition default_routes : list Route.t :=
  [ Route.make "South to North" "log-south-to-north.csv"
      (Point.make "35.17738946649458" "33.323703790315996" "South")
      (Point.make "35.18248230357691" "33.32297160214468" "North");
    Route.make "North to South" "log-north-to-south.csv"
      (Point.make "35.189972638909815" "33.3267300933598" "North")
      (Point.make "35.17997580404659" "33.32508411149086" "South") ].

(** One entry of [readings[i]]. *)
Module Row.
Record t : Type := make {
  timestamp : string;
  trafficMin : Z;
  normalMin : Z;
  distanceKm : JS.number;
  delay : Z;
  level : Level;
}.
End Row.

(** The console, without colour codes and clock prefix:
    - [log_checking origin dest]: "Checking: origin -> dest";
    - [ok_route name origin dest]: the headline of a recorded reading;
    - [detail_traffic], [detail_normal], [detail_delay], [detail_level],
      [detail_distance]: the five lines printed under it;
    - [err_route name message]: "Route name failed: message";
    - [err_no_key]: the complaint about a missing key. *)
Inductive Line : Type :=
  | log_checking (origin dest : string)
  | ok_route (name origin dest : string)
  | detail_traffic (trafficMin : Z)
  | detail_normal (normalMin : Z)
  | detail_delay (delay : Z)
  | detail_level (level : Level)
  | detail_distance (distanceKm : JS.number)
  | err_route (name message : string)
  | err_no_key.

(** The only module-level variable that changes is [readings]. *)
Abbreviation World := (Process (list (list Row.t)) Line).

(** What the outside world answers during one run of [checkAll]: for the
    route at index [i] the reply to its routing request and the text of
    [new Date().toISOString()]; [disk path] is the fault, if any, of a
    write to [path]. *)
Record Upstream : Type := mkUpstream {
  routing : nat -> Reply Api.Routing;
  stamp : nat -> string;
  disk : string -> option string;
}.

Definition HEADER : string :=
  "timestamp,route,origin,destination,traffic_min,normal_min,delay_min,traffic_level"
  +:+ newline.

(** The line [appendCsv] writes for [row]: the eight fields joined by
    commas. *)
Definition csvLine (r : Route.t) (row : Row.t) : string :=
  quote +:+ Row.timestamp row +:+ quote +:+ "," +:+
  quote +:+ Route.name r +:+ quote +:+ "," +:+
  quote +:+ Point.label (Route.origin r) +:+ quote +:+ "," +:+
  quote +:+ Point.label (Route.dest r) +:+ quote +:+ "," +:+
  JS.String_of_int (Row.trafficMin row) +:+ "," +:+
  JS.String_of_int (Row.normalMin row) +:+ "," +:+
  JS.String_of_int (Row.delay row) +:+ "," +:+
  quote +:+ Level_text (Row.level row) +:+ quote +:+ newline.

Definition trafficLevel (delay : Z) : Level :=
  if delay <=? 2 then LOW
  else if delay <=? 10 then MODERATE
  else HIGH.

(** [readings[i]], and the write-back of an array changed in place. *)
Definition readings_at (i : nat) : Node World (list Row.t) :=
  rd ← gets id;
  match rd !! i with
  | Some arr => mret arr
  | None => throw "Cannot read properties of undefined"
  end.
Definition readings_set (i : nat) (arr : list Row.t) : Node World unit :=
  modify (fun rd => <[i := arr]> rd).

Section Engine.
Variable config : Config.

(** [const readings = config.routes.map(() => [])]. *)
Definition readings_init : list (list Row.t) :=
  map (fun _ => []) (routes config).

Definition ensureCsv (disk : string -> option string) : Node World unit :=
  forEach (routes config) (fun r =>
    found ← existsSync (Route.logFile r);
    if negb found
    then writeFileSync (disk (Route.logFile r)) (Route.logFile r) HEADER
    else mret tt).

Definition appendCsv (disk : string -> option string) (routeIdx : nat) (row : Row.t)
  : Node World unit :=
  match routes config !! routeIdx with
  | Some r => appendFileSync (disk (Route.logFile r)) (Route.logFile r) (csvLine r row)
  | None => throw "Cannot read properties of undefined"
  end.

Definition routeUrl (origin dest : Point.t) : string :=
  "https://api.tomtom.com/routing/1/calculateRoute/" +:+
  Point.lat origin +:+ "," +:+ Point.lng origin +:+ ":" +:+
  Point.lat dest +:+ "," +:+ Point.lng dest +:+ "/json" +:+
  "?key=" +:+ tomtomKey config +:+
  "&traffic=true" +:+ "&travelMode=car" +:+ "&routeType=fastest" +:+
  "&computeTravelTimeFor=all".

Definition fetchRoute (origin dest : Point.t) (reply : Reply Api.Routing)
  : Node World Measurement.t :=
  data ← httpsGet (routeUrl origin dest) reply;
  match Api.routes data with
  | Some (route :: _) =>
      let summary := Api.summary route in
      let trafficSec := Api.travelTimeInSeconds summary in
      let normalSec :=
        JS.nullish (Api.noTrafficTravelTimeInSeconds summary)
                   (Api.travelTimeInSeconds summary) in
      let freeFlowSec :=
        JS.nullish (Api.historicTrafficTravelTimeInSeconds summary) normalSec in
      mret (Measurement.make
        (JS.Math_round_div trafficSec 60)
        (JS.Math_round_div freeFlowSec 60)
        (JS.toFixed_1 (JS.div (JS.of_Z (Api.lengthInMeters summary)) (JS.of_Z 1000))))
  | _ => throw (or_text (Api.detailedError data) "No route returned from TomTom")
  end.

(** The body of the loop of [checkAll] for the route [route] at index
    [i]. *)
Definition pollRoute (up : Upstream) (i : nat) (route : Route.t) : Node World unit :=
  print (log_checking (Point.label (Route.origin route)) (Point.label (Route.dest route)));;
  try_catch
    (result ← fetchRoute (Route.origin route) (Route.dest route) (routing up i);
     let delay := JS.Math_max 0 (Measurement.trafficMin result - Measurement.normalMin result) in
     let level := trafficLevel delay in
     let row := Row.make (stamp up i)
                  (Measurement.trafficMin result) (Measurement.normalMin result)
                  (Measurement.distanceKm result) delay level in
     arr ← readings_at i;
     readings_set i (JS.push arr row);;
     arr ← readings_at i;
     (if 500 <? JS.length arr then readings_set i (JS.shift arr) else mret tt);;
     appendCsv (disk up) i row;;
     print (ok_route (Route.name route) (Point.label (Route.origin route))
                     (Point.label (Route.dest route)));;
     print (detail_traffic (Measurement.trafficMin result));;
     print (detail_normal (Measurement.normalMin result));;
     print (detail_delay delay);;
     print (detail_level level);;
     print (detail_distance (Measurement.distanceKm result)))
    (fun message => print (err_route (Route.name route) message)).

Definition checkAll (up : Upstream) : Node World unit :=
  for_index (routes config) (fun i route => pollRoute up i route).

(** From [buildDashboard]: [readings[i][readings[i].length - 1] || null]. *)
Definition latest (rd : list (list Row.t)) (i : nat) : option Row.t :=
  rd !! i ≫= JS.at_last.

Definition cycles (ticks : list Upstream) : Node World unit :=
  forEach ticks checkAll.

(** [main]: refuse to start without a key, create the logs, poll once,
    then poll again on every tick of the timer, a cycle having run to its
    end when the next one starts.  The banner, the "Monitoring" lines and
    the HTTP server are left out. *)
Definition main (boot_disk : string -> option string) (ticks : list Upstream)
  : Node World unit :=
  if decide (tomtomKey config = "") then print err_no_key
  else (ensureCsv boot_disk;; cycles ticks).

(** The process when the script is loaded. *)
Definition boot (disk_files : gmap string string) : World :=
  mkProcess readings_init disk_files [] [].

End Engine.
End V2.

(** ** Notions the statements use *)

(** LOW < MODERATE < HIGH. *)
Definition Level_rank (l : Level) : Z :=
  match l with LOW => 0 | MODERATE => 1 | HIGH => 2 end.
Definition Level_le (a b : Level) : Prop := Level_rank a <= Level_rank b.
Definition Level_lt (a b : Level) : Prop := Level_rank a < Level_rank b.
Definition Level_max (a b : Level) : Level :=
  if Level_rank a <? Level_rank b then b else a.

(** What the classifier claim says of a function [f] at the delay [d]. *)
Definition thresholds (f : Z -> Level) (d : Z) : Prop :=
  (f d = LOW <-> d <= 2)
  /\ (f d = MODERATE <-> 3 <= d <= 10)
  /\ (f d = HIGH <-> d > 10).

(** The baseline seconds the data model asks for: the historical field if
    present, else the free-flow field, else the current-conditions
    seconds. *)
Definition baselineSeconds (s : Api.Summary) : Z :=
  match Api.historicTrafficTravelTimeInSeconds s with
  | Some historic => historic
  | None =>
      match Api.noTrafficTravelTimeInSeconds s with
      | Some freeFlow => freeFlow
      | None => Api.travelTimeInSeconds s
      end
  end.

(** The delay of a reading is the clamped difference of its two times. *)
Definition V2_clamped (row : V2.Row.t) : Prop :=
  V2.Row.delay row = Z.max 0 (V2.Row.trafficMin row - V2.Row.normalMin row)
  /\ 0 <= V2.Row.delay row.
Definition V3_clamped (row : V3.Row.t) : Prop :=
  V3.Row.delay row = Z.max 0 (V3.Row.trafficMin row - V3.Row.normalMin row)
  /\ 0 <= V3.Row.delay row.

(** [cap] entries at most: what [push] followed by the guarded [shift]
    leaves of an array. *)
Definition keep {A : Type} (cap : Z) (arr : list A) : list A :=
  if cap <? JS.length arr then JS.shift arr else arr.

(** The last [n] entries of a list. *)
Definition lastn {A : Type} (n : nat) (l : list A) : list A :=
  drop (List.length l - n) l.

(** [Math.round(s / 60)] computed on numbers is the integer
    [Math_round_div s 60]. *)
Definition minutes_agree (s : Z) : bool :=
  match JS.to_Z (JS.Math_round (JS.div (JS.of_Z s) (JS.of_Z 60))) with
  | Some minutes => minutes =? JS.Math_round_div s 60
  | None => false
  end.

(** The number of lines of a text: its line feeds. *)
Fixpoint count_lines (s : string) : nat :=
  match s with
  | EmptyString => 0%nat
  | String c rest => ((if Ascii.eqb c (ascii_of_nat 10) then 1 else 0) + count_lines rest)%nat
  end.

(** The text of a list of chunks written one after the other. *)
Definition text (chunks : list string) : string := foldr String.append "" chunks.

(** The percentage [100 * cur / ffs] rounded to the nearest integer, ties
    upwards, in exact arithmetic. *)
Definition exact_percent (cur ffs : Z) : Z := JS.Math_round_div (100 * cur) ffs.

(** [100 * cur / ffs] lies exactly half-way between two integers. *)
Definition percent_tie (cur ffs : Z) : bool := (200 * cur + ffs) `mod` (2 * ffs) =? 0.

(** No two routes of the configuration write to the same log file. *)
Definition V2_distinct_logs (routes : list Route.t) : Prop :=
  forall i j r r',
    routes !! i = Some r -> routes !! j = Some r' ->
    Route.logFile r = Route.logFile r' -> i = j.

Definition V3_distinct_logs (crossings : list V3.Crossing.t) : Prop :=
  forall ci ri cj rj c r c' r',
    crossings !! ci = Some c -> V3.Crossing.routes c !! ri = Some r ->
    crossings !! cj = Some c' -> V3.Crossing.routes c' !! rj = Some r' ->
    Route.logFile r = Route.logFile r' -> ci = cj /\ ri = rj.

(** The log files of a table, in the order of the table. *)
Definition V3_log_files (crossings : list V3.Crossing.t) : list string :=
  flat_map (fun c => map Route.logFile (V3.Crossing.routes c)) crossings.

(** ** The code read as functions

    Each definition below is the pure content of a piece of the program;
    the lemmas named [..._run] further down prove that the program computes
    it. *)

(** The pure content of [fetchRoute] (both editions compute the same
    measurement; they differ in the message of the "no route" error):
    what the call resolves to for a given reply. *)
Definition measurement_of (s : Api.Summary) : Measurement.t :=
  Measurement.make
    (JS.Math_round_div (Api.travelTimeInSeconds s) 60)
    (JS.Math_round_div (baselineSeconds s) 60)
    (JS.toFixed_1 (JS.div (JS.of_Z (Api.lengthInMeters s)) (JS.of_Z 1000))).

Definition measure (no_route : string) (reply : Reply Api.Routing) : Completion Measurement.t :=
  match reply with
  | Failed message => Throw message
  | Body data =>
      match Api.routes data with
      | Some (first :: _) => Normal (measurement_of (Api.summary first))
      | _ => Throw (or_text (Api.detailedError data) no_route)
      end
  end.

(** The routing call resolves for this reply. *)
Definition fetch_ok (no_route : string) (reply : Reply Api.Routing) : bool :=
  match measure no_route reply with Normal _ => true | Throw _ => false end.

(** The pure content of [fetchSpeed]. *)
Definition speed_of (fd : Api.FlowSegment) : V3.Speed.t :=
  V3.Speed.make
    (JS.Math_round (Api.currentSpeed fd))
    (JS.Math_round (Api.freeFlowSpeed fd))
    (JS.Math_round (JS.mul (JS.div (Api.currentSpeed fd) (Api.freeFlowSpeed fd)) (JS.of_Z 100))).

Definition sample (reply : Reply Api.Flow) : option V3.Speed.t :=
  match reply with
  | Failed _ => None
  | Body data => speed_of <$> Api.flowSegmentData data
  end.

(** The [speedPct] the program computes for integer speeds, as an integer
    when it is one. *)
Definition speedPct_int (cur ffs : Z) : option Z :=
  JS.to_Z (V3.Speed.speedPct (speed_of (Api.mkFlowSegment (JS.of_Z cur) (JS.of_Z ffs)))).

(** For integer speeds [cur] and [ffs]: the computed [speedPct] is the
    exactly rounded percentage, or one below it at an exact tie. *)
Definition speedPct_close (cur ffs : Z) : bool :=
  match speedPct_int cur ffs with
  | Some p =>
      (p =? exact_percent cur ffs)
      || (percent_tie cur ffs && (p =? exact_percent cur ffs - 1))
  | None => false
  end.

(** The snapshot [fetchWeather] builds from the [current] block of a
    forecast. *)
Definition snapshot_of (c : Api.Current) : V3.Weather.t :=
  V3.Weather.make
    (JS.Math_round (Api.temperature_2m c))
    (Api.precipitation c)
    (JS.Math_round (Api.wind_speed_10m c))
    (V3.weatherDescription (Api.weather_code c))
    (V3.weatherIcon (Api.weather_code c)).

(** The process after one more request. *)
Definition sent {Mem Line} (w : Process Mem Line) (urls : list string) : Process Mem Line :=
  mkProcess (mem w) (files w) (console w) (requests w ++ urls).

(** The process after a weather fetch that went upstream and got [c]. *)
Definition cached (w : V3.World) (c : Api.Current) (now : Z) : V3.World :=
  mkProcess (V3.mkMemory (V3.readings (mem w)) (Some (snapshot_of c)) now)
            (files w) (console w) (requests w ++ [V3.weatherUrl]).

(** The weather a v3 cycle attaches to its readings. *)
Definition cycle_weather (up : V3.Upstream) (w : V3.World) : option V3.Weather.t :=
  match eval (V3.fetchWeather up) w with
  | Normal weather => weather
  | Throw _ => None
  end.

(** A loop whose body cannot throw, as a function on processes: the steps
    [step i x] for the entries [x] of [xs], numbered from [i]. *)
Fixpoint steps_from {W A : Type} (i : nat) (xs : list A) (step : nat -> A -> W -> W) (w : W) : W :=
  match xs with
  | [] => w
  | x :: xs' => steps_from (S i) xs' step (step i x w)
  end.

(** What [ensureCsv] does for one route when the disk does not fault. *)
Definition ensured {Mem Line} (header : string) (r : Route.t) (w : Process Mem Line)
  : Process Mem Line :=
  if bool_decide (is_Some (files w !! Route.logFile r)) then w
  else mkProcess (mem w) (<[Route.logFile r := header]> (files w)) (console w) (requests w).

(** [readings] with the array at [ci], [ri] replaced by [arr]. *)
Definition put_slot (rd : list (list (list V3.Row.t))) (ci ri : nat) (arr : list V3.Row.t)
  : list (list (list V3.Row.t)) :=
  alter (<[ri := arr]>) ci rd.

(** The reading [checkAll] builds in the v3 edition for the route at [ci],
    [ri] from the measurement [m], in a cycle whose weather is [weather]. *)
Definition V3_row (up : V3.Upstream) (weather : option V3.Weather.t) (ci ri : nat)
    (m : Measurement.t) : V3.Row.t :=
  let delay := JS.Math_max 0 (Measurement.trafficMin m - Measurement.normalMin m) in
  V3.Row.make (V3.stamp up ci ri)
    (Measurement.trafficMin m) (Measurement.normalMin m) (Measurement.distanceKm m)
    delay (V3.trafficLevel delay) (sample (V3.flow up ci ri)) weather.

(** The process after the poll of one route in the v3 edition. *)
Definition V3_polled (cfg : V3.Config) (up : V3.Upstream) (weather : option V3.Weather.t)
    (ci : nat) (c : V3.Crossing.t) (ri : nat) (r : Route.t) (w : V3.World) : V3.World :=
  let reqs :=
    (requests w ++
     [V3.routeUrl cfg (Route.origin r) (Route.dest r);
      V3.speedUrl cfg (Point.lat (Route.origin r)) (Point.lng (Route.origin r))])%list in
  let failed message :=
    mkProcess (mem w) (files w)
      (console w ++ [V3.err_route (V3.Crossing.shortName c) (Route.name r) message]) reqs in
  match measure "No route" (V3.routing up ci ri) with
  | Throw message => failed message
  | Normal m =>
      match V3.slot (V3.readings (mem w)) ci ri with
      | None => failed "Cannot read properties of undefined"
      | Some arr =>
          let row := V3_row up weather ci ri m in
          let mem' :=
            V3.mkMemory (put_slot (V3.readings (mem w)) ci ri (keep 1000 (arr ++ [row])))
                        (V3.weatherCache (mem w)) (V3.weatherLastFetch (mem w)) in
          match V3.disk up (Route.logFile r) with
          | Some message =>
              mkProcess mem' (files w)
                (console w ++ [V3.err_route (V3.Crossing.shortName c) (Route.name r) message])
                reqs
          | None =>
              mkProcess mem'
                (<[Route.logFile r :=
                     default "" (files w !! Route.logFile r) +:+ V3.csvLine c r row]> (files w))
                (console w ++
                 [V3.ok_route (V3.Crossing.shortName c) (Route.name r)
                    (V3.Row.trafficMin row) (V3.Row.delay row) (V3.Row.level row)
                    (V3.Row.speed row)])
                reqs
          end
      end
  end.

(** The two loops of the v3 [checkAll] as functions on processes. *)
Definition V3_inner (cfg : V3.Config) (up : V3.Upstream) (weather : option V3.Weather.t)
    (ci : nat) (c : V3.Crossing.t) (w : V3.World) : V3.World :=
  steps_from 0 (V3.Crossing.routes c) (fun ri r => V3_polled cfg up weather ci c ri r) w.

Definition V3_outer (crossings : list V3.Crossing.t) (cfg : V3.Config) (up : V3.Upstream)
    (weather : option V3.Weather.t) (w : V3.World) : V3.World :=
  steps_from 0 crossings (fun ci c => V3_inner cfg up weather ci c) w.

(** The process after the first two statements of the v3 [checkAll]. *)
Definition V3_after_weather (up : V3.Upstream) (w : V3.World) : V3.World :=
  let w0 := exec (V3.fetchWeather up) w in
  match cycle_weather up w with
  | Some weather =>
      mkProcess (mem w0) (files w0) (console w0 ++ [V3.ok_weather weather]) (requests w0)
  | None => w0
  end.

(** What one v3 cycle does to one route, seen as its in-memory array (if the
    slot exists) and the content of its log file (if the file exists). *)
Definition V3_route_step (up : V3.Upstream) (weather : option V3.Weather.t)
    (ci : nat) (c : V3.Crossing.t) (ri : nat) (r : Route.t)
    (v : option (list V3.Row.t) * option string) : option (list V3.Row.t) * option string :=
  match measure "No route" (V3.routing up ci ri), v.1 with
  | Normal m, Some arr =>
      let row := V3_row up weather ci ri m in
      (Some (keep 1000 (arr ++ [row])),
       match V3.disk up (Route.logFile r) with
       | None => Some (default "" v.2 +:+ V3.csvLine c r row)
       | Some _ => v.2
       end)
  | _, _ => v
  end.

(** The view of a route that [V3_route_step] transforms. *)
Definition V3_view (ci ri : nat) (r : Route.t) (w : V3.World)
  : option (list V3.Row.t) * option string :=
  (V3.slot (V3.readings (mem w)) ci ri, files w !! Route.logFile r).

(** The process after the cycles [ticks], one after the other. *)
Definition V3_run (crossings : list V3.Crossing.t) (cfg : V3.Config)
    (ticks : list V3.Upstream) (w : V3.World) : V3.World :=
  foldl (fun w' up => exec (V3.checkAll crossings cfg up) w') w ticks.

(** The reading a v3 cycle appends for the route at [ci], [ri], if its
    routing call resolves. *)
Definition V3_appended (up : V3.Upstream) (w : V3.World) (ci ri : nat) : option V3.Row.t :=
  match measure "No route" (V3.routing up ci ri) with
  | Normal m => Some (V3_row up (cycle_weather up w) ci ri m)
  | Throw _ => None
  end.

(** The readings appended for a route during the cycles [ticks] that
    start in the process [w], oldest first, and those of them whose log
    line was written. *)
Fixpoint V3_history (crossings : list V3.Crossing.t) (cfg : V3.Config) (ci ri : nat)
    (ticks : list V3.Upstream) (w : V3.World) : list V3.Row.t :=
  match ticks with
  | [] => []
  | up :: rest =>
      option_list (V3_appended up w ci ri)
      ++ V3_history crossings cfg ci ri rest (exec (V3.checkAll crossings cfg up) w)
  end.

Fixpoint V3_logged (crossings : list V3.Crossing.t) (cfg : V3.Config) (ci ri : nat) (r : Route.t)
    (ticks : list V3.Upstream) (w : V3.World) : list V3.Row.t :=
  match ticks with
  | [] => []
  | up :: rest =>
      match V3.disk up (Route.logFile r) with
      | None => option_list (V3_appended up w ci ri)
      | Some _ => []
      end
      ++ V3_logged crossings cfg ci ri r rest (exec (V3.checkAll crossings cfg up) w)
  end.


(** What [ensureCsv] leaves when the disk does not fault. *)
Definition V3_ensured_all (crossings : list V3.Crossing.t) (w : V3.World) : V3.World :=
  steps_from 0 crossings
    (fun _ c => steps_from 0 (V3.Crossing.routes c) (fun _ r => ensured V3.HEADER r)) w.

(** The same for the two-route edition: the reading built from a
    measurement, the process after the poll of one route, what a cycle does
    to the array and the log of a route, the process after several cycles,
    the readings appended for a route and those of them that were logged,
    and what [ensureCsv] leaves. *)
Definition V2_row (up : V2.Upstream) (i : nat) (m : Measurement.t) : V2.Row.t :=
  let delay := JS.Math_max 0 (Measurement.trafficMin m - Measurement.normalMin m) in
  V2.Row.make (V2.stamp up i)
    (Measurement.trafficMin m) (Measurement.normalMin m) (Measurement.distanceKm m)
    delay (V2.trafficLevel delay).

Definition V2_polled (cfg : V2.Config) (up : V2.Upstream) (i : nat) (r : Route.t) (w : V2.World)
  : V2.World :=
  let reqs := (requests w ++ [V2.routeUrl cfg (Route.origin r) (Route.dest r)])%list in
  let lines :=
    (console w ++
     [V2.log_checking (Point.label (Route.origin r)) (Point.label (Route.dest r))])%list in
  let failed message :=
    mkProcess (mem w) (files w) (lines ++ [V2.err_route (Route.name r) message]) reqs in
  match measure "No route returned from TomTom" (V2.routing up i) with
  | Throw message => failed message
  | Normal m =>
      match mem w !! i with
      | None => failed "Cannot read properties of undefined"
      | Some arr =>
          let row := V2_row up i m in
          let mem' := <[i := keep 500 (arr ++ [row])]> (mem w) in
          match V2.disk up (Route.logFile r) with
          | Some message =>
              mkProcess mem' (files w) (lines ++ [V2.err_route (Route.name r) message]) reqs
          | None =>
              mkProcess mem'
                (<[Route.logFile r :=
                     default "" (files w !! Route.logFile r) +:+ V2.csvLine r row]> (files w))
                (lines ++
                 [V2.ok_route (Route.name r) (Point.label (Route.origin r))
                    (Point.label (Route.dest r));
                  V2.detail_traffic (V2.Row.trafficMin row);
                  V2.detail_normal (V2.Row.normalMin row);
                  V2.detail_delay (V2.Row.delay row);
                  V2.detail_level (V2.Row.level row);
                  V2.detail_distance (V2.Row.distanceKm row)])
                reqs
          end
      end
  end.

Definition V2_route_step (up : V2.Upstream) (i : nat) (r : Route.t)
    (v : option (list V2.Row.t) * option string) : option (list V2.Row.t) * option string :=
  match measure "No route returned from TomTom" (V2.routing up i), v.1 with
  | Normal m, Some arr =>
      let row := V2_row up i m in
      (Some (keep 500 (arr ++ [row])),
       match V2.disk up (Route.logFile r) with
       | None => Some (default "" v.2 +:+ V2.csvLine r row)
       | Some _ => v.2
       end)
  | _, _ => v
  end.

Definition V2_view (i : nat) (r : Route.t) (w : V2.World)
  : option (list V2.Row.t) * option string :=
  (mem w !! i, files w !! Route.logFile r).

Definition V2_run (cfg : V2.Config) (ticks : list V2.Upstream) (w : V2.World) : V2.World :=
  foldl (fun w' up => exec (V2.checkAll cfg up) w') w ticks.

Definition V2_appended (up : V2.Upstream) (i : nat) : option V2.Row.t :=
  match measure "No route returned from TomTom" (V2.routing up i) with
  | Normal m => Some (V2_row up i m)
  | Throw _ => None
  end.

Definition V2_history (i : nat) (ticks : list V2.Upstream) : list V2.Row.t :=
  flat_map (fun up => option_list (V2_appended up i)) ticks.

Definition V2_logged (i : nat) (r : Route.t) (ticks : list V2.Upstream) : list V2.Row.t :=
  flat_map (fun up =>
              match V2.disk up (Route.logFile r) with
              | None => option_list (V2_appended up i)
              | Some _ => []
              end) ticks.


Definition V2_ensured_all (cfg : V2.Config) (w : V2.World) : V2.World :=
  steps_from 0 (V2.routes cfg) (fun _ r => ensured V2.HEADER r) w.

(** ** Values for the examples *)

(** A v3 configuration and the process it starts in, on an empty disk. *)
Definition demo_config : V3.Config := V3.mkConfig "k" 5.
Definition demo_world : V3.World := V3.boot V3.CROSSINGS ∅.

(** A routing reply with the given seconds, a v2 configuration and its
    starting process, and cycles in which every routing call gets such a
    reply (in [demo_up2] the current time is below the baseline). *)
Definition demo_reply (current : Z) (freeFlow historic : option Z) : Reply Api.Routing :=
  Body (Api.mkRouting (Some [Api.mkRouteEntry (Api.mkSummary current freeFlow historic 4200)]) None).

Definition demo_config2 : V2.Config := V2.mkConfig "k" 5 V2.default_routes.
Definition demo_world2 : V2.World := V2.boot demo_config2 ∅.

Definition demo_up2 (n : nat) : V2.Upstream :=
  V2.mkUpstream (fun _ => demo_reply 500 (Some 600) None) (fun _ => pretty n) (fun _ => None).
Definition demo_up3 (n : nat) : V3.Upstream :=
  V3.mkUpstream (Z.of_nat n) (Failed "offline") (Z.of_nat n)
    (fun _ _ => demo_reply 1020 (Some 540) None) (fun _ _ => Failed "offline")
    (fun _ _ => pretty n) (fun _ => None).

(** [n] cycles in which every poll succeeds. *)
Definition demo_ticks2 (n : nat) : list V2.Upstream := map demo_up2 (seq 0 n).
Definition demo_ticks3 (n : nat) : list V3.Upstream := map demo_up3 (seq 0 n).
Definition always_writable : string -> option string := fun _ => None.

(** Cycles for the examples: in [split_up2] and [split_up3] the first
    route gets no route from the provider and the second one does; in
    [readonly_up2] and [readonly_up3] every write to a log fails. *)
Definition no_route_reply : Reply Api.Routing := Body (Api.mkRouting (Some []) None).

Definition split_up2 : V2.Upstream :=
  V2.mkUpstream
    (fun i => match i with O => no_route_reply | _ => demo_reply 1020 (Some 540) None end)
    (fun _ => "2026-02-27T11:20:00.000Z") (fun _ => None).
Definition split_up3 : V3.Upstream :=
  V3.mkUpstream 0 (Failed "offline") 0
    (fun _ ri => match ri with O => no_route_reply | _ => demo_reply 1020 (Some 540) None end)
    (fun _ _ => Failed "offline")
    (fun _ _ => "2026-02-27T11:20:00.000Z") (fun _ => None).

Definition readonly_up2 : V2.Upstream :=
  V2.mkUpstream (fun _ => demo_reply 1020 (Some 540) None)
    (fun _ => "2026-02-27T11:20:00.000Z") (fun _ => Some "EROFS: read-only file system").
Definition readonly_up3 : V3.Upstream :=
  V3.mkUpstream 0 (Failed "offline") 0
    (fun _ _ => demo_reply 1020 (Some 540) None) (fun _ _ => Failed "offline")
    (fun _ _ => "2026-02-27T11:20:00.000Z") (fun _ => Some "EROFS: read-only file system").

Definition south_to_north : Route.t :=
  Route.make "South to North" "log-metehan-s2n.csv"
    (Point.make "35.17738946649458" "33.323703790315996" "South")
    (Point.make "35.18248230357691" "33.32297160214468" "North").
Definition north_to_south : Route.t :=
  Route.make "North to South" "log-metehan-n2s.csv"
    (Point.make "35.189972638909815" "33.3267300933598" "North")
    (Point.make "35.17997580404659" "33.32508411149086" "South").
Definition metehan : V3.Crossing.t :=
  V3.Crossing.make "metehan" "Agios Dometios / Metehan" "Metehan" "Main Nicosia city crossing"
    [south_to_north; north_to_south].

(** ** More of JavaScript: string methods, slices, searches

    The string methods are used with ASCII patterns only, so they act on
    the bytes of a text as they act on its UTF-16 code units. *)

Module JStr.

(** [s.startsWith(p)]. *)
Fixpoint startsWith (s p : string) {struct p} : bool :=
  match p, s with
  | EmptyString, _ => true
  | String a p', String b s' => Ascii.eqb a b && startsWith s' p'
  | String _ _, EmptyString => false
  end.

(** [s] without its first [n] characters. *)
Fixpoint skip (n : nat) (s : string) : string :=
  match n, s with
  | O, _ => s
  | S n', String _ s' => skip n' s'
  | S _, EmptyString => EmptyString
  end.

(** [s.replace(p, r)] for a string pattern [p] and a replacement [r]
    without [$]: the first occurrence of [p] is replaced, and [s] is
    returned as it is when [p] does not occur. *)
Fixpoint replace (s p r : string) : string :=
  if startsWith s p then r +:+ skip (String.length p) s
  else
    match s with
    | EmptyString => EmptyString
    | String c s' => String c (replace s' p r)
    end.

(** [s.split(sep)] for a separator of one character: the pieces between
    the separators, at least one piece. *)
Fixpoint split (sep : ascii) (s : string) : list string :=
  match s with
  | EmptyString => [EmptyString]
  | String c rest =>
      if Ascii.eqb c sep then EmptyString :: split sep rest
      else
        match split sep rest with
        | piece :: pieces => String c piece :: pieces
        | [] => [String c EmptyString]
        end
  end.

End JStr.

Module JArr.

(** [arr.slice(start)]: from [start] to the end, a negative [start]
    counting from the end. *)
Definition slice_from {A : Type} (arr : list A) (start : Z) : list A :=
  let len := JS.length arr in
  let k := if start <? 0 then Z.max (len + start) 0 else Z.min start len in
  drop (Z.to_nat k) arr.

(** [arr.findIndex(p)] (-1 when no entry satisfies [p]) and
    [arr.find(p)]. *)
Fixpoint findIndex_from {A : Type} (i : Z) (p : A -> bool) (arr : list A) : Z :=
  match arr with
  | [] => -1
  | x :: arr' => if p x then i else findIndex_from (i + 1) p arr'
  end.
Definition findIndex {A : Type} (p : A -> bool) (arr : list A) : Z :=
  findIndex_from 0 p arr.
Definition find {A : Type} (p : A -> bool) (arr : list A) : option A :=
  List.find p arr.

End JArr.

(** More statements of the process. *)
Module Node_more.
Section Ops.
Context {Mem Line : Type}.
Local Abbreviation W := (Process Mem Line).

(** [fs.readFileSync(path)].  As for the writes, [fault] is what the disk
    answers this time: [None] when the read goes through, [Some message]
    when it throws (the path is a directory, the file may not be read,
    the disk fails).  Reading a file that does not exist throws. *)
Definition readFileSync (fault : option string) (path : string) : Node W string :=
  fun w =>
    match fault with
    | Some message => (Throw message, w)
    | None =>
        match files w !! path with
        | Some data => (Normal data, w)
        | None => (Throw "ENOENT: no such file or directory", w)
        end
    end.

(** [for (let i = 0; i < xs.length && go(s); i++) { const x = xs[i]; body }]
    for a loop that updates a local variable [s]. *)
Fixpoint for_while {A V : Type} (i : nat) (xs : list A) (go : V -> bool)
    (body : nat -> A -> V -> Node W V) (s : V) : Node W V :=
  match xs with
  | [] => mret s
  | x :: xs' =>
      if go s then s' ← body i x s; for_while (S i) xs' go body s'
      else mret s
  end.

(** [xs.map((x, i) => f)] for a callback that reads the process. *)
Fixpoint map_from {A B : Type} (i : nat) (xs : list A) (f : nat -> A -> Node W B)
  : Node W (list B) :=
  match xs with
  | [] => mret []
  | x :: xs' => y ← f i x; ys ← map_from (S i) xs' f; mret (y :: ys)
  end.

End Ops.
End Node_more.
Import Node_more.

(** ** The pages and the HTTP server (v3)

    The markup of the two pages is not modelled: the template of a page
    is a parameter of the server below, a computation that reads the
    process and returns the text of the page.  What is modelled is what
    the page functions compute before they fill the template in, the
    credential check, the table of downloads and the dispatch of a
    request. *)

Module V3_http.

(** What [calcTrend] returns. *)
Record Trend : Type := mkTrend { arrow : string; color : string }.

Definition calcTrend (arr : list V3.Row.t) : Completion Trend :=
  if JS.length arr <? 3 then Normal (mkTrend "" "")
  else
    let last3 := JArr.slice_from arr (-3) in
    match JS.index last3 0, JS.index last3 2 with
    | Some first, Some latest =>
        let diff := V3.Row.trafficMin latest - V3.Row.trafficMin first in
        if 2 <=? diff then Normal (mkTrend "↑" "var(--high)")
        else if diff <=? -2 then Normal (mkTrend "↓" "var(--low)")
        else Normal (mkTrend "→" "var(--muted)")
    | _, _ => Throw "Cannot read properties of undefined"
    end.

(** A request, as far as the server looks at it: [req.url] and
    [req.headers['authorization']]. *)
Module Request.
Record t : Type := make { url : string; authorization : option string }.
End Request.

(** One crossing and one route of the body of [/api/data]. *)
Module RouteJson.
Record t : Type := make { name : string; latest : option V3.Row.t }.
End RouteJson.
Module CrossingJson.
Record t : Type := make { id : string; name : string; routes : list RouteJson.t }.
End CrossingJson.

(** What [res.end] is given: a text (or the bytes of a file), the value
    handed to [JSON.stringify], or a page ([null] when the page function
    returned [null]). *)
Inductive Body : Type :=
  | Text (s : string)
  | Json (crossings : list CrossingJson.t)
  | Html (page : option string).

(** The answer to a request: the status and the headers of
    [res.writeHead] and the body of [res.end]. *)
Module Response.
Record t : Type := make { status : Z; headers : list (string * string); body : Body }.
End Response.

(** An entry of [downloadMap]. *)
Record Entry : Type := mkEntry { file : string; name : string }.

(** [r.logFile.replace('log-','').replace('.csv','')]: the name under
    which the log of a route is downloaded. *)
Definition slug (r : Route.t) : string :=
  JStr.replace (JStr.replace (Route.logFile r) "log-" "") ".csv" "".

Section Server.
(** [CROSSINGS]; [CONFIG.downloadUser] and [CONFIG.downloadPass];
    [Buffer.from(b64, 'base64').toString()] as a function of [b64]; and
    what the pages do besides looking for the weather to show: the
    template of the main page, and for the detail page of the crossing at
    an index the chart data (computed first) and the template. *)
Variable crossings : list V3.Crossing.t.
Variable downloadUser downloadPass : string.
Variable base64 : string -> string.
Variable mainMarkup : option V3.Weather.t -> Node V3.World string.
Variable detailChart : nat -> Node V3.World string.
Variable detailMarkup : nat -> string -> option V3.Weather.t -> Node V3.World string.

(** The loop over the routes of the crossing at [ci] that looks for a
    weather snapshot, as both pages have it:
    [for (let ri = 0; ri < c.routes.length && !weather; ri++)
       { const arr = readings[ci][ri];
         if (arr.length) weather = arr[arr.length-1].weather; }]. *)
Definition routesWeather (ci : nat) (c : V3.Crossing.t) (weather : option V3.Weather.t)
  : Node V3.World (option V3.Weather.t) :=
  for_while 0%nat (V3.Crossing.routes c) (fun weather => negb (bool_decide (is_Some weather)))
    (fun ri _ weather =>
       arr ← V3.readings_at ci ri;
       if 0 <? JS.length arr then
         match JS.at_last arr with
         | Some reading => mret (V3.Row.weather reading)
         | None => throw "Cannot read properties of undefined"
         end
       else mret weather)
    weather.

(** [buildMainPage]: the weather of the first route that has one, then
    the template. *)
Definition pageWeather : Node V3.World (option V3.Weather.t) :=
  for_while 0%nat crossings (fun weather => negb (bool_decide (is_Some weather)))
    (fun ci c weather => routesWeather ci c weather)
    None.

Definition buildMainPage : Node V3.World string :=
  weather ← pageWeather;
  mainMarkup weather.

(** [buildDetailPage(id)]: [null] for an [id] that no crossing has. *)
Definition buildDetailPage (id : string) : Node V3.World (option string) :=
  let ci := JArr.findIndex (fun c => bool_decide (V3.Crossing.id c = id)) crossings in
  if ci =? -1 then mret None
  else
    match JS.index crossings ci with
    | None => throw "Cannot read properties of undefined"
    | Some c =>
        chartData ← detailChart (Z.to_nat ci);
        latestWeather ← routesWeather (Z.to_nat ci) c None;
        html ← detailMarkup (Z.to_nat ci) chartData latestWeather;
        mret (Some html)
    end.

(** [checkAuth(req, res)]: [None] when it returns [true] (and leaves [res]
    alone), [Some answer] when it returns [false], having answered 401. *)
Definition checkAuth (req : Request.t) : option Response.t :=
  let denied :=
    Some (Response.make 401
            [("WWW-Authenticate", "Basic realm=" +:+ quote +:+ "TrafficWatch Downloads" +:+ quote);
             ("Content-Type", "text/plain")]
            (Text "Authentication required")) in
  match Request.authorization req with
  | Some (String a rest) =>
      let authHeader := String a rest in
      let b64 := or_text (JStr.split " "%char authHeader !! 1%nat) "" in
      match JStr.split ":"%char (base64 b64) with
      | user :: pass :: _ =>
          if bool_decide (user = downloadUser) && bool_decide (pass = downloadPass)
          then None else denied
      | _ => denied
      end
  | _ => denied
  end.

(** [downloadMap], filled by [startServer]: a later route with the slug
    of an earlier one takes its place.  (A slug that is not a key of the
    table finds, in the script, nothing or an inherited property without
    a [file]; the answer is 404 in both cases.) *)
Definition downloadMap : gmap string Entry :=
  foldl (fun m c =>
           foldl (fun m r => <[slug r := mkEntry (Route.logFile r) (Route.logFile r)]> m)
                 m (V3.Crossing.routes c))
        ∅ crossings.

(** [req.url.split('?')[0]]. *)
Definition path (req : Request.t) : string :=
  default "" (head (JStr.split "?"%char (Request.url req))).

(** The body of [/api/data]. *)
Definition apiData : Node V3.World (list CrossingJson.t) :=
  map_from 0%nat crossings (fun ci c =>
    routes ← map_from 0%nat (V3.Crossing.routes c) (fun ri r =>
      arr ← V3.readings_at ci ri;
      mret (RouteJson.make (Route.name r) (JS.at_last arr)));
    mret (CrossingJson.make (V3.Crossing.id c) (V3.Crossing.name c) routes)).

Definition notFound : Response.t := Response.make 404 [] (Text "File not found").

(** The request listener of [startServer].  [disk] is what the disk
    answers while the request is served, for every path: whether a read
    of it throws.  The listener catches nothing: what a call in it throws,
    it throws. *)
Definition onRequest (disk : string -> option string) (req : Request.t)
  : Node V3.World Response.t :=
  let url := path req in
  if bool_decide (url = "/health") then mret (Response.make 200 [] (Text "OK"))
  else if bool_decide (url = "/api/data") then
    data ← apiData;
    mret (Response.make 200 [("Content-Type", "application/json")] (Json data))
  else if JStr.startsWith url "/download/" then
    match checkAuth req with
    | Some answer => mret answer
    | None =>
        let slug := JStr.replace url "/download/" "" in
        match downloadMap !! slug with
        | None => mret notFound
        | Some entry =>
            found ← existsSync (file entry);
            if negb found then mret notFound
            else
              data ← readFileSync (disk (file entry)) (file entry);
              mret (Response.make 200
                      [("Content-Type", "text/csv");
                       ("Content-Disposition",
                        "attachment; filename=" +:+ quote +:+ name entry +:+ quote)]
                      (Text data))
        end
    end
  else
    let id := JStr.replace url "/" "" in
    if negb (bool_decide (id = ""))
       && bool_decide (is_Some (JArr.find (fun c => bool_decide (V3.Crossing.id c = id)) crossings))
    then
      html ← buildDetailPage id;
      mret (Response.make 200 [("Content-Type", "text/html")] (Html html))
    else
      html ← buildMainPage;
      mret (Response.make 200 [("Content-Type", "text/html")] (Html (Some html))).

End Server.
End V3_http.

(** ** The data of the dashboard (v2)

    From [buildDashboard]: [routeData] and [chartData].  The label of a
    chart point is the time of day of the reading, which
    [toLocaleTimeString] computes from its timestamp. *)

Module V2_http.

Module RouteData.
Record t : Type := make {
  name : string;
  origin : string;
  dest : string;
  readings : list V2.Row.t;
  latest : option V2.Row.t;
}.
End RouteData.

Module ChartData.
Record t : Type := make {
  labels : list string;
  traffic : list Z;
  normal : list Z;
}.
End ChartData.

Section Dashboard.
Variable config : V2.Config.
Variable toLocaleTimeString : string -> string.

Definition routeData : Node V2.World (list RouteData.t) :=
  map_from 0%nat (V2.routes config) (fun i r =>
    arr ← V2.readings_at i;
    mret (RouteData.make (Route.name r) (Point.label (Route.origin r))
            (Point.label (Route.dest r)) arr (JS.at_last arr))).

Definition chartData (routeData : list RouteData.t) : list ChartData.t :=
  map (fun r =>
         ChartData.make
           (map (fun x => toLocaleTimeString (V2.Row.timestamp x))
                (JArr.slice_from (RouteData.readings r) (-12)))
           (map V2.Row.trafficMin (JArr.slice_from (RouteData.readings r) (-12)))
           (map V2.Row.normalMin (JArr.slice_from (RouteData.readings r) (-12))))
      routeData.

(** The caption of a chart: [Math.min(r.readings.length, 12)]. *)
Definition chartCaption (r : RouteData.t) : Z :=
  Z.min (JS.length (RouteData.readings r)) 12.

End Dashboard.
End V2_http.

(** ** More notions for the statements *)

(** The number of occurrences of the character [c] in [s]. *)
Fixpoint count_char (c : ascii) (s : string) : nat :=
  match s with
  | EmptyString => 0%nat
  | String a rest => ((if Ascii.eqb a c then 1 else 0) + count_char c rest)%nat
  end.

(** The pieces [pieces] with the character [sep] between them. *)
Fixpoint join (sep : ascii) (pieces : list string) : string :=
  match pieces with
  | [] => EmptyString
  | [piece] => piece
  | piece :: rest => piece +:+ String sep (join sep rest)
  end.

(** The first entry of a list that is not [None]. *)
Fixpoint first_some {A : Type} (l : list (option A)) : option A :=
  match l with
  | [] => None
  | Some x :: _ => Some x
  | None :: rest => first_some rest
  end.

(** The weather snapshot of the latest reading of every route of a table,
    in the order of the table. *)
Definition latest_snapshots (crossings : list V3.Crossing.t) (rd : list (list (list V3.Row.t)))
  : list (option V3.Weather.t) :=
  mjoin (imap (fun ci c =>
                 imap (fun ri _ => V3.latest rd ci ri ≫= V3.Row.weather) (V3.Crossing.routes c))
              crossings).

(** Every route of the table has its array in [rd]. *)
Definition V3_shaped (crossings : list V3.Crossing.t) (rd : list (list (list V3.Row.t))) : Prop :=
  forall ci c ri r,
    crossings !! ci = Some c -> V3.Crossing.routes c !! ri = Some r ->
    is_Some (V3.slot rd ci ri).

(** The routes of a table, in the order of the table. *)
Definition V3_routes (crossings : list V3.Crossing.t) : list Route.t :=
  flat_map V3.Crossing.routes crossings.

(** The level of a reading is the class of its delay. *)
Definition V2_classified (row : V2.Row.t) : Prop :=
  V2.Row.level row = V2.trafficLevel (V2.Row.delay row).
Definition V3_classified (row : V3.Row.t) : Prop :=
  V3.Row.level row = V3.trafficLevel (V3.Row.delay row).

(** The requests of one cycle: for every route the routing request and
    (v3) the flow request. *)
Definition V2_cycle_urls (cfg : V2.Config) : list string :=
  map (fun r => V2.routeUrl cfg (Route.origin r) (Route.dest r)) (V2.routes cfg).
Definition V3_cycle_urls (crossings : list V3.Crossing.t) (cfg : V3.Config) : list string :=
  flat_map (fun c =>
              flat_map (fun r =>
                          [V3.routeUrl cfg (Route.origin r) (Route.dest r);
                           V3.speedUrl cfg (Point.lat (Route.origin r)) (Point.lng (Route.origin r))])
                       (V3.Crossing.routes c))
           crossings.

(** What [ensureCsv] may have done to a process [w0]: nothing but giving
    files that did not exist the content [header]. *)
Definition created_only {Mem Line : Type} (header : string) (w0 w : Process Mem Line) : Prop :=
  mem w = mem w0 /\ console w = console w0 /\ requests w = requests w0
  /\ forall path, files w !! path = files w0 !! path
                  \/ (files w0 !! path = None /\ files w !! path = Some header).

(** A text that can stand in a field of a log line: no comma and no line
    feed in it. *)
Definition plain (s : string) : Prop :=
  count_char "," s = 0%nat /\ count_lines s = 0%nat.

(** ** More values for the examples *)

(** The text that a well-formed base64 word stands for (the alphabet
    [A-Z a-z 0-9 + /], padding and other characters skipped). *)
Definition sextet (c : ascii) : option N :=
  let n := N_of_ascii c in
  if (65 <=? n)%N && (n <=? 90)%N then Some (n - 65)%N
  else if (97 <=? n)%N && (n <=? 122)%N then Some (n - 71)%N
  else if (48 <=? n)%N && (n <=? 57)%N then Some (n + 4)%N
  else if (n =? 43)%N then Some 62%N
  else if (n =? 47)%N then Some 63%N
  else None.

Fixpoint sextets (s : string) : list N :=
  match s with
  | EmptyString => []
  | String c rest =>
      match sextet c with
      | Some v => v :: sextets rest
      | None => sextets rest
      end
  end.

Fixpoint octets (l : list N) : string :=
  match l with
  | a :: b :: c :: d :: rest =>
      let n := (a * 262144 + b * 4096 + c * 64 + d)%N in
      String (ascii_of_N (n / 65536))
        (String (ascii_of_N ((n / 256) mod 256))
           (String (ascii_of_N (n mod 256)) (octets rest)))
  | [a; b; c] =>
      let n := ((a * 4096 + b * 64 + c) / 4)%N in
      String (ascii_of_N (n / 256)) (String (ascii_of_N (n mod 256)) EmptyString)
  | [a; b] => String (ascii_of_N ((a * 64 + b) / 16)) EmptyString
  | _ => EmptyString
  end.

Definition base64_text (word : string) : string := octets (sextets word).

(** Templates that render nothing, for the examples. *)
Definition blank_main : option V3.Weather.t -> Node V3.World string := fun _ => mret "".
Definition blank_chart : nat -> Node V3.World string := fun _ => mret "".
Definition blank_detail : nat -> string -> option V3.Weather.t -> Node V3.World string :=
  fun _ _ _ => mret "".

(** ** Facts about the JavaScript layer *)

Example Math_round_half_up :
  JS.Math_round (JS.div (JS.of_Z 5) (JS.of_Z 2)) = JS.of_Z 3
  /\ JS.Math_round (JS.div (JS.of_Z (-5)) (JS.of_Z 2)) = JS.of_Z (-2)
  /\ JS.Math_round (JS.div (JS.of_Z (-1)) (JS.of_Z 4)) = S754_zero true
  /\ JS.Math_round (JS.div (JS.of_Z 90) (JS.of_Z 60)) = JS.of_Z (JS.Math_round_div 90 60)
  /\ JS.Math_round (JS.div (JS.of_Z 89) (JS.of_Z 60)) = JS.of_Z (JS.Math_round_div 89 60)
  /\ JS.String_of_int (-12) = "-12".
Proof. repeat split; vm_compute; reflexivity. Qed.

Example toFixed_1_examples :
  JS.toFixed_1 (JS.div (JS.of_Z 1250) (JS.of_Z 1000)) = JS.div (JS.of_Z 13) (JS.of_Z 10)
  /\ JS.toFixed_1 (JS.div (JS.of_Z 1150) (JS.of_Z 1000)) = JS.div (JS.of_Z 11) (JS.of_Z 10)
  /\ JS.toFixed_1 (JS.div (JS.of_Z 1050) (JS.of_Z 1000)) = JS.div (JS.of_Z 11) (JS.of_Z 10)
  /\ JS.toFixed_1 (JS.div (JS.of_Z 849) (JS.of_Z 1000)) = JS.div (JS.of_Z 8) (JS.of_Z 10)
  /\ JS.toFixed_1 (JS.of_Z 7) = JS.of_Z 7.
Proof. repeat split; vm_compute; reflexivity. Qed.

(** On whole seconds up to half an hour, [Math.round(s / 60)] computed on
    numbers is the integer [Math_round_div s 60]. *)
Lemma Math_round_div_60_adequate :
  forallb (fun s => minutes_agree (Z.of_nat s)) (seq 0 1801) = true.
Proof. vm_compute. reflexivity. Qed.

Lemma Math_round_div_spec (s d : Z) :
  0 < d ->
  2 * d * JS.Math_round_div s d <= 2 * s + d < 2 * d * (JS.Math_round_div s d + 1).
Proof.
  intros Hd. unfold JS.Math_round_div.
  pose proof (Z.div_mod (2 * s + d) (2 * d) ltac:(lia)) as Hdm.
  pose proof (Z.mod_pos_bound (2 * s + d) (2 * d) ltac:(lia)) as Hb.
  lia.
Qed.

Lemma Math_round_div_mono (s s' d : Z) :
  0 < d -> s <= s' -> JS.Math_round_div s d <= JS.Math_round_div s' d.
Proof.
  intros Hd Hs. unfold JS.Math_round_div.
  apply Z.div_le_mono; lia.
Qed.

Lemma Level_rank_indexOf (l : Level) : JS.indexOf V3.levels l = Level_rank l.
Proof. destruct l; reflexivity. Qed.

Lemma Level_lt_strict_total :
  (forall a, ~ Level_lt a a)
  /\ (forall a b c, Level_lt a b -> Level_lt b c -> Level_lt a c)
  /\ (forall a b, Level_lt a b \/ a = b \/ Level_lt b a)
  /\ Level_lt LOW MODERATE /\ Level_lt MODERATE HIGH.
Proof.
  unfold Level_lt. repeat split; try (intros; lia); try (simpl; lia).
  intros a b. destruct a, b; simpl; auto; (left; lia) || (right; right; lia).
Qed.

(** ** The classifier *)

Lemma V2_trafficLevel_cases (d : Z) :
  (d <= 2 /\ V2.trafficLevel d = LOW)
  \/ (3 <= d <= 10 /\ V2.trafficLevel d = MODERATE)
  \/ (10 < d /\ V2.trafficLevel d = HIGH).
Proof.
  unfold V2.trafficLevel.
  destruct (Z.leb_spec d 2); [left; auto|].
  destruct (Z.leb_spec d 10); [right; left; split; [lia | reflexivity]|].
  right; right; split; [lia | reflexivity].
Qed.

Lemma V3_trafficLevel_cases (d : Z) :
  (d <= 2 /\ V3.trafficLevel d = LOW)
  \/ (3 <= d <= 10 /\ V3.trafficLevel d = MODERATE)
  \/ (10 < d /\ V3.trafficLevel d = HIGH).
Proof.
  unfold V3.trafficLevel.
  destruct (Z.leb_spec d 2); [left; auto|].
  destruct (Z.leb_spec d 10); [right; left; split; [lia | reflexivity]|].
  right; right; split; [lia | reflexivity].
Qed.

Lemma thresholds_of_cases (f : Z -> Level) :
  (forall d, (d <= 2 /\ f d = LOW) \/ (3 <= d <= 10 /\ f d = MODERATE) \/ (10 < d /\ f d = HIGH)) ->
  forall d, thresholds f d.
Proof.
  intros H d. unfold thresholds.
  destruct (H d) as [[Hd E] | [[Hd E] | [Hd E]]]; rewrite E;
    repeat split; intros; try discriminate; try lia; reflexivity.
Qed.

Lemma monotone_of_cases (f : Z -> Level) :
  (forall d, (d <= 2 /\ f d = LOW) \/ (3 <= d <= 10 /\ f d = MODERATE) \/ (10 < d /\ f d = HIGH)) ->
  forall d d', d <= d' -> Level_le (f d) (f d').
Proof.
  intros H d d' Hle. unfold Level_le.
  destruct (H d) as [[Hd E] | [[Hd E] | [Hd E]]];
    destruct (H d') as [[Hd' E'] | [[Hd' E'] | [Hd' E']]];
    rewrite E, E'; simpl; lia.
Qed.

(** The examples of the specification: baseline 9 and current 17 give
    delay 8, MODERATE; 10 and 43 give 33, HIGH; 9 and 9 give 0, LOW. *)
Example trafficLevel_examples :
  V3.trafficLevel (JS.Math_max 0 (17 - 9)) = MODERATE
  /\ V3.trafficLevel (JS.Math_max 0 (43 - 10)) = HIGH
  /\ V3.trafficLevel (JS.Math_max 0 (9 - 9)) = LOW
  /\ V2.trafficLevel (JS.Math_max 0 (17 - 9)) = MODERATE
  /\ V2.trafficLevel (JS.Math_max 0 (43 - 10)) = HIGH
  /\ V2.trafficLevel (JS.Math_max 0 (9 - 9)) = LOW.
Proof. repeat split. Qed.

(** C1.  For every integer delay [d], [trafficLevel] (in both editions)
    returns LOW iff [d <= 2], MODERATE iff [3 <= d <= 10] and HIGH iff
    [d > 10], and it is monotonically non-decreasing in [d] for the order
    LOW < MODERATE < HIGH. *)
Theorem trafficLevel_thresholds_monotone (d d' : Z) :
  thresholds V2.trafficLevel d
  /\ thresholds V3.trafficLevel d
  /\ (d <= d' -> Level_le (V2.trafficLevel d) (V2.trafficLevel d'))
  /\ (d <= d' -> Level_le (V3.trafficLevel d) (V3.trafficLevel d')).
Proof.
  split; [apply thresholds_of_cases, V2_trafficLevel_cases|].
  split; [apply thresholds_of_cases, V3_trafficLevel_cases|].
  split; intros Hle.
  - now apply monotone_of_cases; [apply V2_trafficLevel_cases|].
  - now apply monotone_of_cases; [apply V3_trafficLevel_cases|].
Qed.

Lemma trafficLevel_thresholds_monotone_witness :
  Level_le (V2.trafficLevel 2) (V2.trafficLevel 11)
  /\ Level_le (V3.trafficLevel 10) (V3.trafficLevel 11)
  /\ thresholds V3.trafficLevel 10.
Proof.
  destruct (trafficLevel_thresholds_monotone 2 11) as (_ & _ & H2 & _).
  destruct (trafficLevel_thresholds_monotone 10 11) as (_ & T3 & _ & H3).
  split; [apply H2; lia|]. split; [apply H3; lia | exact T3].
Defined.

(** ** Running the upstream calls *)

Lemma V3_fetchRoute_run (cfg : V3.Config) (o d : Point.t) (reply : Reply Api.Routing) (w : V3.World) :
  V3.fetchRoute cfg o d reply w = (measure "No route" reply, sent w [V3.routeUrl cfg o d]).
Proof.
  unfold V3.fetchRoute, mbind, Node_bind, httpsGet, measure, sent.
  destruct reply as [data | message]; [|reflexivity].
  destruct (Api.routes data) as [[|first rest]|]; try reflexivity.
  unfold mret, Node_ret, measurement_of, baselineSeconds, JS.nullish, JS.nullish_opt.
  destruct (Api.historicTrafficTravelTimeInSeconds (Api.summary first));
    destruct (Api.noTrafficTravelTimeInSeconds (Api.summary first)); reflexivity.
Qed.

Lemma V2_fetchRoute_run (cfg : V2.Config) (o d : Point.t) (reply : Reply Api.Routing) (w : V2.World) :
  V2.fetchRoute cfg o d reply w
  = (measure "No route returned from TomTom" reply, sent w [V2.routeUrl cfg o d]).
Proof.
  unfold V2.fetchRoute, mbind, Node_bind, httpsGet, measure, sent.
  destruct reply as [data | message]; [|reflexivity].
  destruct (Api.routes data) as [[|first rest]|]; reflexivity.
Qed.

Lemma V3_fetchSpeed_run (cfg : V3.Config) (lat lng : string) (reply : Reply Api.Flow) (w : V3.World) :
  V3.fetchSpeed cfg lat lng reply w = (Normal (sample reply), sent w [V3.speedUrl cfg lat lng]).
Proof.
  unfold V3.fetchSpeed, try_catch, mbind, Node_bind, httpsGet, sample, sent.
  destruct reply as [data | message]; [|reflexivity].
  destruct (Api.flowSegmentData data); reflexivity.
Qed.

(** ** The baseline of a measurement *)

(** C5.  For every routing response that carries a route, [fetchRoute] (in
    both editions) resolves, and the baseline minutes of its result are the
    rounded minutes of: the historical-baseline seconds if present, else the
    free-flow seconds, else the current-conditions seconds.  With both
    baseline fields absent the call still resolves; baseline and current
    minutes are then equal and the delay is zero. *)
Theorem fetchRoute_baseline_fallback
    (cfg2 : V2.Config) (cfg3 : V3.Config) (o d : Point.t)
    (data : Api.Routing) (first : Api.RouteEntry) (rest : list Api.RouteEntry)
    (w2 : V2.World) (w3 : V3.World) :
  Api.routes data = Some (first :: rest) ->
  let s := Api.summary first in
  exists m : Measurement.t,
    eval (V2.fetchRoute cfg2 o d (Body data)) w2 = Normal m
    /\ eval (V3.fetchRoute cfg3 o d (Body data)) w3 = Normal m
    /\ Measurement.trafficMin m = JS.Math_round_div (Api.travelTimeInSeconds s) 60
    /\ Measurement.normalMin m = JS.Math_round_div (baselineSeconds s) 60
    /\ (Api.historicTrafficTravelTimeInSeconds s = None ->
        Api.noTrafficTravelTimeInSeconds s = None ->
        Measurement.normalMin m = Measurement.trafficMin m
        /\ JS.Math_max 0 (Measurement.trafficMin m - Measurement.normalMin m) = 0).
Proof.
  intros Hroutes s. exists (measurement_of s).
  unfold eval. rewrite V2_fetchRoute_run, V3_fetchRoute_run. simpl.
  rewrite Hroutes. fold s.
  split; [reflexivity|]. split; [reflexivity|].
  split; [reflexivity|]. split; [reflexivity|].
  intros Hh Hn. unfold measurement_of, baselineSeconds, JS.Math_max. simpl.
  rewrite Hh, Hn. split; [reflexivity | lia].
Qed.

Lemma fetchRoute_baseline_fallback_witness :
  exists m : Measurement.t,
    eval (V2.fetchRoute (V2.mkConfig "k" 5 V2.default_routes)
            (Point.make "35.1" "33.3" "South") (Point.make "35.2" "33.3" "North")
            (Body (Api.mkRouting (Some [Api.mkRouteEntry (Api.mkSummary 1020 None None 4200)]) None)))
         (V2.boot (V2.mkConfig "k" 5 V2.default_routes) ∅) = Normal m
    /\ Measurement.normalMin m = 17
    /\ JS.Math_max 0 (Measurement.trafficMin m - Measurement.normalMin m) = 0.
Proof.
  destruct (fetchRoute_baseline_fallback
              (V2.mkConfig "k" 5 V2.default_routes) demo_config
              (Point.make "35.1" "33.3" "South") (Point.make "35.2" "33.3" "North")
              (Api.mkRouting (Some [Api.mkRouteEntry (Api.mkSummary 1020 None None 4200)]) None)
              (Api.mkRouteEntry (Api.mkSummary 1020 None None 4200)) []
              (V2.boot (V2.mkConfig "k" 5 V2.default_routes) ∅) demo_world eq_refl)
    as (m & E2 & _ & _ & Hn & Hz).
  exists m. split; [exact E2|]. split; [exact Hn|].
  exact (proj2 (Hz eq_refl eq_refl)).
Defined.

(** ** The speed sample *)

Lemma forallb_seq_2 (P : nat -> nat -> bool) (a n b m : nat) :
  forallb (fun c => forallb (fun f => P c f) (seq b m)) (seq a n) = true ->
  forall c f : nat, (a <= c < a + n)%nat -> (b <= f < b + m)%nat -> P c f = true.
Proof.
  intros H c f Hc Hf.
  assert (Hrow : forallb (fun f => P c f) (seq b m) = true).
  { revert H. generalize (seq a n) (proj2 (in_seq n a c) Hc).
    intros l Hin Hall. rewrite forallb_forall in Hall. now apply Hall. }
  revert Hrow. generalize (seq b m) (proj2 (in_seq m b f) Hf).
  intros l Hin Hall. rewrite forallb_forall in Hall. now apply Hall.
Qed.

Lemma speedPct_close_small :
  forallb (fun c => forallb (fun f => speedPct_close (Z.of_nat c) (Z.of_nat f)) (seq 1 80))
          (seq 0 81) = true.
Proof. vm_compute. reflexivity. Qed.

Lemma speedPct_close_range (cur ffs : Z) :
  0 <= cur <= 80 -> 1 <= ffs <= 80 -> speedPct_close cur ffs = true.
Proof.
  intros Hc Hf.
  rewrite <- (Z2Nat.id cur), <- (Z2Nat.id ffs) by lia.
  apply (forallb_seq_2 _ 0 81 1 80 speedPct_close_small); lia.
Qed.

Lemma div_by_zero_not_finite (x : JS.number) (sgn : bool) :
  JS.isFinite (JS.Math_round (JS.mul (JS.div x (S754_zero sgn)) (JS.of_Z 100))) = false.
Proof. destruct x as [s | s | | s m e]; destruct sgn; try destruct s; reflexivity. Qed.

(** C10, as the code has it.  For every flow response that carries a
    segment, [fetchSpeed] returns a sample whose [speedPct] is [Math.round]
    of the double-precision product [(currentSpeed / freeFlowSpeed) * 100].
    For whole speeds up to 80 km/h this is the exactly rounded percentage
    or, at an exact tie, one below it.  Nothing guards the division: with
    [freeFlowSpeed] zero the [speedPct] is not finite, and the sample is
    returned all the same (not [null]). *)
Theorem fetchSpeed_speedPct
    (cfg : V3.Config) (lat lng : string) (data : Api.Flow) (fd : Api.FlowSegment) (w : V3.World) :
  Api.flowSegmentData data = Some fd ->
  exists s : V3.Speed.t,
    eval (V3.fetchSpeed cfg lat lng (Body data)) w = Normal (Some s)
    /\ V3.Speed.speedPct s
       = JS.Math_round (JS.mul (JS.div (Api.currentSpeed fd) (Api.freeFlowSpeed fd)) (JS.of_Z 100))
    /\ (forall cur ffs : Z,
          0 <= cur <= 80 -> 1 <= ffs <= 80 ->
          Api.currentSpeed fd = JS.of_Z cur -> Api.freeFlowSpeed fd = JS.of_Z ffs ->
          JS.to_Z (V3.Speed.speedPct s) = Some (exact_percent cur ffs)
          \/ (percent_tie cur ffs = true
              /\ JS.to_Z (V3.Speed.speedPct s) = Some (exact_percent cur ffs - 1)))
    /\ (forall sgn : bool,
          Api.freeFlowSpeed fd = S754_zero sgn -> JS.isFinite (V3.Speed.speedPct s) = false).
Proof.
  intros Hfd. exists (speed_of fd).
  unfold eval. rewrite V3_fetchSpeed_run. simpl. rewrite Hfd. simpl.
  split; [reflexivity|]. split; [reflexivity|]. split.
  - intros cur ffs Hc Hf Ecur Effs.
    pose proof (speedPct_close_range cur ffs Hc Hf) as H.
    unfold speedPct_close, speedPct_int, speed_of in H. simpl in H.
    rewrite <- Ecur, <- Effs in H.
    destruct (JS.to_Z _) as [p|]; [|discriminate].
    apply orb_true_iff in H. destruct H as [H | H].
    + left. apply Z.eqb_eq in H. now subst.
    + right. apply andb_true_iff in H. destruct H as [Ht H].
      apply Z.eqb_eq in H. now subst.
  - intros sgn Hz. rewrite Hz. apply div_by_zero_not_finite.
Qed.

Lemma fetchSpeed_speedPct_witness :
  exists s : V3.Speed.t,
    eval (V3.fetchSpeed demo_config "35.1" "33.3"
            (Body (Api.mkFlow (Some (Api.mkFlowSegment (JS.of_Z 30) (JS.of_Z 0)))))) demo_world
    = Normal (Some s)
    /\ JS.isFinite (V3.Speed.speedPct s) = false.
Proof.
  destruct (fetchSpeed_speedPct demo_config "35.1" "33.3"
              (Api.mkFlow (Some (Api.mkFlowSegment (JS.of_Z 30) (JS.of_Z 0))))
              (Api.mkFlowSegment (JS.of_Z 30) (JS.of_Z 0)) demo_world eq_refl)
    as (s & E & _ & _ & Hz).
  exists s. split; [exact E|]. exact (Hz false eq_refl).
Defined.

(** C10 as stated fails: a segment with current speed 23 and free-flow
    speed 40 has 100 * 23 / 40 = 57.5, which rounds to 58, but the sample
    carries 57, because the double product (23 / 40) * 100 is just below
    57.5. *)
Lemma fetchSpeed_speedPct_not_exact :
  let fd := Api.mkFlowSegment (JS.of_Z 23) (JS.of_Z 40) in
  exists s : V3.Speed.t,
    eval (V3.fetchSpeed demo_config "35.1" "33.3" (Body (Api.mkFlow (Some fd)))) demo_world
    = Normal (Some s)
    /\ V3.Speed.speedPct s = JS.of_Z 57
    /\ exact_percent 23 40 = 58
    /\ V3.Speed.speedPct s <> JS.of_Z (exact_percent 23 40).
Proof.
  intros fd. exists (speed_of fd).
  split; [reflexivity|]. split; [vm_compute; reflexivity|].
  split; [reflexivity|]. vm_compute. discriminate.
Qed.

(** ** The worst severity of a crossing *)

Lemma worst_Level_max (r0 r1 : V3.Row.t) :
  V3.worst (Some r0) (Some r1) = Some (Level_max (V3.Row.level r0) (V3.Row.level r1)).
Proof.
  unfold V3.worst. rewrite !Level_rank_indexOf.
  destruct (V3.Row.level r0), (V3.Row.level r1); reflexivity.
Qed.

Lemma Level_max_is_max (a b : Level) :
  Level_le a (Level_max a b) /\ Level_le b (Level_max a b)
  /\ (Level_max a b = a \/ Level_max a b = b).
Proof. unfold Level_le. destruct a, b; simpl; repeat split; auto; lia. Qed.

(** Until both routes have a reading the badge is [null] ("Waiting"). *)
Lemma crossingWorst_waiting (rd : list (list (list V3.Row.t))) (ci : nat) :
  V3.latest rd ci 0 = None \/ V3.latest rd ci 1 = None -> V3.crossingWorst rd ci = None.
Proof.
  unfold V3.crossingWorst, V3.worst. intros [H | H]; rewrite H; [reflexivity|].
  now destruct (V3.latest rd ci 0).
Qed.

(** Every crossing of the table has exactly the two routes the badge looks
    at. *)
Lemma CROSSINGS_pairs :
  Forall (fun c => List.length (V3.Crossing.routes c) = 2%nat) V3.CROSSINGS.
Proof. repeat constructor. Qed.

(** C9.  The badge of a crossing whose two routes both have a latest
    reading is the maximum of the two latest levels for the order
    LOW < MODERATE < HIGH: it is one of the two and neither is above it;
    levels LOW and HIGH give HIGH, levels LOW and MODERATE give
    MODERATE. *)
Theorem crossingWorst_is_maximum
    (rd : list (list (list V3.Row.t))) (ci : nat) (r0 r1 : V3.Row.t) :
  V3.latest rd ci 0 = Some r0 ->
  V3.latest rd ci 1 = Some r1 ->
  exists worst : Level,
    V3.crossingWorst rd ci = Some worst
    /\ worst = Level_max (V3.Row.level r0) (V3.Row.level r1)
    /\ Level_le (V3.Row.level r0) worst
    /\ Level_le (V3.Row.level r1) worst
    /\ (worst = V3.Row.level r0 \/ worst = V3.Row.level r1)
    /\ (V3.Row.level r0 = LOW -> V3.Row.level r1 = HIGH -> worst = HIGH)
    /\ (V3.Row.level r0 = LOW -> V3.Row.level r1 = MODERATE -> worst = MODERATE).
Proof.
  intros H0 H1. exists (Level_max (V3.Row.level r0) (V3.Row.level r1)).
  unfold V3.crossingWorst. rewrite H0, H1, worst_Level_max.
  destruct (Level_max_is_max (V3.Row.level r0) (V3.Row.level r1)) as (Ha & Hb & Hc).
  split; [reflexivity|]. split; [reflexivity|].
  split; [exact Ha|]. split; [exact Hb|]. split; [exact Hc|].
  split; intros -> ->; reflexivity.
Qed.

Lemma crossingWorst_is_maximum_witness :
  V3.crossingWorst
    [[ [V3.Row.make "2026-02-27T11:20:00.000Z" 9 9 (JS.of_Z 1) 0 LOW None None];
       [V3.Row.make "2026-02-27T11:20:01.000Z" 43 10 (JS.of_Z 1) 33 HIGH None None] ]] 0
  = Some HIGH.
Proof.
  destruct (crossingWorst_is_maximum
    [[ [V3.Row.make "2026-02-27T11:20:00.000Z" 9 9 (JS.of_Z 1) 0 LOW None None];
       [V3.Row.make "2026-02-27T11:20:01.000Z" 43 10 (JS.of_Z 1) 33 HIGH None None] ]] 0
    (V3.Row.make "2026-02-27T11:20:00.000Z" 9 9 (JS.of_Z 1) 0 LOW None None)
    (V3.Row.make "2026-02-27T11:20:01.000Z" 43 10 (JS.of_Z 1) 33 HIGH None None)
    eq_refl eq_refl) as (worst & E & _ & _ & _ & _ & Hhigh & _).
  rewrite E. f_equal. exact (Hhigh eq_refl eq_refl).
Defined.

(** ** The weather cache *)

Lemma fetchWeather_hit (up : V3.Upstream) (w : V3.World) :
  V3.weatherFresh up (mem w) = true ->
  V3.fetchWeather up w = (Normal (V3.weatherCache (mem w)), w).
Proof.
  intros H. unfold V3.fetchWeather, mbind, Node_bind, gets. simpl. rewrite H. reflexivity.
Qed.

Lemma fetchWeather_miss (up : V3.Upstream) (w : V3.World) (c : Api.Current) :
  V3.weatherFresh up (mem w) = false ->
  V3.forecast up = Body (Api.mkForecast (Some c)) ->
  V3.fetchWeather up w = (Normal (Some (snapshot_of c)), cached w c (V3.now_store up)).
Proof.
  intros H Hf. unfold V3.fetchWeather, mbind, Node_bind, gets, try_catch, httpsGet.
  simpl. rewrite H, Hf. reflexivity.
Qed.

Lemma fetchWeather_miss_sends (up : V3.Upstream) (w : V3.World) :
  V3.weatherFresh up (mem w) = false ->
  requests (exec (V3.fetchWeather up) w) = (requests w ++ [V3.weatherUrl])%list.
Proof.
  intros H. unfold exec, V3.fetchWeather, mbind, Node_bind, gets, try_catch, httpsGet.
  simpl. rewrite H.
  destruct (V3.forecast up) as [[[c|]] | message]; reflexivity.
Qed.

(** C7.  Let a weather fetch miss the cache and its upstream call succeed,
    the reply being stored at time [now_store up1].  Then a second fetch
    less than ten minutes after that returns the identical snapshot, and the
    two fetches together sent exactly one weather request; a third fetch,
    ten minutes or more after the store, sends a second request.  A fetch
    within the ten minutes returns the cached snapshot and leaves the
    process as it is, whatever the provider would have answered. *)
Theorem fetchWeather_cache
    (w : V3.World) (up1 up2 up3 : V3.Upstream) (c : Api.Current) :
  V3.weatherFresh up1 (mem w) = false ->
  V3.forecast up1 = Body (Api.mkForecast (Some c)) ->
  V3.now_test up2 - V3.now_store up1 < 10 * 60 * 1000 ->
  10 * 60 * 1000 <= V3.now_test up3 - V3.now_store up1 ->
  let w1 := exec (V3.fetchWeather up1) w in
  let w2 := exec (V3.fetchWeather up2) w1 in
  let w3 := exec (V3.fetchWeather up3) w2 in
  exists snap : V3.Weather.t,
    eval (V3.fetchWeather up1) w = Normal (Some snap)
    /\ eval (V3.fetchWeather up2) w1 = Normal (Some snap)
    /\ requests w2 = (requests w ++ [V3.weatherUrl])%list
    /\ requests w3 = (requests w ++ [V3.weatherUrl; V3.weatherUrl])%list
    /\ (forall up : V3.Upstream,
          V3.now_test up - V3.now_store up1 < 10 * 60 * 1000 ->
          V3.fetchWeather up w1 = (Normal (Some snap), w1)).
Proof.
  intros Hmiss Hreply H2 H3 w1 w2 w3. exists (snapshot_of c).
  assert (E1 : V3.fetchWeather up1 w = (Normal (Some (snapshot_of c)), cached w c (V3.now_store up1)))
    by now apply fetchWeather_miss.
  assert (Ew1 : w1 = cached w c (V3.now_store up1)) by (unfold w1, exec; now rewrite E1).
  assert (Hhit : forall up : V3.Upstream,
             V3.now_test up - V3.now_store up1 < 10 * 60 * 1000 ->
             V3.fetchWeather up w1 = (Normal (Some (snapshot_of c)), w1)).
  { intros up Hup. rewrite Ew1. rewrite fetchWeather_hit; [reflexivity|].
    unfold V3.weatherFresh, cached. simpl. now apply Z.ltb_lt. }
  assert (Ew2 : w2 = w1) by (unfold w2, exec; now rewrite (Hhit up2 H2)).
  split; [unfold eval; now rewrite E1|].
  split; [unfold eval; now rewrite (Hhit up2 H2)|].
  split; [rewrite Ew2, Ew1; reflexivity|].
  split; [|exact Hhit].
  unfold w3. rewrite fetchWeather_miss_sends.
  - rewrite Ew2, Ew1. unfold cached. simpl. now rewrite <- app_assoc.
  - rewrite Ew2, Ew1. unfold V3.weatherFresh, cached. simpl. now apply Z.ltb_ge.
Qed.

Lemma fetchWeather_cache_witness :
  let sunny := Body (Api.mkForecast (Some (Api.mkCurrent (JS.of_Z 21) (JS.of_Z 0) 0 (JS.of_Z 9)))) in
  let nothing := fun _ _ : nat => @Failed Api.Routing "down" in
  let noflow := fun _ _ : nat => @Failed Api.Flow "down" in
  let up1 := V3.mkUpstream 1000 sunny 1200 nothing noflow (fun _ _ => "") (fun _ => None) in
  let up2 := V3.mkUpstream 301000 (Failed "down") 301200 nothing noflow (fun _ _ => "") (fun _ => None) in
  let up3 := V3.mkUpstream 601200 sunny 601400 nothing noflow (fun _ _ => "") (fun _ => None) in
  requests (exec (V3.fetchWeather up2) (exec (V3.fetchWeather up1) demo_world)) = [V3.weatherUrl]
  /\ requests (exec (V3.fetchWeather up3)
                 (exec (V3.fetchWeather up2) (exec (V3.fetchWeather up1) demo_world)))
     = [V3.weatherUrl; V3.weatherUrl].
Proof.
  intros sunny nothing noflow up1 up2 up3.
  destruct (fetchWeather_cache demo_world up1 up2 up3
              (Api.mkCurrent (JS.of_Z 21) (JS.of_Z 0) 0 (JS.of_Z 9))
              eq_refl eq_refl ltac:(simpl; lia) ltac:(simpl; lia))
    as (snap & _ & _ & R2 & R3 & _).
  split; [exact R2 | exact R3].
Defined.

(** ** Loops *)

Section Loops.
Context {Mem Line A : Type}.
Local Abbreviation W := (Process Mem Line).
Implicit Types (xs : list A) (body : nat -> A -> Node W unit) (step : nat -> A -> W -> W).

Lemma for_from_steps xs body step (i0 : nat) (w : W) :
  (forall k x w', xs !! k = Some x -> body (i0 + k)%nat x w' = (Normal tt, step (i0 + k)%nat x w')) ->
  for_from i0 xs body w = (Normal tt, steps_from i0 xs step w).
Proof.
  revert i0 w. induction xs as [|x xs IH]; intros i0 w H; simpl; [reflexivity|].
  unfold mbind, Node_bind.
  rewrite <- (Nat.add_0_r i0) at 1 3. rewrite (H 0%nat x w eq_refl), Nat.add_0_r.
  apply IH. intros k y w' Hk.
  replace (S i0 + k)%nat with (i0 + S k)%nat by lia. now apply H.
Qed.

Lemma steps_from_preserved (P : W -> Prop) xs step (i0 : nat) (w : W) :
  (forall k x w', xs !! k = Some x -> P w' -> P (step (i0 + k)%nat x w')) ->
  P w -> P (steps_from i0 xs step w).
Proof.
  revert i0 w. induction xs as [|x xs IH]; intros i0 w H Hw; simpl; [exact Hw|].
  apply IH.
  - intros k y w' Hk. replace (S i0 + k)%nat with (i0 + S k)%nat by lia. now apply H.
  - rewrite <- (Nat.add_0_r i0). now apply H.
Qed.

(** A view that only the step of entry [j] changes. *)
Lemma steps_from_view {V : Type} (view : W -> V) (F : A -> V -> V) xs step (i0 j : nat) (w : W) :
  (forall k x w', xs !! k = Some x -> k <> j -> view (step (i0 + k)%nat x w') = view w') ->
  (forall x w', xs !! j = Some x -> view (step (i0 + j)%nat x w') = F x (view w')) ->
  view (steps_from i0 xs step w)
  = match xs !! j with Some x => F x (view w) | None => view w end.
Proof.
  revert i0 j w. induction xs as [|x xs IH]; intros i0 j w Hother Hsame; simpl.
  - reflexivity.
  - destruct j as [|j]; simpl.
    + transitivity (view (step i0 x w)).
      * apply (steps_from_preserved (fun w' => view w' = view (step i0 x w))); [|reflexivity].
        intros k y w' Hk Hw'. rewrite <- Hw'.
        replace (S i0 + k)%nat with (i0 + S k)%nat by lia. apply Hother; [exact Hk | lia].
      * rewrite <- (Nat.add_0_r i0) at 1. now apply Hsame.
    + rewrite (IH (S i0) j (step i0 x w)).
      * assert (E : view (step i0 x w) = view w).
        { rewrite <- (Nat.add_0_r i0) at 1. apply Hother; [reflexivity | lia]. }
        now rewrite E.
      * intros k y w' Hk Hne. replace (S i0 + k)%nat with (i0 + S k)%nat by lia.
        apply Hother; [exact Hk | lia].
      * intros y w' Hj. replace (S i0 + j)%nat with (i0 + S j)%nat by lia. now apply Hsame.
Qed.

(** Something the step of entry [j] brings about and no step undoes. *)
Lemma steps_from_reached (Inv P : W -> Prop) xs step (i0 j : nat) (x : A) (w : W) :
  xs !! j = Some x ->
  (forall k y w', xs !! k = Some y -> Inv w' -> Inv (step (i0 + k)%nat y w')) ->
  (forall w', Inv w' -> P (step (i0 + j)%nat x w')) ->
  (forall k y w', xs !! k = Some y -> P w' -> P (step (i0 + k)%nat y w')) ->
  Inv w -> P (steps_from i0 xs step w).
Proof.
  revert i0 j w. induction xs as [|x0 xs IH]; intros i0 j w Hj HInv Hhit Hkeep Hw.
  - discriminate.
  - destruct j as [|j]; simpl in *.
    + inversion Hj; subst x0.
      apply steps_from_preserved.
      * intros k y w' Hk Hw'. replace (S i0 + k)%nat with (i0 + S k)%nat by lia.
        now apply Hkeep.
      * rewrite <- (Nat.add_0_r i0). now apply Hhit.
    + apply (IH (S i0) j).
      * exact Hj.
      * intros k y w' Hk Hw'. replace (S i0 + k)%nat with (i0 + S k)%nat by lia.
        now apply HInv.
      * intros w' Hw'. replace (S i0 + j)%nat with (i0 + S j)%nat by lia. now apply Hhit.
      * intros k y w' Hk Hw'. replace (S i0 + k)%nat with (i0 + S k)%nat by lia.
        now apply Hkeep.
      * rewrite <- (Nat.add_0_r i0). now apply (HInv 0%nat).
Qed.

End Loops.

(** ** Bounded arrays *)

Section Bounded.
Context {A : Type}.
Implicit Types (l k arr : list A) (n : nat).

Lemma lastn_length l n : (List.length (lastn n l) <= n)%nat.
Proof. unfold lastn. rewrite length_drop. lia. Qed.

Lemma lastn_short l n : (List.length l <= n)%nat -> lastn n l = l.
Proof. intros H. unfold lastn. now replace (List.length l - n)%nat with 0%nat by lia. Qed.

Lemma lastn_app_lastn l k n : lastn n (lastn n l ++ k) = lastn n (l ++ k).
Proof.
  unfold lastn. rewrite !length_app, length_drop, !drop_app, drop_drop, length_drop.
  f_equal; f_equal; lia.
Qed.

Lemma keep_lastn arr (x : A) n :
  (List.length arr <= n)%nat -> keep (Z.of_nat n) (arr ++ [x]) = lastn n (arr ++ [x]).
Proof.
  intros H. unfold keep, lastn, JS.length, JS.shift. rewrite length_app. simpl.
  destruct (Z.ltb_spec (Z.of_nat n) (Z.of_nat (List.length arr + 1))) as [Hlt | Hge].
  - replace (List.length arr + 1 - n)%nat with 1%nat by lia.
    destruct arr; reflexivity.
  - now replace (List.length arr + 1 - n)%nat with 0%nat by lia.
Qed.

Lemma keep_length arr (x : A) n :
  (List.length arr <= n)%nat -> (List.length (keep (Z.of_nat n) (arr ++ [x])) <= n)%nat.
Proof. intros H. rewrite keep_lastn by exact H. apply lastn_length. Qed.

Lemma lastn_last l n : (0 < n)%nat -> last (lastn n l) = last l.
Proof.
  intros Hn. unfold lastn. rewrite !last_lookup, length_drop, lookup_drop.
  destruct l as [|a l]; [reflexivity|]. simpl List.length. f_equal. lia.
Qed.

(** One entry more than fits: the first one is gone, the rest is there. *)
Lemma lastn_overflow l n : List.length l = S n -> lastn n l = tail l.
Proof.
  intros H. unfold lastn. rewrite H. replace (S n - n)%nat with 1%nat by lia.
  destruct l; reflexivity.
Qed.

End Bounded.

Lemma lastn_length_min {A : Type} (n : nat) (l : list A) :
  List.length (lastn n l) = Nat.min n (List.length l).
Proof. unfold lastn. rewrite length_drop. lia. Qed.

(** ** One poll of one route (v3) *)

Lemma slot_put_eq (rd : list (list (list V3.Row.t))) (ci ri : nat) (old arr : list V3.Row.t) :
  V3.slot rd ci ri = Some old -> V3.slot (put_slot rd ci ri arr) ci ri = Some arr.
Proof.
  unfold V3.slot, put_slot. intros H. rewrite list_lookup_alter_eq.
  destruct (rd !! ci) as [inner|]; simpl in *; [|discriminate].
  apply list_lookup_insert_eq. now apply lookup_lt_Some in H.
Qed.

Lemma slot_put_ne (rd : list (list (list V3.Row.t))) (ci ri cj rj : nat) (arr : list V3.Row.t) :
  (ci, ri) <> (cj, rj) -> V3.slot (put_slot rd ci ri arr) cj rj = V3.slot rd cj rj.
Proof.
  unfold V3.slot, put_slot. intros H.
  destruct (decide (ci = cj)) as [<- | Hc].
  - rewrite list_lookup_alter_eq. destruct (rd !! ci) as [inner|]; simpl; [|reflexivity].
    apply list_lookup_insert_ne. congruence.
  - now rewrite list_lookup_alter_ne.
Qed.

Lemma slot_put_is_Some (rd : list (list (list V3.Row.t))) (ci ri cj rj : nat) (arr : list V3.Row.t) :
  is_Some (V3.slot rd cj rj) -> is_Some (V3.slot (put_slot rd ci ri arr) cj rj).
Proof.
  intros [old H]. destruct (decide ((ci, ri) = (cj, rj))) as [E | N].
  - inversion E; subst. erewrite slot_put_eq; eauto.
  - rewrite slot_put_ne; eauto.
Qed.

Lemma put_slot_twice (rd : list (list (list V3.Row.t))) (ci ri : nat) (a b : list V3.Row.t) :
  put_slot (put_slot rd ci ri a) ci ri b = put_slot rd ci ri b.
Proof.
  unfold put_slot. revert ci. induction rd as [|inner rd IH]; intros [|ci]; simpl.
  - reflexivity.
  - reflexivity.
  - now rewrite list_insert_insert_eq.
  - f_equal. apply IH.
Qed.

Lemma V3_calls_run (cfg : V3.Config) (up : V3.Upstream) (ci ri : nat) (r : Route.t) (w : V3.World) :
  Promise_all
    (V3.fetchRoute cfg (Route.origin r) (Route.dest r) (V3.routing up ci ri))
    (V3.fetchSpeed cfg (Point.lat (Route.origin r)) (Point.lng (Route.origin r)) (V3.flow up ci ri))
    w
  = (match measure "No route" (V3.routing up ci ri) with
     | Normal m => Normal (m, sample (V3.flow up ci ri))
     | Throw message => Throw message
     end,
     sent w [V3.routeUrl cfg (Route.origin r) (Route.dest r);
             V3.speedUrl cfg (Point.lat (Route.origin r)) (Point.lng (Route.origin r))]).
Proof.
  unfold Promise_all. rewrite V3_fetchRoute_run, V3_fetchSpeed_run.
  unfold sent. simpl. rewrite <- app_assoc. simpl.
  destruct (measure "No route" (V3.routing up ci ri)); reflexivity.
Qed.

Lemma V3_pollRoute_run (crossings : list V3.Crossing.t) (cfg : V3.Config) (up : V3.Upstream)
    (weather : option V3.Weather.t) (ci : nat) (c : V3.Crossing.t) (ri : nat) (r : Route.t)
    (w : V3.World) :
  crossings !! ci = Some c ->
  V3.Crossing.routes c !! ri = Some r ->
  V3.pollRoute crossings cfg up weather ci c ri r w
  = (Normal tt, V3_polled cfg up weather ci c ri r w).
Proof.
  intros Hc Hr.
  unfold V3.pollRoute, try_catch, mbind, Node_bind. rewrite V3_calls_run.
  unfold V3_polled.
  destruct (measure "No route" (V3.routing up ci ri)) as [m | message]; [|reflexivity].
  unfold V3.readings_at, V3.readings_set, V3.appendCsv, mbind, Node_bind, gets, modify,
    mret, Node_ret, throw, print, appendFileSync, sent. simpl.
  destruct (V3.slot (V3.readings (mem w)) ci ri) as [arr|] eqn:Hslot; [|reflexivity].
  cbn [mem files console requests V3.readings V3.weatherCache V3.weatherLastFetch].
  pose proof (slot_put_eq _ _ _ _ (JS.push arr (V3_row up weather ci ri m)) Hslot) as Hput.
  pose proof (put_slot_twice (V3.readings (mem w)) ci ri
                (JS.push arr (V3_row up weather ci ri m))
                (JS.shift (JS.push arr (V3_row up weather ci ri m)))) as Htwice.
  unfold put_slot, V3_row in *. rewrite Hput.
  cbn [mem files console requests V3.readings V3.weatherCache V3.weatherLastFetch].
  rewrite Hc, Hr. unfold keep, JS.push.
  destruct (1000 <? JS.length _);
    cbn [mem files console requests V3.readings V3.weatherCache V3.weatherLastFetch];
    [unfold JS.push in Htwice; rewrite Htwice|];
    destruct (V3.disk up (Route.logFile r)); reflexivity.
Qed.

(** ** One cycle (v3) *)

Lemma fetchWeather_cases (up : V3.Upstream) (w : V3.World) :
  V3.fetchWeather up w
  = if V3.weatherFresh up (mem w) then (Normal (V3.weatherCache (mem w)), w)
    else match V3.forecast up with
         | Body (Api.mkForecast (Some c)) =>
             (Normal (Some (snapshot_of c)), cached w c (V3.now_store up))
         | _ => (Normal None, sent w [V3.weatherUrl])
         end.
Proof.
  destruct (V3.weatherFresh up (mem w)) eqn:Hfresh.
  - now apply fetchWeather_hit.
  - destruct (V3.forecast up) as [[[c|]] | message] eqn:Hf.
    + now apply fetchWeather_miss.
    + unfold V3.fetchWeather, mbind, Node_bind, gets, try_catch, httpsGet. simpl.
      rewrite Hfresh, Hf. reflexivity.
    + unfold V3.fetchWeather, mbind, Node_bind, gets, try_catch, httpsGet. simpl.
      rewrite Hfresh, Hf. reflexivity.
Qed.

Lemma fetchWeather_Normal (up : V3.Upstream) (w : V3.World) :
  V3.fetchWeather up w = (Normal (cycle_weather up w), exec (V3.fetchWeather up) w).
Proof.
  unfold cycle_weather, exec, eval. rewrite fetchWeather_cases.
  destruct (V3.weatherFresh up (mem w)); [reflexivity|].
  destruct (V3.forecast up) as [[[c|]] | message]; reflexivity.
Qed.

Lemma fetchWeather_frame (up : V3.Upstream) (w : V3.World) :
  V3.readings (mem (exec (V3.fetchWeather up) w)) = V3.readings (mem w)
  /\ files (exec (V3.fetchWeather up) w) = files w
  /\ console (exec (V3.fetchWeather up) w) = console w.
Proof.
  unfold exec. rewrite fetchWeather_cases.
  destruct (V3.weatherFresh up (mem w)); [auto|].
  destruct (V3.forecast up) as [[[c|]] | message]; auto.
Qed.

Lemma V3_after_weather_view (up : V3.Upstream) (w : V3.World) (ci ri : nat) (r : Route.t) :
  V3_view ci ri r (V3_after_weather up w) = V3_view ci ri r w.
Proof.
  destruct (fetchWeather_frame up w) as (Hr & Hf & _).
  unfold V3_after_weather, V3_view.
  destruct (cycle_weather up w); simpl; now rewrite Hr, Hf.
Qed.

Lemma V3_checkAll_run (crossings : list V3.Crossing.t) (cfg : V3.Config) (up : V3.Upstream)
    (w : V3.World) :
  V3.checkAll crossings cfg up w
  = (Normal tt, V3_outer crossings cfg up (cycle_weather up w) (V3_after_weather up w)).
Proof.
  unfold V3.checkAll, mbind, Node_bind. rewrite fetchWeather_Normal.
  unfold V3_after_weather, V3_outer, for_index.
  set (weather := cycle_weather up w).
  set (w0 := exec (V3.fetchWeather up) w).
  assert (Hloop : forall w1,
    for_from 0 crossings
      (fun ci crossing =>
         for_from 0 (V3.Crossing.routes crossing)
           (fun ri route => V3.pollRoute crossings cfg up weather ci crossing ri route)) w1
    = (Normal tt, steps_from 0 crossings (fun ci c => V3_inner cfg up weather ci c) w1)).
  { intros w1. apply for_from_steps. intros ci c w2 Hc. simpl in *.
    unfold V3_inner. apply for_from_steps. intros ri r w3 Hr. simpl.
    now apply V3_pollRoute_run. }
  destruct weather as [snap|]; simpl; apply Hloop.
Qed.

Lemma V3_polled_view_same (cfg : V3.Config) (up : V3.Upstream) (weather : option V3.Weather.t)
    (ci : nat) (c : V3.Crossing.t) (ri : nat) (r : Route.t) (w : V3.World) :
  V3_view ci ri r (V3_polled cfg up weather ci c ri r w)
  = V3_route_step up weather ci c ri r (V3_view ci ri r w).
Proof.
  unfold V3_view, V3_polled, V3_route_step. simpl.
  destruct (measure "No route" (V3.routing up ci ri)) as [m | message]; [|reflexivity].
  destruct (V3.slot (V3.readings (mem w)) ci ri) as [arr|] eqn:Hslot;
    [|simpl; now rewrite Hslot].
  destruct (V3.disk up (Route.logFile r)); simpl;
    rewrite (slot_put_eq _ _ _ _ _ Hslot); [reflexivity|].
  now rewrite lookup_insert_eq.
Qed.

Lemma V3_polled_view_other (cfg : V3.Config) (up : V3.Upstream) (weather : option V3.Weather.t)
    (ci : nat) (c : V3.Crossing.t) (ri : nat) (r : Route.t) (cj rj : nat) (r' : Route.t)
    (w : V3.World) :
  (ci, ri) <> (cj, rj) ->
  Route.logFile r <> Route.logFile r' ->
  V3_view cj rj r' (V3_polled cfg up weather ci c ri r w) = V3_view cj rj r' w.
Proof.
  intros Hne Hlog. unfold V3_view, V3_polled.
  destruct (measure "No route" (V3.routing up ci ri)) as [m | message]; [|reflexivity].
  destruct (V3.slot (V3.readings (mem w)) ci ri) as [arr|] eqn:Hslot; [|reflexivity].
  destruct (V3.disk up (Route.logFile r)); simpl; rewrite (slot_put_ne _ _ _ _ _ _ Hne);
    [reflexivity|].
  now rewrite lookup_insert_ne.
Qed.

(** A view of the process that only the poll of the route at [ci], [ri]
    changes. *)
Lemma V3_checkAll_local {V : Type} (view : V3.World -> V) (F : option V3.Weather.t -> V -> V)
    (crossings : list V3.Crossing.t) (cfg : V3.Config) (up : V3.Upstream)
    (ci : nat) (c : V3.Crossing.t) (ri : nat) (r : Route.t) (w : V3.World) :
  crossings !! ci = Some c ->
  V3.Crossing.routes c !! ri = Some r ->
  (forall weather w', view (V3_polled cfg up weather ci c ri r w') = F weather (view w')) ->
  (forall weather cj c' rj r' w',
      crossings !! cj = Some c' -> V3.Crossing.routes c' !! rj = Some r' ->
      (cj, rj) <> (ci, ri) ->
      view (V3_polled cfg up weather cj c' rj r' w') = view w') ->
  view (V3_after_weather up w) = view w ->
  view (exec (V3.checkAll crossings cfg up) w) = F (cycle_weather up w) (view w).
Proof.
  intros Hc Hr Hsame Hother Hweather. unfold exec. rewrite V3_checkAll_run. simpl.
  rewrite <- Hweather. clear Hweather.
  generalize (V3_after_weather up w) as w0. generalize (cycle_weather up w) as weather.
  intros weather w0. unfold V3_outer.
  rewrite (steps_from_view view (fun _ v => F weather v) crossings _ 0 ci w0).
  - now rewrite Hc.
  - intros cj c' w1 Hc' Hne. simpl. unfold V3_inner.
    apply (steps_from_preserved (fun w2 => view w2 = view w1)); [|reflexivity].
    intros rj r' w2 Hr' Hw2. simpl. rewrite <- Hw2.
    apply Hother; [exact Hc' | exact Hr' | congruence].
  - intros c' w1 Hc'. simpl. rewrite Hc in Hc'. inversion Hc'; subst c'.
    unfold V3_inner.
    rewrite (steps_from_view view (fun _ v => F weather v) (V3.Crossing.routes c) _ 0 ri w1).
    + now rewrite Hr.
    + intros rj r' w2 Hr' Hne. simpl.
      apply Hother; [exact Hc | exact Hr' | congruence].
    + intros r' w2 Hr'. simpl. rewrite Hr in Hr'. inversion Hr'; subst r'.
      apply Hsame.
Qed.

Lemma V3_checkAll_view (crossings : list V3.Crossing.t) (cfg : V3.Config) (up : V3.Upstream)
    (ci : nat) (c : V3.Crossing.t) (ri : nat) (r : Route.t) (w : V3.World) :
  V3_distinct_logs crossings ->
  crossings !! ci = Some c ->
  V3.Crossing.routes c !! ri = Some r ->
  V3_view ci ri r (exec (V3.checkAll crossings cfg up) w)
  = V3_route_step up (cycle_weather up w) ci c ri r (V3_view ci ri r w).
Proof.
  intros Hlogs Hc Hr.
  apply (V3_checkAll_local (V3_view ci ri r)
           (fun weather v => V3_route_step up weather ci c ri r v)
           crossings cfg up ci c ri r w Hc Hr).
  - intros. apply V3_polled_view_same.
  - intros weather cj c' rj r' w' Hc' Hr' Hne.
    apply V3_polled_view_other; [exact Hne|].
    intros Hlog. destruct (Hlogs _ _ _ _ _ _ _ _ Hc' Hr' Hc Hr Hlog). congruence.
  - apply V3_after_weather_view.
Qed.

Lemma V3_checkAll_slot (crossings : list V3.Crossing.t) (cfg : V3.Config) (up : V3.Upstream)
    (ci : nat) (c : V3.Crossing.t) (ri : nat) (r : Route.t) (w : V3.World) :
  crossings !! ci = Some c ->
  V3.Crossing.routes c !! ri = Some r ->
  V3.slot (V3.readings (mem (exec (V3.checkAll crossings cfg up) w))) ci ri
  = match V3_appended up w ci ri, V3.slot (V3.readings (mem w)) ci ri with
    | Some row, Some arr => Some (keep 1000 (arr ++ [row]))
    | _, old => old
    end.
Proof.
  intros Hc Hr. unfold V3_appended.
  rewrite (V3_checkAll_local (fun w' => V3.slot (V3.readings (mem w')) ci ri)
             (fun weather v =>
                match measure "No route" (V3.routing up ci ri), v with
                | Normal m, Some arr => Some (keep 1000 (arr ++ [V3_row up weather ci ri m]))
                | _, _ => v
                end) crossings cfg up ci c ri r w Hc Hr).
  - destruct (measure "No route" (V3.routing up ci ri));
      destruct (V3.slot (V3.readings (mem w)) ci ri); reflexivity.
  - intros weather w'.
    pose proof (V3_polled_view_same cfg up weather ci c ri r w') as H.
    unfold V3_view, V3_route_step in H. simpl in H.
    destruct (measure "No route" (V3.routing up ci ri));
      destruct (V3.slot (V3.readings (mem w')) ci ri); now inversion H.
  - intros weather cj c' rj r' w' Hc' Hr' Hne. unfold V3_polled.
    destruct (measure "No route" (V3.routing up cj rj)) as [m | message]; [|reflexivity].
    destruct (V3.slot (V3.readings (mem w')) cj rj) as [arr|]; [|reflexivity].
    destruct (V3.disk up (Route.logFile r')); simpl; now rewrite slot_put_ne.
  - destruct (fetchWeather_frame up w) as (Hrd & _ & _).
    unfold V3_after_weather. destruct (cycle_weather up w); simpl; now rewrite Hrd.
Qed.

Lemma steps_from_foldl {W A : Type} (f : W -> A -> W) (xs : list A) (i : nat) (w : W) :
  steps_from i xs (fun _ x w' => f w' x) w = foldl f w xs.
Proof. revert i w. induction xs as [|x xs IH]; intros i w; simpl; [reflexivity | apply IH]. Qed.

Lemma V3_cycles_run (crossings : list V3.Crossing.t) (cfg : V3.Config)
    (ticks : list V3.Upstream) (w : V3.World) :
  V3.cycles crossings cfg ticks w = (Normal tt, V3_run crossings cfg ticks w).
Proof.
  unfold V3.cycles, forEach, V3_run.
  rewrite <- (steps_from_foldl (fun w' up => exec (V3.checkAll crossings cfg up) w') ticks 0 w).
  apply for_from_steps. intros k up w' _. unfold exec. now rewrite V3_checkAll_run.
Qed.

(** After any cycles, a route's array is the last 1000 of what it held
    followed by what the cycles appended. *)
Lemma V3_run_slot (crossings : list V3.Crossing.t) (cfg : V3.Config)
    (ci : nat) (c : V3.Crossing.t) (ri : nat) (r : Route.t)
    (ticks : list V3.Upstream) (w : V3.World) (arr : list V3.Row.t) :
  crossings !! ci = Some c ->
  V3.Crossing.routes c !! ri = Some r ->
  V3.slot (V3.readings (mem w)) ci ri = Some arr ->
  (List.length arr <= 1000)%nat ->
  V3.slot (V3.readings (mem (V3_run crossings cfg ticks w))) ci ri
  = Some (lastn 1000 (arr ++ V3_history crossings cfg ci ri ticks w)).
Proof.
  intros Hc Hr. revert w arr.
  induction ticks as [|up ticks IH]; intros w arr Hslot Hlen; simpl.
  - rewrite app_nil_r, lastn_short by exact Hlen. exact Hslot.
  - pose proof (V3_checkAll_slot crossings cfg up ci c ri r w Hc Hr) as Hstep.
    rewrite Hslot in Hstep.
    destruct (V3_appended up w ci ri) as [row|]; simpl.
    + rewrite (IH _ _ Hstep) by (apply (keep_length arr row 1000 Hlen)).
      f_equal. change 1000 with (Z.of_nat 1000) at 1.
      rewrite keep_lastn by exact Hlen.
      rewrite lastn_app_lastn. now rewrite <- app_assoc.
    + now rewrite (IH _ _ Hstep Hlen).
Qed.

Lemma V3_boot_slot (crossings : list V3.Crossing.t) (ci : nat) (c : V3.Crossing.t)
    (ri : nat) (r : Route.t) :
  crossings !! ci = Some c ->
  V3.Crossing.routes c !! ri = Some r ->
  V3.slot (V3.readings_init crossings) ci ri = Some [].
Proof.
  intros Hc Hr. unfold V3.slot, V3.readings_init.
  rewrite list_lookup_fmap, Hc. simpl. now rewrite list_lookup_fmap, Hr.
Qed.

(** ** The log files (v3) *)

Lemma append_assoc (a b c : string) : (a +:+ b) +:+ c = a +:+ (b +:+ c).
Proof.
  induction a as [|ch a IH]; [reflexivity|].
  change (String ch ((a +:+ b) +:+ c) = String ch (a +:+ (b +:+ c))). now rewrite IH.
Qed.

Lemma append_empty_r (a : string) : a +:+ "" = a.
Proof.
  induction a as [|ch a IH]; [reflexivity|].
  change (String ch (a +:+ "") = String ch a). now rewrite IH.
Qed.

Lemma text_app (xs ys : list string) : text (xs ++ ys) = text xs +:+ text ys.
Proof.
  induction xs as [|x xs IH]; [reflexivity|].
  change (x +:+ text (xs ++ ys) = (x +:+ text xs) +:+ text ys).
  now rewrite IH, append_assoc.
Qed.

Lemma count_lines_app (a b : string) :
  count_lines (a +:+ b) = (count_lines a + count_lines b)%nat.
Proof.
  induction a as [|ch a IH]; [reflexivity|].
  change (count_lines (String ch (a +:+ b))
          = (count_lines (String ch a) + count_lines b)%nat).
  simpl. rewrite IH. lia.
Qed.


Lemma ensured_file {Mem Line} (header : string) (r : Route.t) (w : Process Mem Line) :
  files (ensured header r w) !! Route.logFile r
  = Some (default header (files w !! Route.logFile r)).
Proof.
  unfold ensured. case_bool_decide as H.
  - destruct H as [content H]. now rewrite H.
  - simpl. rewrite lookup_insert_eq.
    destruct (files w !! Route.logFile r) eqn:E; [|reflexivity].
    exfalso. apply H. eauto.
Qed.

Lemma ensured_other {Mem Line} (header : string) (r : Route.t) (w : Process Mem Line)
    (path : string) :
  Route.logFile r <> path -> files (ensured header r w) !! path = files w !! path.
Proof.
  intros Hne. unfold ensured. case_bool_decide; [reflexivity|].
  simpl. now rewrite lookup_insert_ne.
Qed.

Lemma ensured_mem {Mem Line} (header : string) (r : Route.t) (w : Process Mem Line) :
  mem (ensured header r w) = mem w.
Proof. unfold ensured. now case_bool_decide. Qed.

Lemma V3_ensureCsv_run (crossings : list V3.Crossing.t) (disk : string -> option string)
    (w : V3.World) :
  (forall path, disk path = None) ->
  V3.ensureCsv crossings disk w = (Normal tt, V3_ensured_all crossings w).
Proof.
  intros Hdisk. unfold V3.ensureCsv, forEach, V3_ensured_all.
  apply for_from_steps. intros ci c w1 _. simpl.
  apply for_from_steps. intros ri r w2 _. simpl.
  unfold mbind, Node_bind, existsSync, writeFileSync, ensured. rewrite Hdisk.
  now case_bool_decide.
Qed.

Lemma V3_ensured_all_mem (crossings : list V3.Crossing.t) (w : V3.World) :
  mem (V3_ensured_all crossings w) = mem w.
Proof.
  unfold V3_ensured_all.
  apply (steps_from_preserved (fun w' => mem w' = mem w)); [|reflexivity].
  intros ci c w1 _ H1. simpl.
  apply (steps_from_preserved (fun w' => mem w' = mem w)); [|exact H1].
  intros ri r w2 _ H2. simpl. now rewrite ensured_mem.
Qed.

Lemma V3_ensured_all_file (crossings : list V3.Crossing.t) (w : V3.World)
    (ci : nat) (c : V3.Crossing.t) (ri : nat) (r : Route.t) :
  V3_distinct_logs crossings ->
  crossings !! ci = Some c ->
  V3.Crossing.routes c !! ri = Some r ->
  files (V3_ensured_all crossings w) !! Route.logFile r
  = Some (default V3.HEADER (files w !! Route.logFile r)).
Proof.
  intros Hlogs Hc Hr. unfold V3_ensured_all.
  set (view := fun w' : V3.World => files w' !! Route.logFile r).
  set (F := fun v : option string => Some (default V3.HEADER v)).
  change (view (steps_from 0 crossings
            (fun _ c0 => steps_from 0 (V3.Crossing.routes c0) (fun _ r0 => ensured V3.HEADER r0)) w)
          = F (view w)).
  rewrite (steps_from_view view (fun _ v => F v) crossings _ 0 ci w).
  - now rewrite Hc.
  - intros cj c' w1 Hc' Hne. simpl.
    apply (steps_from_preserved (fun w2 => view w2 = view w1)); [|reflexivity].
    intros rj r' w2 Hr' Hw2. simpl. rewrite <- Hw2. unfold view.
    apply ensured_other. intros Hlog.
    destruct (Hlogs _ _ _ _ _ _ _ _ Hc' Hr' Hc Hr Hlog). congruence.
  - intros c' w1 Hc'. simpl. rewrite Hc in Hc'. inversion Hc'; subst c'.
    rewrite (steps_from_view view (fun _ v => F v) (V3.Crossing.routes c) _ 0 ri w1).
    + now rewrite Hr.
    + intros rj r' w2 Hr' Hne. simpl. unfold view.
      apply ensured_other. intros Hlog.
      destruct (Hlogs _ _ _ _ _ _ _ _ Hc Hr' Hc Hr Hlog). congruence.
    + intros r' w2 Hr'. simpl. rewrite Hr in Hr'. inversion Hr'; subst r'.
      unfold view, F. apply ensured_file.
Qed.

(** After any cycles, the log of a route is what it was followed by one
    line for every reading of the route whose write went through. *)
Lemma V3_run_log (crossings : list V3.Crossing.t) (cfg : V3.Config)
    (ci : nat) (c : V3.Crossing.t) (ri : nat) (r : Route.t)
    (ticks : list V3.Upstream) (w : V3.World) (content : string) :
  V3_distinct_logs crossings ->
  crossings !! ci = Some c ->
  V3.Crossing.routes c !! ri = Some r ->
  is_Some (V3.slot (V3.readings (mem w)) ci ri) ->
  files w !! Route.logFile r = Some content ->
  files (V3_run crossings cfg ticks w) !! Route.logFile r
  = Some (content +:+ text (map (V3.csvLine c r) (V3_logged crossings cfg ci ri r ticks w))).
Proof.
  intros Hlogs Hc Hr. revert w content.
  induction ticks as [|up ticks IH]; intros w content [arr Hslot] Hfile; simpl.
  - now rewrite append_empty_r.
  - pose proof (V3_checkAll_view crossings cfg up ci c ri r w Hlogs Hc Hr) as Hstep.
    unfold V3_view, V3_route_step in Hstep. rewrite Hslot, Hfile in Hstep. simpl in Hstep.
    unfold V3_appended.
    destruct (measure "No route" (V3.routing up ci ri)) as [m | message];
      inversion Hstep as [[Hslot' Hfile']]; clear Hstep.
    + destruct (V3.disk up (Route.logFile r)) as [fault|]; simpl.
      * now rewrite (IH _ content (ex_intro _ _ Hslot') Hfile').
      * rewrite (IH _ _ (ex_intro _ _ Hslot') Hfile').
        now rewrite append_assoc.
    + destruct (V3.disk up (Route.logFile r)); simpl;
        now rewrite (IH _ content (ex_intro _ _ Hslot') Hfile').
Qed.

Lemma V3_main_run (crossings : list V3.Crossing.t) (cfg : V3.Config)
    (boot_disk : string -> option string) (ticks : list V3.Upstream) (w : V3.World) :
  V3.tomtomKey cfg <> "" ->
  (forall path, boot_disk path = None) ->
  V3.main crossings cfg boot_disk ticks w
  = (Normal tt, V3_run crossings cfg ticks (V3_ensured_all crossings w)).
Proof.
  intros Hkey Hdisk. unfold V3.main. rewrite decide_False by exact Hkey.
  unfold mbind, Node_bind. rewrite V3_ensureCsv_run by exact Hdisk.
  apply V3_cycles_run.
Qed.

(** ** The two-route edition: one poll, one cycle, many cycles *)

Lemma V2_pollRoute_run (cfg : V2.Config) (up : V2.Upstream) (i : nat) (r : Route.t) (w : V2.World) :
  V2.routes cfg !! i = Some r ->
  V2.pollRoute cfg up i r w = (Normal tt, V2_polled cfg up i r w).
Proof.
  intros Hr.
  unfold V2.pollRoute, try_catch, mbind, Node_bind, print.
  rewrite V2_fetchRoute_run. unfold V2_polled.
  destruct (measure "No route returned from TomTom" (V2.routing up i)) as [m | message];
    [|reflexivity].
  unfold V2.readings_at, V2.readings_set, V2.appendCsv, mbind, Node_bind, gets, modify,
    mret, Node_ret, throw, print, appendFileSync, sent. simpl.
  destruct (mem w !! i) as [arr|] eqn:Hslot; [|reflexivity].
  cbn [mem files console requests].
  rewrite list_lookup_insert_eq by (now apply lookup_lt_Some in Hslot).
  cbn [mem files console requests]. rewrite Hr.
  unfold keep, JS.push, V2_row.
  destruct (500 <? JS.length _); destruct (V2.disk up (Route.logFile r));
    cbn [mem files console requests];
    rewrite ?list_insert_insert_eq, <- ?app_assoc; reflexivity.
Qed.

Lemma V2_checkAll_run (cfg : V2.Config) (up : V2.Upstream) (w : V2.World) :
  V2.checkAll cfg up w
  = (Normal tt, steps_from 0 (V2.routes cfg) (fun i r => V2_polled cfg up i r) w).
Proof.
  unfold V2.checkAll, for_index. apply for_from_steps.
  intros i r w' Hr. simpl. now apply V2_pollRoute_run.
Qed.

Lemma V2_checkAll_local {V : Type} (view : V2.World -> V) (F : V -> V)
    (cfg : V2.Config) (up : V2.Upstream) (i : nat) (r : Route.t) (w : V2.World) :
  V2.routes cfg !! i = Some r ->
  (forall w', view (V2_polled cfg up i r w') = F (view w')) ->
  (forall j r' w', V2.routes cfg !! j = Some r' -> j <> i ->
                   view (V2_polled cfg up j r' w') = view w') ->
  view (exec (V2.checkAll cfg up) w) = F (view w).
Proof.
  intros Hr Hsame Hother. unfold exec. rewrite V2_checkAll_run. simpl.
  rewrite (steps_from_view view (fun _ v => F v) (V2.routes cfg) _ 0 i w).
  - now rewrite Hr.
  - intros j r' w' Hr' Hne. simpl. now apply Hother.
  - intros r' w' Hr'. simpl. rewrite Hr in Hr'. inversion Hr'; subst r'. apply Hsame.
Qed.

Lemma V2_polled_view_same (cfg : V2.Config) (up : V2.Upstream) (i : nat) (r : Route.t)
    (w : V2.World) :
  V2_view i r (V2_polled cfg up i r w) = V2_route_step up i r (V2_view i r w).
Proof.
  unfold V2_view, V2_polled, V2_route_step. simpl.
  destruct (measure "No route returned from TomTom" (V2.routing up i)) as [m | message];
    [|reflexivity].
  destruct (mem w !! i) as [arr|] eqn:Hslot; [|simpl; now rewrite Hslot].
  assert (Hlt : (i < List.length (mem w))%nat) by (now apply lookup_lt_Some in Hslot).
  destruct (V2.disk up (Route.logFile r)); simpl;
    rewrite list_lookup_insert_eq by exact Hlt; [reflexivity|].
  now rewrite lookup_insert_eq.
Qed.

Lemma V2_polled_slot_other (cfg : V2.Config) (up : V2.Upstream) (i j : nat) (r : Route.t)
    (w : V2.World) :
  i <> j -> mem (V2_polled cfg up i r w) !! j = mem w !! j.
Proof.
  intros Hne. unfold V2_polled.
  destruct (measure "No route returned from TomTom" (V2.routing up i)) as [m | message];
    [|reflexivity].
  destruct (mem w !! i) as [arr|]; [|reflexivity].
  destruct (V2.disk up (Route.logFile r)); simpl; now rewrite list_lookup_insert_ne.
Qed.

Lemma V2_polled_file_other (cfg : V2.Config) (up : V2.Upstream) (i : nat) (r : Route.t)
    (w : V2.World) (path : string) :
  Route.logFile r <> path -> files (V2_polled cfg up i r w) !! path = files w !! path.
Proof.
  intros Hne. unfold V2_polled.
  destruct (measure "No route returned from TomTom" (V2.routing up i)) as [m | message];
    [|reflexivity].
  destruct (mem w !! i) as [arr|]; [|reflexivity].
  destruct (V2.disk up (Route.logFile r)); simpl; [reflexivity|].
  now rewrite lookup_insert_ne.
Qed.

Lemma V2_checkAll_view (cfg : V2.Config) (up : V2.Upstream) (i : nat) (r : Route.t) (w : V2.World) :
  V2_distinct_logs (V2.routes cfg) ->
  V2.routes cfg !! i = Some r ->
  V2_view i r (exec (V2.checkAll cfg up) w) = V2_route_step up i r (V2_view i r w).
Proof.
  intros Hlogs Hr.
  apply (V2_checkAll_local (V2_view i r) (V2_route_step up i r) cfg up i r w Hr).
  - intros. apply V2_polled_view_same.
  - intros j r' w' Hr' Hne. unfold V2_view.
    rewrite V2_polled_slot_other by exact Hne.
    rewrite V2_polled_file_other; [reflexivity|].
    intros Hlog. apply Hne. exact (Hlogs _ _ _ _ Hr' Hr Hlog).
Qed.

Lemma V2_checkAll_slot (cfg : V2.Config) (up : V2.Upstream) (i : nat) (r : Route.t) (w : V2.World) :
  V2.routes cfg !! i = Some r ->
  mem (exec (V2.checkAll cfg up) w) !! i
  = match V2_appended up i, mem w !! i with
    | Some row, Some arr => Some (keep 500 (arr ++ [row]))
    | _, old => old
    end.
Proof.
  intros Hr. unfold V2_appended.
  rewrite (V2_checkAll_local (fun w' => mem w' !! i)
             (fun v =>
                match measure "No route returned from TomTom" (V2.routing up i), v with
                | Normal m, Some arr => Some (keep 500 (arr ++ [V2_row up i m]))
                | _, _ => v
                end) cfg up i r w Hr).
  - destruct (measure "No route returned from TomTom" (V2.routing up i));
      destruct (mem w !! i); reflexivity.
  - intros w'.
    pose proof (V2_polled_view_same cfg up i r w') as H.
    unfold V2_view, V2_route_step in H. simpl in H.
    destruct (measure "No route returned from TomTom" (V2.routing up i));
      destruct (mem w' !! i); now inversion H.
  - intros j r' w' Hr' Hne. now apply V2_polled_slot_other.
Qed.

Lemma V2_cycles_run (cfg : V2.Config) (ticks : list V2.Upstream) (w : V2.World) :
  V2.cycles cfg ticks w = (Normal tt, V2_run cfg ticks w).
Proof.
  unfold V2.cycles, forEach, V2_run.
  rewrite <- (steps_from_foldl (fun w' up => exec (V2.checkAll cfg up) w') ticks 0 w).
  apply for_from_steps. intros k up w' _. unfold exec. now rewrite V2_checkAll_run.
Qed.

Lemma V2_run_slot (cfg : V2.Config) (i : nat) (r : Route.t)
    (ticks : list V2.Upstream) (w : V2.World) (arr : list V2.Row.t) :
  V2.routes cfg !! i = Some r ->
  mem w !! i = Some arr ->
  (List.length arr <= 500)%nat ->
  mem (V2_run cfg ticks w) !! i = Some (lastn 500 (arr ++ V2_history i ticks)).
Proof.
  intros Hr. revert w arr.
  induction ticks as [|up ticks IH]; intros w arr Hslot Hlen; simpl.
  - rewrite app_nil_r, lastn_short by exact Hlen. exact Hslot.
  - pose proof (V2_checkAll_slot cfg up i r w Hr) as Hstep.
    rewrite Hslot in Hstep.
    destruct (V2_appended up i) as [row|]; simpl.
    + rewrite (IH _ _ Hstep) by (apply (keep_length arr row 500 Hlen)).
      f_equal. change 500 with (Z.of_nat 500) at 1.
      rewrite keep_lastn by exact Hlen.
      rewrite lastn_app_lastn. now rewrite <- app_assoc.
    + now rewrite (IH _ _ Hstep Hlen).
Qed.

Lemma V2_boot_slot (cfg : V2.Config) (i : nat) (r : Route.t) :
  V2.routes cfg !! i = Some r -> V2.readings_init cfg !! i = Some [].
Proof. intros Hr. unfold V2.readings_init. now rewrite list_lookup_fmap, Hr. Qed.

Lemma V2_run_log (cfg : V2.Config) (i : nat) (r : Route.t)
    (ticks : list V2.Upstream) (w : V2.World) (content : string) :
  V2_distinct_logs (V2.routes cfg) ->
  V2.routes cfg !! i = Some r ->
  is_Some (mem w !! i) ->
  files w !! Route.logFile r = Some content ->
  files (V2_run cfg ticks w) !! Route.logFile r
  = Some (content +:+ text (map (V2.csvLine r) (V2_logged i r ticks))).
Proof.
  intros Hlogs Hr. revert w content.
  induction ticks as [|up ticks IH]; intros w content [arr Hslot] Hfile; simpl.
  - now rewrite append_empty_r.
  - pose proof (V2_checkAll_view cfg up i r w Hlogs Hr) as Hstep.
    unfold V2_view, V2_route_step in Hstep. rewrite Hslot, Hfile in Hstep. simpl in Hstep.
    unfold V2_appended.
    destruct (measure "No route returned from TomTom" (V2.routing up i)) as [m | message];
      inversion Hstep as [[Hslot' Hfile']]; clear Hstep.
    + destruct (V2.disk up (Route.logFile r)) as [fault|]; simpl.
      * now rewrite (IH _ content (ex_intro _ _ Hslot') Hfile').
      * rewrite (IH _ _ (ex_intro _ _ Hslot') Hfile').
        now rewrite append_assoc.
    + destruct (V2.disk up (Route.logFile r)); simpl;
        now rewrite (IH _ content (ex_intro _ _ Hslot') Hfile').
Qed.

Lemma V2_ensureCsv_run (cfg : V2.Config) (disk : string -> option string) (w : V2.World) :
  (forall path, disk path = None) ->
  V2.ensureCsv cfg disk w = (Normal tt, V2_ensured_all cfg w).
Proof.
  intros Hdisk. unfold V2.ensureCsv, forEach, V2_ensured_all.
  apply for_from_steps. intros i r w1 _. simpl.
  unfold mbind, Node_bind, existsSync, writeFileSync, ensured. rewrite Hdisk.
  now case_bool_decide.
Qed.

Lemma V2_ensured_all_mem (cfg : V2.Config) (w : V2.World) :
  mem (V2_ensured_all cfg w) = mem w.
Proof.
  unfold V2_ensured_all.
  apply (steps_from_preserved (fun w' => mem w' = mem w)); [|reflexivity].
  intros i r w1 _ H1. simpl. now rewrite ensured_mem.
Qed.

Lemma V2_ensured_all_file (cfg : V2.Config) (w : V2.World) (i : nat) (r : Route.t) :
  V2_distinct_logs (V2.routes cfg) ->
  V2.routes cfg !! i = Some r ->
  files (V2_ensured_all cfg w) !! Route.logFile r
  = Some (default V2.HEADER (files w !! Route.logFile r)).
Proof.
  intros Hlogs Hr. unfold V2_ensured_all.
  set (view := fun w' : V2.World => files w' !! Route.logFile r).
  set (F := fun v : option string => Some (default V2.HEADER v)).
  change (view (steps_from 0 (V2.routes cfg) (fun _ r0 => ensured V2.HEADER r0) w) = F (view w)).
  rewrite (steps_from_view view (fun _ v => F v) (V2.routes cfg) _ 0 i w).
  - now rewrite Hr.
  - intros j r' w1 Hr' Hne. simpl. unfold view.
    apply ensured_other. intros Hlog. apply Hne. exact (Hlogs _ _ _ _ Hr' Hr Hlog).
  - intros r' w1 Hr'. simpl. rewrite Hr in Hr'. inversion Hr'; subst r'.
    unfold view, F. apply ensured_file.
Qed.

Lemma V2_main_run (cfg : V2.Config) (boot_disk : string -> option string)
    (ticks : list V2.Upstream) (w : V2.World) :
  V2.tomtomKey cfg <> "" ->
  (forall path, boot_disk path = None) ->
  V2.main cfg boot_disk ticks w = (Normal tt, V2_run cfg ticks (V2_ensured_all cfg w)).
Proof.
  intros Hkey Hdisk. unfold V2.main. rewrite decide_False by exact Hkey.
  unfold mbind, Node_bind. rewrite V2_ensureCsv_run by exact Hdisk.
  apply V2_cycles_run.
Qed.

(** ** Tables whose log files differ *)

Lemma V2_NoDup_distinct (routes : list Route.t) :
  NoDup (map Route.logFile routes) -> V2_distinct_logs routes.
Proof.
  intros Hnd i j r r' Hi Hj Hlog.
  apply (NoDup_lookup (map Route.logFile routes) i j (Route.logFile r) Hnd).
  - change (map Route.logFile routes) with (Route.logFile <$> routes).
    now rewrite list_lookup_fmap, Hi.
  - change (map Route.logFile routes) with (Route.logFile <$> routes).
    now rewrite list_lookup_fmap, Hj, Hlog.
Qed.

Lemma V3_log_files_elem (crossings : list V3.Crossing.t) (ci ri : nat) (c : V3.Crossing.t)
    (r : Route.t) :
  crossings !! ci = Some c -> V3.Crossing.routes c !! ri = Some r ->
  Route.logFile r ∈ V3_log_files crossings.
Proof.
  intros Hc Hr. unfold V3_log_files. apply list_elem_of_In, in_flat_map.
  exists c. split.
  - apply list_elem_of_In. eapply list_elem_of_lookup_2; eauto.
  - apply in_map. apply list_elem_of_In. eapply list_elem_of_lookup_2; eauto.
Qed.

Lemma V3_NoDup_distinct (crossings : list V3.Crossing.t) :
  NoDup (V3_log_files crossings) -> V3_distinct_logs crossings.
Proof.
  unfold V3_distinct_logs.
  induction crossings as [|c0 crossings IH]; intros Hnd ci ri cj rj c r c' r' Hc Hr Hc' Hr' Hlog.
  - discriminate.
  - change (V3_log_files (c0 :: crossings))
      with (map Route.logFile (V3.Crossing.routes c0) ++ V3_log_files crossings)%list in Hnd.
    apply NoDup_app in Hnd. destruct Hnd as (Hhead & Hapart & Hrest).
    destruct ci as [|ci], cj as [|cj]; simpl in Hc, Hc'.
    + inversion Hc; inversion Hc'; subst c c'. split; [reflexivity|].
      apply (NoDup_lookup _ ri rj (Route.logFile r) Hhead).
      * change (map Route.logFile (V3.Crossing.routes c0))
          with (Route.logFile <$> V3.Crossing.routes c0).
        now rewrite list_lookup_fmap, Hr.
      * change (map Route.logFile (V3.Crossing.routes c0))
          with (Route.logFile <$> V3.Crossing.routes c0).
        now rewrite list_lookup_fmap, Hr', Hlog.
    + inversion Hc; subst c. exfalso.
      apply (Hapart (Route.logFile r)).
      * apply list_elem_of_In, in_map, list_elem_of_In. eapply list_elem_of_lookup_2; eauto.
      * rewrite Hlog. eapply V3_log_files_elem; eauto.
    + inversion Hc'; subst c'. exfalso.
      apply (Hapart (Route.logFile r')).
      * apply list_elem_of_In, in_map, list_elem_of_In. eapply list_elem_of_lookup_2; eauto.
      * rewrite <- Hlog. eapply V3_log_files_elem; eauto.
    + destruct (IH Hrest ci ri cj rj c r c' r' Hc Hr Hc' Hr' Hlog) as [-> ->]. now split.
Qed.

Lemma CROSSINGS_distinct_logs : V3_distinct_logs V3.CROSSINGS.
Proof. apply V3_NoDup_distinct. apply (bool_decide_unpack _). vm_compute. exact I. Qed.

Lemma default_routes_distinct_logs : V2_distinct_logs V2.default_routes.
Proof. apply V2_NoDup_distinct. apply (bool_decide_unpack _). vm_compute. exact I. Qed.

(** ** Counting readings and log lines *)

Lemma V2_history_length (i : nat) (ticks : list V2.Upstream) :
  List.length (V2_history i ticks)
  = List.length (filter (fun up => fetch_ok "No route returned from TomTom" (V2.routing up i)) ticks).
Proof.
  unfold V2_history. induction ticks as [|up ticks IH]; [reflexivity|].
  simpl. rewrite length_app, IH. rewrite filter_cons.
  unfold V2_appended, fetch_ok.
  destruct (measure "No route returned from TomTom" (V2.routing up i)); simpl;
    reflexivity.
Qed.



Lemma V3_history_length (crossings : list V3.Crossing.t) (cfg : V3.Config) (ci ri : nat)
    (ticks : list V3.Upstream) (w : V3.World) :
  List.length (V3_history crossings cfg ci ri ticks w)
  = List.length (filter (fun up => fetch_ok "No route" (V3.routing up ci ri)) ticks).
Proof.
  revert w. induction ticks as [|up ticks IH]; intros w; [reflexivity|].
  simpl. rewrite length_app, IH. rewrite filter_cons.
  unfold V3_appended, fetch_ok.
  destruct (measure "No route" (V3.routing up ci ri)); simpl;
    reflexivity.
Qed.



(** ** What a cycle prints about a failure *)

Lemma V3_polled_console (cfg : V3.Config) (up : V3.Upstream) (weather : option V3.Weather.t)
    (ci : nat) (c : V3.Crossing.t) (ri : nat) (r : Route.t) (w : V3.World) (l : V3.Line) :
  l ∈ console w -> l ∈ console (V3_polled cfg up weather ci c ri r w).
Proof.
  intros H. unfold V3_polled.
  destruct (measure "No route" (V3.routing up ci ri)) as [m | message]; simpl;
    [|apply elem_of_app; now left].
  destruct (V3.slot (V3.readings (mem w)) ci ri) as [arr|]; simpl;
    [|apply elem_of_app; now left].
  destruct (V3.disk up (Route.logFile r)); simpl; apply elem_of_app; now left.
Qed.

Lemma V3_polled_slot_is_Some (cfg : V3.Config) (up : V3.Upstream) (weather : option V3.Weather.t)
    (ci : nat) (c : V3.Crossing.t) (ri : nat) (r : Route.t) (cj rj : nat) (w : V3.World) :
  is_Some (V3.slot (V3.readings (mem w)) cj rj) ->
  is_Some (V3.slot (V3.readings (mem (V3_polled cfg up weather ci c ri r w))) cj rj).
Proof.
  intros H. unfold V3_polled.
  destruct (measure "No route" (V3.routing up ci ri)) as [m | message]; [|exact H].
  destruct (V3.slot (V3.readings (mem w)) ci ri) as [arr|]; [|exact H].
  destruct (V3.disk up (Route.logFile r)); simpl; now apply slot_put_is_Some.
Qed.

Lemma V3_polled_reports (cfg : V3.Config) (up : V3.Upstream) (weather : option V3.Weather.t)
    (ci : nat) (c : V3.Crossing.t) (ri : nat) (r : Route.t) (w : V3.World) (message : string) :
  is_Some (V3.slot (V3.readings (mem w)) ci ri) ->
  measure "No route" (V3.routing up ci ri) = Throw message
  \/ ((exists m, measure "No route" (V3.routing up ci ri) = Normal m)
      /\ V3.disk up (Route.logFile r) = Some message) ->
  V3.err_route (V3.Crossing.shortName c) (Route.name r) message
  ∈ console (V3_polled cfg up weather ci c ri r w).
Proof.
  intros [arr Hslot] [Hfail | [[m Hm] Hdisk]]; unfold V3_polled.
  - rewrite Hfail. simpl. apply elem_of_app. right. now apply list_elem_of_singleton.
  - rewrite Hm, Hslot, Hdisk. simpl. apply elem_of_app. right. now apply list_elem_of_singleton.
Qed.

Lemma V3_checkAll_reports (crossings : list V3.Crossing.t) (cfg : V3.Config) (up : V3.Upstream)
    (ci : nat) (c : V3.Crossing.t) (ri : nat) (r : Route.t) (w : V3.World) (message : string) :
  crossings !! ci = Some c ->
  V3.Crossing.routes c !! ri = Some r ->
  is_Some (V3.slot (V3.readings (mem w)) ci ri) ->
  measure "No route" (V3.routing up ci ri) = Throw message
  \/ ((exists m, measure "No route" (V3.routing up ci ri) = Normal m)
      /\ V3.disk up (Route.logFile r) = Some message) ->
  V3.err_route (V3.Crossing.shortName c) (Route.name r) message
  ∈ console (exec (V3.checkAll crossings cfg up) w).
Proof.
  intros Hc Hr Hslot Hcase. unfold exec. rewrite V3_checkAll_run. simpl.
  set (Inv := fun w' : V3.World => is_Some (V3.slot (V3.readings (mem w')) ci ri)).
  set (P := fun w' : V3.World =>
              V3.err_route (V3.Crossing.shortName c) (Route.name r) message ∈ console w').
  assert (Hinner_inv : forall cj c' w', Inv w' -> Inv (V3_inner cfg up (cycle_weather up w) cj c' w')).
  { intros cj c' w' Hw'. unfold V3_inner. apply steps_from_preserved; [|exact Hw'].
    intros rj r' w2 _ Hw2. now apply V3_polled_slot_is_Some. }
  assert (Hinner_keep : forall cj c' w', P w' -> P (V3_inner cfg up (cycle_weather up w) cj c' w')).
  { intros cj c' w' Hw'. unfold V3_inner. apply steps_from_preserved; [|exact Hw'].
    intros rj r' w2 _ Hw2. now apply V3_polled_console. }
  unfold V3_outer.
  apply (steps_from_reached Inv P crossings _ 0 ci c _ Hc).
  - intros cj c' w' _ Hw'. now apply Hinner_inv.
  - intros w' Hw'. simpl. unfold V3_inner.
    apply (steps_from_reached Inv P (V3.Crossing.routes c) _ 0 ri r _ Hr).
    + intros rj r' w2 _ Hw2. now apply V3_polled_slot_is_Some.
    + intros w2 Hw2. simpl. now apply V3_polled_reports.
    + intros rj r' w2 _ Hw2. now apply V3_polled_console.
    + exact Hw'.
  - intros cj c' w' _ Hw'. now apply Hinner_keep.
  - unfold Inv. destruct (fetchWeather_frame up w) as (Hrd & _ & _).
    unfold V3_after_weather. destruct (cycle_weather up w); simpl; now rewrite Hrd.
Qed.

Lemma V2_polled_console (cfg : V2.Config) (up : V2.Upstream) (i : nat) (r : Route.t)
    (w : V2.World) (l : V2.Line) :
  l ∈ console w -> l ∈ console (V2_polled cfg up i r w).
Proof.
  intros H. unfold V2_polled.
  destruct (measure "No route returned from TomTom" (V2.routing up i)) as [m | message]; simpl;
    [|rewrite !elem_of_app; auto].
  destruct (mem w !! i) as [arr|]; simpl; [|rewrite !elem_of_app; auto].
  destruct (V2.disk up (Route.logFile r)); simpl; rewrite !elem_of_app; auto.
Qed.

Lemma V2_polled_slot_is_Some (cfg : V2.Config) (up : V2.Upstream) (i : nat) (r : Route.t)
    (j : nat) (w : V2.World) :
  is_Some (mem w !! j) -> is_Some (mem (V2_polled cfg up i r w) !! j).
Proof.
  intros H. unfold V2_polled.
  destruct (measure "No route returned from TomTom" (V2.routing up i)) as [m | message];
    [|exact H].
  destruct (mem w !! i) as [arr|]; [|exact H].
  destruct (V2.disk up (Route.logFile r)); simpl;
    apply lookup_lt_is_Some; rewrite length_insert; now apply lookup_lt_is_Some.
Qed.

Lemma V2_checkAll_reports (cfg : V2.Config) (up : V2.Upstream) (i : nat) (r : Route.t)
    (w : V2.World) (message : string) :
  V2.routes cfg !! i = Some r ->
  is_Some (mem w !! i) ->
  measure "No route returned from TomTom" (V2.routing up i) = Throw message
  \/ ((exists m, measure "No route returned from TomTom" (V2.routing up i) = Normal m)
      /\ V2.disk up (Route.logFile r) = Some message) ->
  V2.err_route (Route.name r) message ∈ console (exec (V2.checkAll cfg up) w).
Proof.
  intros Hr Hslot Hcase. unfold exec. rewrite V2_checkAll_run. simpl.
  apply (steps_from_reached (fun w' : V2.World => is_Some (mem w' !! i))
           (fun w' : V2.World => V2.err_route (Route.name r) message ∈ console w')
           (V2.routes cfg) _ 0 i r _ Hr).
  - intros j r' w' _ Hw'. now apply V2_polled_slot_is_Some.
  - intros w' [arr Harr]. simpl. unfold V2_polled.
    destruct Hcase as [Hfail | [[m Hm] Hdisk]].
    + rewrite Hfail. simpl. apply elem_of_app. right. now apply list_elem_of_singleton.
    + rewrite Hm, Harr, Hdisk. simpl. apply elem_of_app. right. now apply list_elem_of_singleton.
  - intros j r' w' _ Hw'. now apply V2_polled_console.
  - exact Hslot.
Qed.

Lemma keep_last {A : Type} (cap : Z) (arr : list A) (x : A) :
  0 < cap -> last (keep cap (arr ++ [x])) = Some x.
Proof.
  intros Hcap. unfold keep, JS.length, JS.shift.
  destruct (Z.ltb_spec cap (Z.of_nat (List.length (arr ++ [x])))) as [Hlt | _];
    [|apply last_snoc].
  rewrite length_app in Hlt. simpl in Hlt.
  destruct arr as [|a arr]; simpl in *; [lia|]. apply last_snoc.
Qed.

(** ** The delay of a reading *)

Lemma keep_elem {A : Type} (cap : Z) (arr : list A) (x : A) : x ∈ keep cap arr -> x ∈ arr.
Proof.
  unfold keep, JS.shift. destruct (cap <? JS.length arr); [|auto].
  destruct arr as [|a arr]; simpl; [auto|]. intros H. apply elem_of_cons. now right.
Qed.

Lemma keep_Forall {A : Type} (P : A -> Prop) (cap : Z) (arr : list A) (x : A) :
  Forall P arr -> P x -> Forall P (keep cap (arr ++ [x])).
Proof.
  intros Harr Hx. apply Forall_forall. intros y Hy. apply keep_elem in Hy.
  apply elem_of_app in Hy. destruct Hy as [Hy | Hy].
  - rewrite Forall_forall in Harr. now apply Harr.
  - apply list_elem_of_singleton in Hy. now subst.
Qed.

Lemma V2_row_clamped (up : V2.Upstream) (i : nat) (m : Measurement.t) : V2_clamped (V2_row up i m).
Proof. unfold V2_clamped, V2_row, JS.Math_max. simpl. lia. Qed.

Lemma V3_row_clamped (up : V3.Upstream) (weather : option V3.Weather.t) (ci ri : nat)
    (m : Measurement.t) : V3_clamped (V3_row up weather ci ri m).
Proof. unfold V3_clamped, V3_row, JS.Math_max. simpl. lia. Qed.

Lemma V2_polled_clamped (cfg : V2.Config) (up : V2.Upstream) (i : nat) (r : Route.t) (w : V2.World) :
  Forall (Forall V2_clamped) (mem w) -> Forall (Forall V2_clamped) (mem (V2_polled cfg up i r w)).
Proof.
  intros H. unfold V2_polled.
  destruct (measure "No route returned from TomTom" (V2.routing up i)) as [m | message];
    [|exact H].
  destruct (mem w !! i) as [arr|] eqn:Hslot; [|exact H].
  assert (Hnew : Forall (Forall V2_clamped) (<[i := keep 500 (arr ++ [V2_row up i m])]> (mem w))).
  { apply Forall_insert; [exact H|]. apply keep_Forall; [|apply V2_row_clamped].
    rewrite Forall_forall in H. apply H. eapply list_elem_of_lookup_2; eauto. }
  destruct (V2.disk up (Route.logFile r)); exact Hnew.
Qed.

Lemma V3_polled_clamped (cfg : V3.Config) (up : V3.Upstream) (weather : option V3.Weather.t)
    (ci : nat) (c : V3.Crossing.t) (ri : nat) (r : Route.t) (w : V3.World) :
  Forall (Forall (Forall V3_clamped)) (V3.readings (mem w)) ->
  Forall (Forall (Forall V3_clamped)) (V3.readings (mem (V3_polled cfg up weather ci c ri r w))).
Proof.
  intros H. unfold V3_polled.
  destruct (measure "No route" (V3.routing up ci ri)) as [m | message]; [|exact H].
  destruct (V3.slot (V3.readings (mem w)) ci ri) as [arr|] eqn:Hslot; [|exact H].
  assert (Hnew : Forall (Forall (Forall V3_clamped))
            (put_slot (V3.readings (mem w)) ci ri (keep 1000 (arr ++ [V3_row up weather ci ri m])))).
  { unfold put_slot, V3.slot in *.
    destruct (V3.readings (mem w) !! ci) as [inner|] eqn:Hinner; simpl in Hslot; [|discriminate].
    assert (Hin : Forall (Forall V3_clamped) inner).
    { rewrite Forall_forall in H. apply H. eapply list_elem_of_lookup_2; eauto. }
    apply Forall_alter; [exact H|]. intros inner' Hinner' _.
    rewrite Hinner in Hinner'. inversion Hinner'; subst inner'.
    apply (Forall_insert (Forall V3_clamped) inner ri _ Hin).
    apply keep_Forall; [|apply V3_row_clamped].
    rewrite Forall_forall in Hin. apply Hin. eapply list_elem_of_lookup_2; eauto. }
  destruct (V3.disk up (Route.logFile r)); exact Hnew.
Qed.

Lemma V2_run_clamped (cfg : V2.Config) (ticks : list V2.Upstream) (w : V2.World) :
  Forall (Forall V2_clamped) (mem w) -> Forall (Forall V2_clamped) (mem (V2_run cfg ticks w)).
Proof.
  revert w. induction ticks as [|up ticks IH]; intros w H; simpl; [exact H|].
  apply IH. unfold exec. rewrite V2_checkAll_run. simpl.
  apply (steps_from_preserved (fun w' => Forall (Forall V2_clamped) (mem w'))); [|exact H].
  intros i r w' _ Hw'. now apply V2_polled_clamped.
Qed.

Lemma V3_run_clamped (crossings : list V3.Crossing.t) (cfg : V3.Config)
    (ticks : list V3.Upstream) (w : V3.World) :
  Forall (Forall (Forall V3_clamped)) (V3.readings (mem w)) ->
  Forall (Forall (Forall V3_clamped)) (V3.readings (mem (V3_run crossings cfg ticks w))).
Proof.
  revert w. induction ticks as [|up ticks IH]; intros w H; simpl; [exact H|].
  apply IH. unfold exec. rewrite V3_checkAll_run. simpl. unfold V3_outer.
  apply (steps_from_preserved
           (fun w' => Forall (Forall (Forall V3_clamped)) (V3.readings (mem w')))).
  - intros ci c w1 _ H1. simpl. unfold V3_inner.
    apply (steps_from_preserved
             (fun w' => Forall (Forall (Forall V3_clamped)) (V3.readings (mem w')))); [|exact H1].
    intros ri r w2 _ H2. now apply V3_polled_clamped.
  - destruct (fetchWeather_frame up w) as (Hrd & _ & _).
    unfold V3_after_weather. destruct (cycle_weather up w); simpl; now rewrite Hrd.
Qed.

(** What the reading built from a measurement holds. *)
Lemma V2_row_of (up : V2.Upstream) (i : nat) (m : Measurement.t) :
  V2.Row.trafficMin (V2_row up i m) = Measurement.trafficMin m
  /\ V2.Row.normalMin (V2_row up i m) = Measurement.normalMin m
  /\ V2.Row.delay (V2_row up i m)
     = Z.max 0 (Measurement.trafficMin m - Measurement.normalMin m).
Proof. repeat split. Qed.

Lemma V3_row_of (up : V3.Upstream) (weather : option V3.Weather.t) (ci ri : nat)
    (m : Measurement.t) :
  V3.Row.trafficMin (V3_row up weather ci ri m) = Measurement.trafficMin m
  /\ V3.Row.normalMin (V3_row up weather ci ri m) = Measurement.normalMin m
  /\ V3.Row.delay (V3_row up weather ci ri m)
     = Z.max 0 (Measurement.trafficMin m - Measurement.normalMin m).
Proof. repeat split. Qed.

(** C2.  Every measurement is stored with its delay clamped.  In a cycle
    (of either edition) in which the routing call of a route resolves
    with the measurement [m], the reading pushed on the array of the
    route, which is the latest reading of the route after the cycle,
    holds the two minute counts of [m] and
    [delay = max 0 (trafficMin m - normalMin m)]: never negative, and 0
    when the current time is not above the baseline.  So every reading
    held in memory, after any number of cycles from the start of the
    process, has [delay = max 0 (trafficMin - normalMin) >= 0]. *)
Theorem reading_delay_clamped
    (cfg2 : V2.Config) (files2 : gmap string string) (ticks2 : list V2.Upstream) (i : nat)
    (crossings : list V3.Crossing.t) (cfg3 : V3.Config) (files3 : gmap string string)
    (ticks3 : list V3.Upstream) (ci ri : nat) :
  (forall (up : V2.Upstream) (w : V2.World) (r : Route.t) (m : Measurement.t)
          (arr : list V2.Row.t),
      V2.routes cfg2 !! i = Some r ->
      eval (V2.fetchRoute cfg2 (Route.origin r) (Route.dest r) (V2.routing up i)) w = Normal m ->
      mem w !! i = Some arr ->
      exists row : V2.Row.t,
        mem (exec (V2.checkAll cfg2 up) w) !! i = Some (keep 500 (arr ++ [row]))
        /\ V2.latest (mem (exec (V2.checkAll cfg2 up) w)) i = Some row
        /\ V2.Row.trafficMin row = Measurement.trafficMin m
        /\ V2.Row.normalMin row = Measurement.normalMin m
        /\ V2.Row.delay row = Z.max 0 (Measurement.trafficMin m - Measurement.normalMin m)
        /\ 0 <= V2.Row.delay row
        /\ (Measurement.trafficMin m <= Measurement.normalMin m -> V2.Row.delay row = 0))
  /\ (forall (up : V3.Upstream) (w : V3.World) (c : V3.Crossing.t) (r : Route.t)
             (m : Measurement.t) (arr : list V3.Row.t),
        crossings !! ci = Some c ->
        V3.Crossing.routes c !! ri = Some r ->
        eval (V3.fetchRoute cfg3 (Route.origin r) (Route.dest r) (V3.routing up ci ri)) w
        = Normal m ->
        V3.slot (V3.readings (mem w)) ci ri = Some arr ->
        exists row : V3.Row.t,
          V3.slot (V3.readings (mem (exec (V3.checkAll crossings cfg3 up) w))) ci ri
          = Some (keep 1000 (arr ++ [row]))
          /\ V3.latest (V3.readings (mem (exec (V3.checkAll crossings cfg3 up) w))) ci ri
             = Some row
          /\ V3.Row.trafficMin row = Measurement.trafficMin m
          /\ V3.Row.normalMin row = Measurement.normalMin m
          /\ V3.Row.delay row = Z.max 0 (Measurement.trafficMin m - Measurement.normalMin m)
          /\ 0 <= V3.Row.delay row
          /\ (Measurement.trafficMin m <= Measurement.normalMin m -> V3.Row.delay row = 0))
  /\ (forall (arr : list V2.Row.t) (row : V2.Row.t),
        mem (exec (V2.cycles cfg2 ticks2) (V2.boot cfg2 files2)) !! i = Some arr ->
        row ∈ arr ->
        V2.Row.delay row = Z.max 0 (V2.Row.trafficMin row - V2.Row.normalMin row)
        /\ 0 <= V2.Row.delay row)
  /\ (forall (arr : list V3.Row.t) (row : V3.Row.t),
        V3.slot (V3.readings (mem (exec (V3.cycles crossings cfg3 ticks3)
                                        (V3.boot crossings files3)))) ci ri = Some arr ->
        row ∈ arr ->
        V3.Row.delay row = Z.max 0 (V3.Row.trafficMin row - V3.Row.normalMin row)
        /\ 0 <= V3.Row.delay row).
Proof.
  split; [|split; [|split]].
  - intros up w r m arr Hr Hm Hslot.
    unfold eval in Hm. rewrite V2_fetchRoute_run in Hm. cbn [fst] in Hm.
    exists (V2_row up i m).
    assert (Harr : mem (exec (V2.checkAll cfg2 up) w) !! i
                   = Some (keep 500 (arr ++ [V2_row up i m]))).
    { rewrite (V2_checkAll_slot cfg2 up i r w Hr). unfold V2_appended. now rewrite Hm, Hslot. }
    split; [exact Harr|].
    split; [unfold V2.latest; rewrite Harr; simpl; apply keep_last; lia|].
    destruct (V2_row_of up i m) as (Ht & Hn & Hd). rewrite Hd.
    split; [exact Ht|]. split; [exact Hn|]. split; [reflexivity|]. split; lia.
  - intros up w c r m arr Hc Hr Hm Hslot.
    unfold eval in Hm. rewrite V3_fetchRoute_run in Hm. cbn [fst] in Hm.
    exists (V3_row up (cycle_weather up w) ci ri m).
    assert (Harr : V3.slot (V3.readings (mem (exec (V3.checkAll crossings cfg3 up) w))) ci ri
                   = Some (keep 1000 (arr ++ [V3_row up (cycle_weather up w) ci ri m]))).
    { rewrite (V3_checkAll_slot crossings cfg3 up ci c ri r w Hc Hr).
      unfold V3_appended. now rewrite Hm, Hslot. }
    split; [exact Harr|].
    split; [unfold V3.latest; rewrite Harr; simpl; apply keep_last; lia|].
    destruct (V3_row_of up (cycle_weather up w) ci ri m) as (Ht & Hn & Hd). rewrite Hd.
    split; [exact Ht|]. split; [exact Hn|]. split; [reflexivity|]. split; lia.
  - intros arr row Harr Hrow. unfold exec in Harr. rewrite V2_cycles_run in Harr. simpl in Harr.
    assert (H : Forall (Forall V2_clamped) (mem (V2_run cfg2 ticks2 (V2.boot cfg2 files2)))).
    { apply V2_run_clamped. simpl. unfold V2.readings_init.
      apply Forall_fmap, Forall_forall. intros r _. constructor. }
    rewrite Forall_forall in H. specialize (H arr (list_elem_of_lookup_2 _ _ _ Harr)).
    rewrite Forall_forall in H. exact (H row Hrow).
  - intros arr row Harr Hrow. unfold exec in Harr. rewrite V3_cycles_run in Harr. simpl in Harr.
    assert (H : Forall (Forall (Forall V3_clamped))
                  (V3.readings (mem (V3_run crossings cfg3 ticks3 (V3.boot crossings files3))))).
    { apply V3_run_clamped. simpl. unfold V3.readings_init.
      apply Forall_fmap, Forall_forall. intros c _. simpl.
      apply Forall_fmap, Forall_forall. intros r _. constructor. }
    unfold V3.slot in Harr.
    destruct (V3.readings _ !! ci) as [inner|] eqn:Hinner; simpl in Harr; [|discriminate].
    rewrite Forall_forall in H. specialize (H inner (list_elem_of_lookup_2 _ _ _ Hinner)).
    rewrite Forall_forall in H. specialize (H arr (list_elem_of_lookup_2 _ _ _ Harr)).
    rewrite Forall_forall in H. exact (H row Hrow).
Qed.

Lemma reading_delay_clamped_witness :
  let up3 :=
    V3.mkUpstream 0 (Failed "offline") 0
      (fun _ _ => demo_reply 500 (Some 600) None) (fun _ _ => Failed "offline")
      (fun _ _ => "2026-02-27T11:20:00.000Z") (fun _ => None) in
  (exists row : V2.Row.t,
      V2.latest (mem (exec (V2.checkAll demo_config2 (demo_up2 0)) demo_world2)) 0 = Some row
      /\ V2.Row.trafficMin row = 8 /\ V2.Row.normalMin row = 10 /\ V2.Row.delay row = 0)
  /\ (exists row : V3.Row.t,
        V3.latest (V3.readings (mem (exec (V3.checkAll V3.CROSSINGS demo_config up3) demo_world)))
          0 1 = Some row
        /\ V3.Row.trafficMin row = 8 /\ V3.Row.normalMin row = 10 /\ V3.Row.delay row = 0).
Proof.
  intros up3.
  destruct (reading_delay_clamped demo_config2 ∅ [] 0 V3.CROSSINGS demo_config ∅ [] 0 1)
    as (H2 & H3 & _).
  split.
  - destruct (H2 (demo_up2 0) demo_world2
                (Route.make "South to North" "log-south-to-north.csv"
                   (Point.make "35.17738946649458" "33.323703790315996" "South")
                   (Point.make "35.18248230357691" "33.32297160214468" "North"))
                (measurement_of (Api.mkSummary 500 (Some 600) None 4200)) []
                eq_refl eq_refl eq_refl)
      as (row & _ & Hlatest & Ht & Hn & _ & _ & Hzero).
    exists row. split; [exact Hlatest|]. split; [exact Ht|]. split; [exact Hn|].
    apply Hzero. vm_compute. discriminate.
  - destruct (H3 up3 demo_world metehan north_to_south
                (measurement_of (Api.mkSummary 500 (Some 600) None 4200)) []
                eq_refl eq_refl eq_refl eq_refl)
      as (row & _ & Hlatest & Ht & Hn & _ & _ & Hzero).
    exists row. split; [exact Hlatest|]. split; [exact Ht|]. split; [exact Hn|].
    apply Hzero. vm_compute. discriminate.
Defined.

(** ** The bound on the in-memory arrays *)

Lemma lastn_elem {A : Type} (n : nat) (l : list A) (x : A) : x ∈ lastn n l -> x ∈ l.
Proof. unfold lastn. intros H. exact (subseteq_drop _ l x H). Qed.

Lemma tail_not_head {A : Type} (l : list A) (x : A) :
  NoDup l -> head l = Some x -> x ∉ tail l.
Proof.
  destruct l as [|a l]; simpl; [discriminate|].
  intros Hnd Hx. inversion Hx; subst a. now apply NoDup_cons in Hnd.
Qed.

(** C3.  In both editions the array of a route holds, after any number of
    cycles from the start of the process, the last 500 (v2) or 1000 (v3)
    of the readings appended for the route, so never more than that; and
    after exactly one append more than fits, the array is the appended
    readings without the first: the newest reading is its last entry, and
    the first-appended reading is not in it (readings being told apart, as
    they are by their timestamps). *)
Theorem readings_bounded_fifo
    (cfg2 : V2.Config) (files2 : gmap string string) (ticks2 : list V2.Upstream)
    (i : nat) (r2 : Route.t)
    (crossings : list V3.Crossing.t) (cfg3 : V3.Config) (files3 : gmap string string)
    (ticks3 : list V3.Upstream) (ci ri : nat) (c : V3.Crossing.t) (r3 : Route.t) :
  V2.routes cfg2 !! i = Some r2 ->
  crossings !! ci = Some c ->
  V3.Crossing.routes c !! ri = Some r3 ->
  let history2 := V2_history i ticks2 in
  let history3 := V3_history crossings cfg3 ci ri ticks3 (V3.boot crossings files3) in
  exists (arr2 : list V2.Row.t) (arr3 : list V3.Row.t),
    mem (exec (V2.cycles cfg2 ticks2) (V2.boot cfg2 files2)) !! i = Some arr2
    /\ V3.slot (V3.readings (mem (exec (V3.cycles crossings cfg3 ticks3)
                                      (V3.boot crossings files3)))) ci ri = Some arr3
    /\ arr2 = lastn 500 history2 /\ (List.length arr2 <= 500)%nat
    /\ arr3 = lastn 1000 history3 /\ (List.length arr3 <= 1000)%nat
    /\ (List.length history2 = 501%nat ->
        arr2 = tail history2 /\ last arr2 = last history2
        /\ (NoDup history2 -> forall first, head history2 = Some first -> first ∉ arr2))
    /\ (List.length history3 = 1001%nat ->
        arr3 = tail history3 /\ last arr3 = last history3
        /\ (NoDup history3 -> forall first, head history3 = Some first -> first ∉ arr3)).
Proof.
  intros Hr2 Hc Hr3 history2 history3.
  exists (lastn 500 history2), (lastn 1000 history3).
  split.
  { unfold exec. rewrite V2_cycles_run. simpl.
    rewrite (V2_run_slot cfg2 i r2 ticks2 (V2.boot cfg2 files2) [] Hr2
               (V2_boot_slot cfg2 i r2 Hr2)) by (simpl; lia).
    reflexivity. }
  split.
  { unfold exec. rewrite V3_cycles_run. simpl.
    rewrite (V3_run_slot crossings cfg3 ci c ri r3 ticks3 (V3.boot crossings files3) [] Hc Hr3
               (V3_boot_slot crossings ci c ri r3 Hc Hr3)) by (simpl; lia).
    reflexivity. }
  split; [reflexivity|]. split; [apply lastn_length|].
  split; [reflexivity|]. split; [apply lastn_length|].
  split.
  - intros Hlen. rewrite (lastn_overflow history2 500 Hlen).
    split; [reflexivity|]. split.
    + rewrite <- (lastn_overflow history2 500 Hlen). apply lastn_last. lia.
    + intros Hnd first Hfirst. now apply tail_not_head.
  - intros Hlen. rewrite (lastn_overflow history3 1000 Hlen).
    split; [reflexivity|]. split.
    + rewrite <- (lastn_overflow history3 1000 Hlen). apply lastn_last. lia.
    + intros Hnd first Hfirst. now apply tail_not_head.
Qed.

Lemma readings_bounded_fifo_witness :
  exists (arr2 : list V2.Row.t) (arr3 : list V3.Row.t),
    mem (exec (V2.cycles demo_config2 (demo_ticks2 501)) demo_world2) !! 0%nat = Some arr2
    /\ V3.slot (V3.readings (mem (exec (V3.cycles V3.CROSSINGS demo_config (demo_ticks3 1001))
                                      demo_world))) 0 1 = Some arr3
    /\ arr2 = tail (V2_history 0 (demo_ticks2 501))
    /\ arr3 = tail (V3_history V3.CROSSINGS demo_config 0 1 (demo_ticks3 1001) demo_world).
Proof.
  destruct (readings_bounded_fifo
              demo_config2 ∅ (demo_ticks2 501) 0
              (Route.make "South to North" "log-south-to-north.csv"
                 (Point.make "35.17738946649458" "33.323703790315996" "South")
                 (Point.make "35.18248230357691" "33.32297160214468" "North"))
              V3.CROSSINGS demo_config ∅ (demo_ticks3 1001) 0 1 metehan north_to_south
              eq_refl eq_refl eq_refl)
    as (arr2 & arr3 & Hs2 & Hs3 & _ & _ & _ & _ & Hover2 & Hover3).
  exists arr2, arr3. split; [exact Hs2|]. split; [exact Hs3|]. split.
  - apply Hover2. rewrite V2_history_length. vm_compute. reflexivity.
  - apply Hover3. rewrite V3_history_length. vm_compute. reflexivity.
Defined.

(** ** Failures stay with their route *)

Lemma V3_eval_fetchRoute (cfg : V3.Config) (r : Route.t) (reply : Reply Api.Routing) (w : V3.World) :
  eval (V3.fetchRoute cfg (Route.origin r) (Route.dest r) reply) w = measure "No route" reply.
Proof. unfold eval. now rewrite V3_fetchRoute_run. Qed.

Lemma V2_eval_fetchRoute (cfg : V2.Config) (r : Route.t) (reply : Reply Api.Routing) (w : V2.World) :
  eval (V2.fetchRoute cfg (Route.origin r) (Route.dest r) reply) w
  = measure "No route returned from TomTom" reply.
Proof. unfold eval. now rewrite V2_fetchRoute_run. Qed.

Lemma V3_isolated (crossings : list V3.Crossing.t) (cfg : V3.Config) (up : V3.Upstream)
    (w : V3.World) (ca ra cb rb : nat) (cA cB : V3.Crossing.t) (rA rB : Route.t)
    (message : string) (m : Measurement.t) (arrB : list V3.Row.t) :
  crossings !! ca = Some cA -> V3.Crossing.routes cA !! ra = Some rA ->
  crossings !! cb = Some cB -> V3.Crossing.routes cB !! rb = Some rB ->
  measure "No route" (V3.routing up ca ra) = Throw message ->
  measure "No route" (V3.routing up cb rb) = Normal m ->
  V3.slot (V3.readings (mem w)) cb rb = Some arrB ->
  let w' := exec (V3.checkAll crossings cfg up) w in
  V3.slot (V3.readings (mem w')) ca ra = V3.slot (V3.readings (mem w)) ca ra
  /\ V3.latest (V3.readings (mem w')) ca ra = V3.latest (V3.readings (mem w)) ca ra
  /\ (V3_distinct_logs crossings ->
      files w' !! Route.logFile rA = files w !! Route.logFile rA)
  /\ V3.slot (V3.readings (mem w')) cb rb
     = Some (keep 1000 (arrB ++ [V3_row up (cycle_weather up w) cb rb m]))
  /\ V3.latest (V3.readings (mem w')) cb rb = Some (V3_row up (cycle_weather up w) cb rb m).
Proof.
  intros HcA HrA HcB HrB Hfail Hok HslotB w'.
  assert (HA : V3.slot (V3.readings (mem w')) ca ra = V3.slot (V3.readings (mem w)) ca ra).
  { unfold w'. rewrite (V3_checkAll_slot crossings cfg up ca cA ra rA w HcA HrA).
    unfold V3_appended. now rewrite Hfail. }
  assert (HB : V3.slot (V3.readings (mem w')) cb rb
               = Some (keep 1000 (arrB ++ [V3_row up (cycle_weather up w) cb rb m]))).
  { unfold w'. rewrite (V3_checkAll_slot crossings cfg up cb cB rb rB w HcB HrB).
    unfold V3_appended. now rewrite Hok, HslotB. }
  split; [exact HA|]. split; [unfold V3.latest; now rewrite HA|]. split.
  - intros Hlogs.
    pose proof (V3_checkAll_view crossings cfg up ca cA ra rA w Hlogs HcA HrA) as Hview.
    unfold V3_view, V3_route_step in Hview. rewrite Hfail in Hview.
    now inversion Hview.
  - split; [exact HB|]. unfold V3.latest. rewrite HB. simpl. now apply keep_last.
Qed.

Lemma V2_isolated (cfg : V2.Config) (up : V2.Upstream) (w : V2.World)
    (a b : nat) (rA rB : Route.t) (message : string) (m : Measurement.t)
    (arrB : list V2.Row.t) :
  V2.routes cfg !! a = Some rA ->
  V2.routes cfg !! b = Some rB ->
  measure "No route returned from TomTom" (V2.routing up a) = Throw message ->
  measure "No route returned from TomTom" (V2.routing up b) = Normal m ->
  mem w !! b = Some arrB ->
  let w' := exec (V2.checkAll cfg up) w in
  mem w' !! a = mem w !! a
  /\ V2.latest (mem w') a = V2.latest (mem w) a
  /\ (V2_distinct_logs (V2.routes cfg) ->
      files w' !! Route.logFile rA = files w !! Route.logFile rA)
  /\ mem w' !! b = Some (keep 500 (arrB ++ [V2_row up b m]))
  /\ V2.latest (mem w') b = Some (V2_row up b m).
Proof.
  intros HrA HrB Hfail Hok HslotB w'.
  assert (HA : mem w' !! a = mem w !! a).
  { unfold w'. rewrite (V2_checkAll_slot cfg up a rA w HrA).
    unfold V2_appended. now rewrite Hfail. }
  assert (HB : mem w' !! b = Some (keep 500 (arrB ++ [V2_row up b m]))).
  { unfold w'. rewrite (V2_checkAll_slot cfg up b rB w HrB).
    unfold V2_appended. now rewrite Hok, HslotB. }
  split; [exact HA|]. split; [unfold V2.latest; now rewrite HA|]. split.
  - intros Hlogs.
    pose proof (V2_checkAll_view cfg up a rA w Hlogs HrA) as Hview.
    unfold V2_view, V2_route_step in Hview. rewrite Hfail in Hview.
    now inversion Hview.
  - split; [exact HB|]. unfold V2.latest. rewrite HB. simpl. now apply keep_last.
Qed.

(** C4.  In one poll cycle (of either edition), let the routing call of
    route A fail (it rejects, or the reply carries no route) and that of
    route B resolve with the measurement [m].  Then B's array gains the
    reading built from [m], which becomes B's latest reading, while A's
    array, and so A's latest reading, is exactly what it was before the
    cycle; nothing is written to A's log either (no two routes sharing a
    log file), and the failure of A is printed. *)
Theorem failure_isolated_per_route
    (cfg2 : V2.Config) (up2 : V2.Upstream) (w2 : V2.World) (a b : nat) (rA2 rB2 : Route.t)
    (message2 : string) (m2 : Measurement.t) (arrA2 arrB2 : list V2.Row.t)
    (crossings : list V3.Crossing.t) (cfg3 : V3.Config) (up3 : V3.Upstream) (w3 : V3.World)
    (ca ra cb rb : nat) (cA cB : V3.Crossing.t) (rA3 rB3 : Route.t)
    (message3 : string) (m3 : Measurement.t) (arrA3 arrB3 : list V3.Row.t) :
  V2.routes cfg2 !! a = Some rA2 ->
  V2.routes cfg2 !! b = Some rB2 ->
  eval (V2.fetchRoute cfg2 (Route.origin rA2) (Route.dest rA2) (V2.routing up2 a)) w2
    = Throw message2 ->
  eval (V2.fetchRoute cfg2 (Route.origin rB2) (Route.dest rB2) (V2.routing up2 b)) w2
    = Normal m2 ->
  mem w2 !! a = Some arrA2 ->
  mem w2 !! b = Some arrB2 ->
  crossings !! ca = Some cA -> V3.Crossing.routes cA !! ra = Some rA3 ->
  crossings !! cb = Some cB -> V3.Crossing.routes cB !! rb = Some rB3 ->
  eval (V3.fetchRoute cfg3 (Route.origin rA3) (Route.dest rA3) (V3.routing up3 ca ra)) w3
    = Throw message3 ->
  eval (V3.fetchRoute cfg3 (Route.origin rB3) (Route.dest rB3) (V3.routing up3 cb rb)) w3
    = Normal m3 ->
  V3.slot (V3.readings (mem w3)) ca ra = Some arrA3 ->
  V3.slot (V3.readings (mem w3)) cb rb = Some arrB3 ->
  let w2' := exec (V2.checkAll cfg2 up2) w2 in
  let w3' := exec (V3.checkAll crossings cfg3 up3) w3 in
  let row2 := V2_row up2 b m2 in
  let row3 := V3_row up3 (cycle_weather up3 w3) cb rb m3 in
  (mem w2' !! a = Some arrA2
   /\ V2.latest (mem w2') a = V2.latest (mem w2) a
   /\ (V2_distinct_logs (V2.routes cfg2) ->
       files w2' !! Route.logFile rA2 = files w2 !! Route.logFile rA2)
   /\ V2.err_route (Route.name rA2) message2 ∈ console w2'
   /\ mem w2' !! b = Some (keep 500 (arrB2 ++ [row2]))
   /\ V2.latest (mem w2') b = Some row2
   /\ V2.Row.timestamp row2 = V2.stamp up2 b
   /\ V2.Row.trafficMin row2 = Measurement.trafficMin m2
   /\ V2.Row.normalMin row2 = Measurement.normalMin m2)
  /\ (V3.slot (V3.readings (mem w3')) ca ra = Some arrA3
      /\ V3.latest (V3.readings (mem w3')) ca ra = V3.latest (V3.readings (mem w3)) ca ra
      /\ (V3_distinct_logs crossings ->
          files w3' !! Route.logFile rA3 = files w3 !! Route.logFile rA3)
      /\ V3.err_route (V3.Crossing.shortName cA) (Route.name rA3) message3 ∈ console w3'
      /\ V3.slot (V3.readings (mem w3')) cb rb = Some (keep 1000 (arrB3 ++ [row3]))
      /\ V3.latest (V3.readings (mem w3')) cb rb = Some row3
      /\ V3.Row.timestamp row3 = V3.stamp up3 cb rb
      /\ V3.Row.trafficMin row3 = Measurement.trafficMin m3
      /\ V3.Row.normalMin row3 = Measurement.normalMin m3).
Proof.
  intros HrA2 HrB2 Hfail2 Hok2 HslotA2 HslotB2 HcA HrA3 HcB HrB3 Hfail3 Hok3 HslotA3 HslotB3.
  rewrite V2_eval_fetchRoute in Hfail2, Hok2. rewrite V3_eval_fetchRoute in Hfail3, Hok3.
  intros w2' w3' row2 row3. split.
  - destruct (V2_isolated cfg2 up2 w2 a b rA2 rB2 message2 m2 arrB2
                HrA2 HrB2 Hfail2 Hok2 HslotB2) as (HA & HlA & Hlog & HB & HlB).
    fold w2' in HA, HlA, Hlog, HB, HlB.
    split; [now rewrite HA|]. split; [exact HlA|]. split; [exact Hlog|].
    split; [|repeat split; assumption].
    apply (V2_checkAll_reports cfg2 up2 a rA2 w2 message2 HrA2); [now rewrite HslotA2 | now left].
  - destruct (V3_isolated crossings cfg3 up3 w3 ca ra cb rb cA cB rA3 rB3 message3 m3 arrB3
                HcA HrA3 HcB HrB3 Hfail3 Hok3 HslotB3) as (HA & HlA & Hlog & HB & HlB).
    fold w3' in HA, HlA, Hlog, HB, HlB.
    split; [now rewrite HA|]. split; [exact HlA|]. split; [exact Hlog|].
    split; [|repeat split; assumption].
    apply (V3_checkAll_reports crossings cfg3 up3 ca cA ra rA3 w3 message3 HcA HrA3);
      [now rewrite HslotA3 | now left].
Qed.

Lemma failure_isolated_per_route_witness :
  let w2' := exec (V2.checkAll demo_config2 split_up2) demo_world2 in
  let w3' := exec (V3.checkAll V3.CROSSINGS demo_config split_up3) demo_world in
  (mem w2' !! 0%nat = Some []
   /\ V2.Row.trafficMin <$> V2.latest (mem w2') 1 = Some 17
   /\ V2.err_route "South to North" "No route returned from TomTom" ∈ console w2')
  /\ (V3.slot (V3.readings (mem w3')) 0 0 = Some []
      /\ V3.Row.trafficMin <$> V3.latest (V3.readings (mem w3')) 0 1 = Some 17
      /\ V3.err_route "Metehan" "South to North" "No route" ∈ console w3').
Proof.
  intros w2' w3'.
  destruct (failure_isolated_per_route
              demo_config2 split_up2 demo_world2 0 1
              (Route.make "South to North" "log-south-to-north.csv"
                 (Point.make "35.17738946649458" "33.323703790315996" "South")
                 (Point.make "35.18248230357691" "33.32297160214468" "North"))
              (Route.make "North to South" "log-north-to-south.csv"
                 (Point.make "35.189972638909815" "33.3267300933598" "North")
                 (Point.make "35.17997580404659" "33.32508411149086" "South"))
              "No route returned from TomTom"
              (measurement_of (Api.mkSummary 1020 (Some 540) None 4200)) [] []
              V3.CROSSINGS demo_config split_up3 demo_world 0 0 0 1 metehan metehan
              south_to_north north_to_south "No route"
              (measurement_of (Api.mkSummary 1020 (Some 540) None 4200)) [] []
              eq_refl eq_refl eq_refl eq_refl eq_refl eq_refl
              eq_refl eq_refl eq_refl eq_refl eq_refl eq_refl eq_refl eq_refl)
    as ((HA2 & _ & _ & He2 & _ & Hl2 & _) & (HA3 & _ & _ & He3 & _ & Hl3 & _)).
  split.
  - split; [exact HA2|]. split; [|exact He2].
    fold w2' in Hl2. rewrite Hl2. reflexivity.
  - split; [exact HA3|]. split; [|exact He3].
    fold w3' in Hl3. rewrite Hl3. reflexivity.
Defined.

(** ** A failed write does not undo the reading *)

Lemma keep_has_new {A : Type} (cap : Z) (arr : list A) (x : A) :
  0 < cap -> x ∈ keep cap (arr ++ [x]).
Proof.
  intros Hcap. pose proof (keep_last cap arr x Hcap) as H.
  rewrite last_lookup in H. eapply list_elem_of_lookup_2. exact H.
Qed.

(** C8.  In a cycle (of either edition) in which the routing call of a
    route resolves with [m] and the write of the new reading's log line
    fails, the cycle still completes; the route's array is what it was
    with the new reading pushed (and the oldest entry shifted out if that
    made more than fit), so the reading is in memory and is the route's
    latest; the failure is only printed; and the log file is what it was
    (no two routes sharing a log file). *)
Theorem failed_write_keeps_reading
    (cfg2 : V2.Config) (up2 : V2.Upstream) (w2 : V2.World) (i : nat) (r2 : Route.t)
    (m2 : Measurement.t) (fault2 : string) (arr2 : list V2.Row.t)
    (crossings : list V3.Crossing.t) (cfg3 : V3.Config) (up3 : V3.Upstream) (w3 : V3.World)
    (ci ri : nat) (c : V3.Crossing.t) (r3 : Route.t)
    (m3 : Measurement.t) (fault3 : string) (arr3 : list V3.Row.t) :
  V2.routes cfg2 !! i = Some r2 ->
  eval (V2.fetchRoute cfg2 (Route.origin r2) (Route.dest r2) (V2.routing up2 i)) w2 = Normal m2 ->
  V2.disk up2 (Route.logFile r2) = Some fault2 ->
  mem w2 !! i = Some arr2 ->
  crossings !! ci = Some c ->
  V3.Crossing.routes c !! ri = Some r3 ->
  eval (V3.fetchRoute cfg3 (Route.origin r3) (Route.dest r3) (V3.routing up3 ci ri)) w3
    = Normal m3 ->
  V3.disk up3 (Route.logFile r3) = Some fault3 ->
  V3.slot (V3.readings (mem w3)) ci ri = Some arr3 ->
  let w2' := exec (V2.checkAll cfg2 up2) w2 in
  let w3' := exec (V3.checkAll crossings cfg3 up3) w3 in
  let row2 := V2_row up2 i m2 in
  let row3 := V3_row up3 (cycle_weather up3 w3) ci ri m3 in
  (eval (V2.checkAll cfg2 up2) w2 = Normal tt
   /\ mem w2' !! i = Some (keep 500 (arr2 ++ [row2]))
   /\ row2 ∈ keep 500 (arr2 ++ [row2])
   /\ V2.latest (mem w2') i = Some row2
   /\ V2.err_route (Route.name r2) fault2 ∈ console w2'
   /\ (V2_distinct_logs (V2.routes cfg2) ->
       files w2' !! Route.logFile r2 = files w2 !! Route.logFile r2))
  /\ (eval (V3.checkAll crossings cfg3 up3) w3 = Normal tt
      /\ V3.slot (V3.readings (mem w3')) ci ri = Some (keep 1000 (arr3 ++ [row3]))
      /\ row3 ∈ keep 1000 (arr3 ++ [row3])
      /\ V3.latest (V3.readings (mem w3')) ci ri = Some row3
      /\ V3.err_route (V3.Crossing.shortName c) (Route.name r3) fault3 ∈ console w3'
      /\ (V3_distinct_logs crossings ->
          files w3' !! Route.logFile r3 = files w3 !! Route.logFile r3)).
Proof.
  intros Hr2 Hok2 Hdisk2 Hslot2 Hc Hr3 Hok3 Hdisk3 Hslot3.
  rewrite V2_eval_fetchRoute in Hok2. rewrite V3_eval_fetchRoute in Hok3.
  intros w2' w3' row2 row3. split.
  - assert (HB : mem w2' !! i = Some (keep 500 (arr2 ++ [row2]))).
    { unfold w2'. rewrite (V2_checkAll_slot cfg2 up2 i r2 w2 Hr2).
      unfold V2_appended. now rewrite Hok2, Hslot2. }
    split; [unfold eval; now rewrite V2_checkAll_run|].
    split; [exact HB|]. split; [apply keep_has_new; lia|].
    split; [unfold V2.latest; rewrite HB; simpl; apply keep_last; lia|].
    split.
    + apply (V2_checkAll_reports cfg2 up2 i r2 w2 fault2 Hr2); [now rewrite Hslot2|].
      right. split; [now exists m2 | exact Hdisk2].
    + intros Hlogs.
      pose proof (V2_checkAll_view cfg2 up2 i r2 w2 Hlogs Hr2) as Hview.
      unfold V2_view, V2_route_step in Hview. rewrite Hok2, Hslot2, Hdisk2 in Hview.
      now inversion Hview.
  - assert (HB : V3.slot (V3.readings (mem w3')) ci ri = Some (keep 1000 (arr3 ++ [row3]))).
    { unfold w3'. rewrite (V3_checkAll_slot crossings cfg3 up3 ci c ri r3 w3 Hc Hr3).
      unfold V3_appended. now rewrite Hok3, Hslot3. }
    split; [unfold eval; now rewrite V3_checkAll_run|].
    split; [exact HB|]. split; [apply keep_has_new; lia|].
    split; [unfold V3.latest; rewrite HB; simpl; apply keep_last; lia|].
    split.
    + apply (V3_checkAll_reports crossings cfg3 up3 ci c ri r3 w3 fault3 Hc Hr3);
        [now rewrite Hslot3|].
      right. split; [now exists m3 | exact Hdisk3].
    + intros Hlogs.
      pose proof (V3_checkAll_view crossings cfg3 up3 ci c ri r3 w3 Hlogs Hc Hr3) as Hview.
      unfold V3_view, V3_route_step in Hview. rewrite Hok3, Hslot3, Hdisk3 in Hview.
      now inversion Hview.
Qed.

Lemma failed_write_keeps_reading_witness :
  V2.latest (mem (exec (V2.checkAll demo_config2 readonly_up2) demo_world2)) 0
    = Some (V2.Row.make "2026-02-27T11:20:00.000Z" 17 9 (JS.div (JS.of_Z 42) (JS.of_Z 10))
              8 MODERATE)
  /\ files (exec (V2.checkAll demo_config2 readonly_up2) demo_world2) !! "log-south-to-north.csv"
     = None
  /\ V3.latest (V3.readings (mem (exec (V3.checkAll V3.CROSSINGS demo_config readonly_up3)
                                       demo_world))) 0 1
     = Some (V3.Row.make "2026-02-27T11:20:00.000Z" 17 9 (JS.div (JS.of_Z 42) (JS.of_Z 10))
               8 MODERATE None None)
  /\ V3.err_route "Metehan" "North to South" "EROFS: read-only file system"
     ∈ console (exec (V3.checkAll V3.CROSSINGS demo_config readonly_up3) demo_world).
Proof.
  destruct (failed_write_keeps_reading
              demo_config2 readonly_up2 demo_world2 0
              (Route.make "South to North" "log-south-to-north.csv"
                 (Point.make "35.17738946649458" "33.323703790315996" "South")
                 (Point.make "35.18248230357691" "33.32297160214468" "North"))
              (measurement_of (Api.mkSummary 1020 (Some 540) None 4200))
              "EROFS: read-only file system" []
              V3.CROSSINGS demo_config readonly_up3 demo_world 0 1 metehan north_to_south
              (measurement_of (Api.mkSummary 1020 (Some 540) None 4200))
              "EROFS: read-only file system" []
              eq_refl eq_refl eq_refl eq_refl eq_refl eq_refl eq_refl eq_refl eq_refl)
    as ((_ & _ & _ & Hl2 & _ & Hf2) & (_ & _ & _ & Hl3 & He3 & _)).
  split; [rewrite Hl2; vm_compute; reflexivity|].
  split; [exact (eq_trans (Hf2 default_routes_distinct_logs) eq_refl)|].
  split; [rewrite Hl3; vm_compute; reflexivity | exact He3].
Defined.

(** ** The durable log *)

Lemma V2_main_log (cfg : V2.Config) (disk_files : gmap string string)
    (boot_disk : string -> option string) (ticks : list V2.Upstream) (i : nat) (r : Route.t) :
  V2_distinct_logs (V2.routes cfg) ->
  V2.routes cfg !! i = Some r ->
  V2.tomtomKey cfg <> "" ->
  (forall path, boot_disk path = None) ->
  let w := exec (V2.main cfg boot_disk ticks) (V2.boot cfg disk_files) in
  files w !! Route.logFile r
  = Some (default V2.HEADER (disk_files !! Route.logFile r)
          +:+ text (map (V2.csvLine r) (V2_logged i r ticks)))
  /\ mem w !! i = Some (lastn 500 (V2_history i ticks)).
Proof.
  intros Hlogs Hr Hkey Hdisk w. unfold w, exec.
  rewrite (V2_main_run cfg boot_disk ticks _ Hkey Hdisk). simpl.
  assert (Hslot : mem (V2_ensured_all cfg (V2.boot cfg disk_files)) !! i = Some []).
  { rewrite V2_ensured_all_mem. simpl. now apply (V2_boot_slot cfg i r). }
  split.
  - apply (V2_run_log cfg i r ticks _ _ Hlogs Hr).
    + now rewrite Hslot.
    + now rewrite (V2_ensured_all_file cfg _ i r Hlogs Hr).
  - rewrite (V2_run_slot cfg i r ticks _ [] Hr Hslot) by (simpl; lia). reflexivity.
Qed.

Lemma V3_main_log (crossings : list V3.Crossing.t) (cfg : V3.Config)
    (disk_files : gmap string string) (boot_disk : string -> option string)
    (ticks : list V3.Upstream) (ci ri : nat) (c : V3.Crossing.t) (r : Route.t) :
  V3_distinct_logs crossings ->
  crossings !! ci = Some c ->
  V3.Crossing.routes c !! ri = Some r ->
  V3.tomtomKey cfg <> "" ->
  (forall path, boot_disk path = None) ->
  let start := exec (V3.ensureCsv crossings boot_disk) (V3.boot crossings disk_files) in
  let w := exec (V3.main crossings cfg boot_disk ticks) (V3.boot crossings disk_files) in
  files w !! Route.logFile r
  = Some (default V3.HEADER (disk_files !! Route.logFile r)
          +:+ text (map (V3.csvLine c r) (V3_logged crossings cfg ci ri r ticks start)))
  /\ V3.slot (V3.readings (mem w)) ci ri
     = Some (lastn 1000 (V3_history crossings cfg ci ri ticks start)).
Proof.
  intros Hlogs Hc Hr Hkey Hdisk start w. unfold w, start, exec.
  rewrite (V3_main_run crossings cfg boot_disk ticks _ Hkey Hdisk).
  rewrite (V3_ensureCsv_run crossings boot_disk _ Hdisk). simpl.
  assert (Hslot : V3.slot (V3.readings (mem (V3_ensured_all crossings (V3.boot crossings disk_files))))
                    ci ri = Some []).
  { rewrite V3_ensured_all_mem. simpl. now apply (V3_boot_slot crossings ci c ri r). }
  split.
  - apply (V3_run_log crossings cfg ci c ri r ticks _ _ Hlogs Hc Hr).
    + now rewrite Hslot.
    + now rewrite (V3_ensured_all_file crossings _ ci c ri r Hlogs Hc Hr).
  - rewrite (V3_run_slot crossings cfg ci c ri r ticks _ [] Hc Hr Hslot) by (simpl; lia).
    reflexivity.
Qed.

(** ** The requests of a cycle *)

Lemma steps_from_requests {Mem Line A : Type} (g : A -> list string) (xs : list A)
    (step : nat -> A -> Process Mem Line -> Process Mem Line) (i0 : nat) (w : Process Mem Line) :
  (forall k x w', xs !! k = Some x ->
                  requests (step (i0 + k)%nat x w') = (requests w' ++ g x)%list) ->
  requests (steps_from i0 xs step w) = (requests w ++ flat_map g xs)%list.
Proof.
  revert i0 w. induction xs as [|x xs IH]; intros i0 w H; simpl.
  - now rewrite app_nil_r.
  - rewrite IH.
    + rewrite <- (Nat.add_0_r i0) at 1. rewrite (H 0%nat x w eq_refl). now rewrite <- app_assoc.
    + intros k y w' Hk. replace (S i0 + k)%nat with (i0 + S k)%nat by lia. now apply H.
Qed.

Lemma V3_polled_requests (cfg : V3.Config) (up : V3.Upstream) (weather : option V3.Weather.t)
    (ci : nat) (c : V3.Crossing.t) (ri : nat) (r : Route.t) (w : V3.World) :
  requests (V3_polled cfg up weather ci c ri r w)
  = (requests w ++
     [V3.routeUrl cfg (Route.origin r) (Route.dest r);
      V3.speedUrl cfg (Point.lat (Route.origin r)) (Point.lng (Route.origin r))])%list.
Proof.
  unfold V3_polled.
  destruct (measure "No route" (V3.routing up ci ri)) as [m | message]; [|reflexivity].
  destruct (V3.slot (V3.readings (mem w)) ci ri) as [arr|]; [|reflexivity].
  destruct (V3.disk up (Route.logFile r)); reflexivity.
Qed.

Lemma V2_polled_requests (cfg : V2.Config) (up : V2.Upstream) (i : nat) (r : Route.t)
    (w : V2.World) :
  requests (V2_polled cfg up i r w)
  = (requests w ++ [V2.routeUrl cfg (Route.origin r) (Route.dest r)])%list.
Proof.
  unfold V2_polled.
  destruct (measure "No route returned from TomTom" (V2.routing up i)) as [m | message];
    [|reflexivity].
  destruct (mem w !! i) as [arr|]; [|reflexivity].
  destruct (V2.disk up (Route.logFile r)); reflexivity.
Qed.

Lemma V3_after_weather_requests (up : V3.Upstream) (w : V3.World) :
  requests (V3_after_weather up w)
  = (requests w ++ if V3.weatherFresh up (mem w) then [] else [V3.weatherUrl])%list.
Proof.
  assert (H : requests (exec (V3.fetchWeather up) w)
              = (requests w ++ if V3.weatherFresh up (mem w) then [] else [V3.weatherUrl])%list).
  { unfold exec. rewrite fetchWeather_cases.
    destruct (V3.weatherFresh up (mem w)); [simpl; now rewrite app_nil_r|].
    destruct (V3.forecast up) as [[[c|]] | message]; reflexivity. }
  unfold V3_after_weather. destruct (cycle_weather up w); exact H.
Qed.

(** X1.  A cycle sends, whatever the replies are, exactly one routing
    request for every route, in the order of the table, and in the v3
    edition one flow request after each of them, the whole preceded by one
    weather request unless the cached snapshot is less than ten minutes
    old: a failed call is not repeated within the cycle. *)
Theorem checkAll_requests
    (cfg2 : V2.Config) (up2 : V2.Upstream) (w2 : V2.World)
    (crossings : list V3.Crossing.t) (cfg3 : V3.Config) (up3 : V3.Upstream) (w3 : V3.World) :
  requests (exec (V2.checkAll cfg2 up2) w2) = (requests w2 ++ V2_cycle_urls cfg2)%list
  /\ requests (exec (V3.checkAll crossings cfg3 up3) w3)
     = (requests w3
        ++ (if V3.weatherFresh up3 (mem w3) then [] else [V3.weatherUrl])
        ++ V3_cycle_urls crossings cfg3)%list.
Proof.
  split.
  - unfold exec. rewrite V2_checkAll_run. simpl. unfold V2_cycle_urls.
    rewrite (steps_from_requests
               (fun r => [V2.routeUrl cfg2 (Route.origin r) (Route.dest r)])).
    + reflexivity.
    + intros k r w' _. apply V2_polled_requests.
  - unfold exec. rewrite V3_checkAll_run. simpl. unfold V3_outer, V3_cycle_urls.
    rewrite (steps_from_requests
               (fun c =>
                  flat_map (fun r =>
                              [V3.routeUrl cfg3 (Route.origin r) (Route.dest r);
                               V3.speedUrl cfg3 (Point.lat (Route.origin r))
                                           (Point.lng (Route.origin r))])
                           (V3.Crossing.routes c))).
    + rewrite V3_after_weather_requests. now rewrite <- app_assoc.
    + intros ci c w' _. simpl. unfold V3_inner.
      apply steps_from_requests. intros ri r w'' _. apply V3_polled_requests.
Qed.

(** ** Optional telemetry: the speed sample and the weather *)

(** What a cycle leaves as the latest reading of a route whose routing
    call resolves. *)
Lemma V3_checkAll_latest (crossings : list V3.Crossing.t) (cfg : V3.Config) (up : V3.Upstream)
    (ci : nat) (c : V3.Crossing.t) (ri : nat) (r : Route.t) (w : V3.World)
    (m : Measurement.t) (arr : list V3.Row.t) :
  crossings !! ci = Some c ->
  V3.Crossing.routes c !! ri = Some r ->
  measure "No route" (V3.routing up ci ri) = Normal m ->
  V3.slot (V3.readings (mem w)) ci ri = Some arr ->
  V3.latest (V3.readings (mem (exec (V3.checkAll crossings cfg up) w))) ci ri
  = Some (V3_row up (cycle_weather up w) ci ri m).
Proof.
  intros Hc Hr Hm Hslot. unfold V3.latest.
  rewrite (V3_checkAll_slot crossings cfg up ci c ri r w Hc Hr).
  unfold V3_appended. rewrite Hm, Hslot. simpl. apply keep_last. lia.
Qed.

(** X2.  The speed sample is optional.  [fetchSpeed] never rejects: it
    resolves with [null] when the flow call fails or its reply carries no
    segment, and with the sample of the segment otherwise.  A poll whose
    routing call resolves records its reading with whatever [fetchSpeed]
    resolved with, so a failing flow call costs the reading its speed
    sample and nothing else. *)
Theorem flow_failure_keeps_reading
    (crossings : list V3.Crossing.t) (cfg : V3.Config) (up : V3.Upstream) (w : V3.World)
    (ci ri : nat) (c : V3.Crossing.t) (r : Route.t) (m : Measurement.t) (arr : list V3.Row.t) :
  crossings !! ci = Some c ->
  V3.Crossing.routes c !! ri = Some r ->
  eval (V3.fetchRoute cfg (Route.origin r) (Route.dest r) (V3.routing up ci ri)) w = Normal m ->
  V3.slot (V3.readings (mem w)) ci ri = Some arr ->
  let w' := exec (V3.checkAll crossings cfg up) w in
  exists (speed : option V3.Speed.t) (row : V3.Row.t),
    (forall w0 : V3.World,
        eval (V3.fetchSpeed cfg (Point.lat (Route.origin r)) (Point.lng (Route.origin r))
                            (V3.flow up ci ri)) w0 = Normal speed)
    /\ V3.latest (V3.readings (mem w')) ci ri = Some row
    /\ V3.Row.speed row = speed
    /\ V3.Row.trafficMin row = Measurement.trafficMin m
    /\ V3.Row.normalMin row = Measurement.normalMin m
    /\ ((exists message, V3.flow up ci ri = Failed message)
        \/ V3.flow up ci ri = Body (Api.mkFlow None) ->
        speed = None)
    /\ (forall fd, V3.flow up ci ri = Body (Api.mkFlow (Some fd)) ->
        exists s, speed = Some s
                  /\ V3.Speed.currentSpeed s = JS.Math_round (Api.currentSpeed fd)
                  /\ V3.Speed.freeFlowSpeed s = JS.Math_round (Api.freeFlowSpeed fd)).
Proof.
  intros Hc Hr Hm Hslot w'. rewrite V3_eval_fetchRoute in Hm.
  exists (sample (V3.flow up ci ri)), (V3_row up (cycle_weather up w) ci ri m).
  split; [intros w0; unfold eval; now rewrite V3_fetchSpeed_run|].
  split; [now apply (V3_checkAll_latest crossings cfg up ci c ri r w m arr)|].
  split; [reflexivity|]. split; [reflexivity|]. split; [reflexivity|].
  split.
  - intros [[message E] | E]; rewrite E; reflexivity.
  - intros fd E. rewrite E. simpl. eexists. split; [reflexivity|]. split; reflexivity.
Qed.

Lemma flow_failure_keeps_reading_witness :
  exists row : V3.Row.t,
    V3.latest (V3.readings (mem (exec (V3.checkAll V3.CROSSINGS demo_config (demo_up3 0))
                                      demo_world))) 0 1 = Some row
    /\ V3.Row.speed row = None
    /\ V3.Row.trafficMin row = 17.
Proof.
  destruct (flow_failure_keeps_reading V3.CROSSINGS demo_config (demo_up3 0) demo_world
              0 1 metehan north_to_south
              (measurement_of (Api.mkSummary 1020 (Some 540) None 4200)) []
              eq_refl eq_refl eq_refl eq_refl)
    as (speed & row & _ & Hlatest & Hspeed & Htraffic & _ & Hnone & _).
  exists row. split; [exact Hlatest|]. split.
  - rewrite Hspeed. apply Hnone. left. now exists "offline".
  - rewrite Htraffic. reflexivity.
Defined.

(** X3.  The weather is optional, and a snapshot that is too old is not
    used.  When the cache is empty or ten minutes old and the weather call
    fails (or its reply has no [current] block), [fetchWeather] resolves
    with [null] after one request, and leaves the module variables, so the
    cache and the time of the last fetch, as they were: an old snapshot
    stays in the cache but is not returned, and the next call goes
    upstream again. *)
Theorem fetchWeather_failure_soft (up : V3.Upstream) (w : V3.World) :
  V3.weatherFresh up (mem w) = false ->
  (exists message, V3.forecast up = Failed message)
  \/ V3.forecast up = Body (Api.mkForecast None) ->
  let w' := exec (V3.fetchWeather up) w in
  eval (V3.fetchWeather up) w = Normal None
  /\ mem w' = mem w
  /\ files w' = files w
  /\ console w' = console w
  /\ requests w' = (requests w ++ [V3.weatherUrl])%list
  /\ (forall up' : V3.Upstream,
        V3.now_test up <= V3.now_test up' -> V3.weatherFresh up' (mem w') = false).
Proof.
  intros Hstale Hfail w'.
  assert (E : V3.fetchWeather up w = (Normal None, sent w [V3.weatherUrl])).
  { rewrite fetchWeather_cases, Hstale.
    destruct Hfail as [[message Hf] | Hf]; rewrite Hf; reflexivity. }
  unfold w', eval, exec. rewrite E. simpl.
  repeat split.
  intros up' Hnow. unfold V3.weatherFresh in *.
  destruct (V3.weatherCache (mem w)); [|reflexivity].
  apply Z.ltb_ge. apply Z.ltb_ge in Hstale. lia.
Qed.

Lemma fetchWeather_failure_soft_witness :
  let old := V3.Weather.make (JS.of_Z 21) (JS.of_Z 0) (JS.of_Z 9) "Clear sky" "☀️" in
  let w := mkProcess (V3.mkMemory (V3.readings_init V3.CROSSINGS) (Some old) 0) ∅ [] [] in
  let up := V3.mkUpstream 600000 (Failed "offline") 600001
              (fun _ _ => Failed "offline") (fun _ _ => Failed "offline")
              (fun _ _ => "") (fun _ => None) in
  eval (V3.fetchWeather up) w = Normal None
  /\ V3.weatherCache (mem (exec (V3.fetchWeather up) w)) = Some old.
Proof.
  intros old w up.
  destruct (fetchWeather_failure_soft up w eq_refl (or_introl (ex_intro _ "offline" eq_refl)))
    as (Hnone & Hmem & _).
  split; [exact Hnone|]. rewrite Hmem. reflexivity.
Defined.

(** X4.  The weather is fetched once per cycle and shared: the reading
    that a cycle records for a route, whichever route it is, carries
    exactly what [fetchWeather] resolved with at the start of the cycle
    (a snapshot or [null]). *)
Theorem cycle_readings_share_weather
    (crossings : list V3.Crossing.t) (cfg : V3.Config) (up : V3.Upstream) (w : V3.World)
    (ci ri : nat) (c : V3.Crossing.t) (r : Route.t) (m : Measurement.t) (arr : list V3.Row.t) :
  crossings !! ci = Some c ->
  V3.Crossing.routes c !! ri = Some r ->
  eval (V3.fetchRoute cfg (Route.origin r) (Route.dest r) (V3.routing up ci ri)) w = Normal m ->
  V3.slot (V3.readings (mem w)) ci ri = Some arr ->
  exists weather : option V3.Weather.t,
    eval (V3.fetchWeather up) w = Normal weather
    /\ V3.Row.weather <$> V3.latest (V3.readings (mem (exec (V3.checkAll crossings cfg up) w))) ci ri
       = Some weather.
Proof.
  intros Hc Hr Hm Hslot. rewrite V3_eval_fetchRoute in Hm.
  exists (cycle_weather up w). split.
  - unfold eval. now rewrite fetchWeather_Normal.
  - now rewrite (V3_checkAll_latest crossings cfg up ci c ri r w m arr Hc Hr Hm Hslot).
Qed.

Lemma cycle_readings_share_weather_witness :
  let sunny := Body (Api.mkForecast (Some (Api.mkCurrent (JS.of_Z 21) (JS.of_Z 0) 0 (JS.of_Z 9)))) in
  let up := V3.mkUpstream 1000 sunny 1200
              (fun _ _ => demo_reply 1020 (Some 540) None) (fun _ _ => Failed "offline")
              (fun _ _ => "2026-02-27T11:20:00.000Z") (fun _ => None) in
  let w' := exec (V3.checkAll V3.CROSSINGS demo_config up) demo_world in
  exists snap : V3.Weather.t,
    V3.Weather.condition snap = "Clear sky"
    /\ V3.Row.weather <$> V3.latest (V3.readings (mem w')) 0 1 = Some (Some snap)
    /\ V3.Row.weather <$> V3.latest (V3.readings (mem w')) 1 0 = Some (Some snap).
Proof.
  intros sunny up w'.
  destruct (cycle_readings_share_weather V3.CROSSINGS demo_config up demo_world 0 1
              metehan north_to_south
              (measurement_of (Api.mkSummary 1020 (Some 540) None 4200)) []
              eq_refl eq_refl eq_refl eq_refl) as (weather & Hw & H01).
  destruct (cycle_readings_share_weather V3.CROSSINGS demo_config up demo_world 1 0
              (V3.Crossing.make "astromeritis" "Astromeritis / Zodia" "Astromeritis"
                 "West Nicosia crossing"
                 [ Route.make "South to North" "log-astromeritis-s2n.csv"
                     (Point.make "35.14493622086859" "33.03599537704171" "South")
                     (Point.make "35.15883484408819" "33.01875938024711" "North");
                   Route.make "North to South" "log-astromeritis-n2s.csv"
                     (Point.make "35.15883484408819" "33.01876659029276" "North")
                     (Point.make "35.14498045733702" "33.03600414981479" "South") ])
              (Route.make "South to North" "log-astromeritis-s2n.csv"
                 (Point.make "35.14493622086859" "33.03599537704171" "South")
                 (Point.make "35.15883484408819" "33.01875938024711" "North"))
              (measurement_of (Api.mkSummary 1020 (Some 540) None 4200)) []
              eq_refl eq_refl eq_refl eq_refl) as (weather' & Hw' & H10).
  rewrite Hw in Hw'. inversion Hw'; subst weather'.
  assert (E : weather = Some (snapshot_of (Api.mkCurrent (JS.of_Z 21) (JS.of_Z 0) 0 (JS.of_Z 9)))).
  { vm_compute in Hw. now inversion Hw. }
  exists (snapshot_of (Api.mkCurrent (JS.of_Z 21) (JS.of_Z 0) 0 (JS.of_Z 9))).
  split; [reflexivity|]. fold w' in H01, H10. rewrite H01, H10, E. split; reflexivity.
Defined.

(** ** What every reading in memory satisfies *)

Lemma V2_polled_Forall (P : V2.Row.t -> Prop) (cfg : V2.Config) (up : V2.Upstream) (i : nat)
    (r : Route.t) (w : V2.World) :
  (forall m, P (V2_row up i m)) ->
  Forall (Forall P) (mem w) -> Forall (Forall P) (mem (V2_polled cfg up i r w)).
Proof.
  intros Hrow H. unfold V2_polled.
  destruct (measure "No route returned from TomTom" (V2.routing up i)) as [m | message];
    [|exact H].
  destruct (mem w !! i) as [arr|] eqn:Hslot; [|exact H].
  assert (Hnew : Forall (Forall P) (<[i := keep 500 (arr ++ [V2_row up i m])]> (mem w))).
  { apply Forall_insert; [exact H|]. apply keep_Forall; [|apply Hrow].
    rewrite Forall_forall in H. apply H. eapply list_elem_of_lookup_2; eauto. }
  destruct (V2.disk up (Route.logFile r)); exact Hnew.
Qed.

Lemma V3_polled_Forall (P : V3.Row.t -> Prop) (cfg : V3.Config) (up : V3.Upstream)
    (weather : option V3.Weather.t) (ci : nat) (c : V3.Crossing.t) (ri : nat) (r : Route.t)
    (w : V3.World) :
  (forall m, P (V3_row up weather ci ri m)) ->
  Forall (Forall (Forall P)) (V3.readings (mem w)) ->
  Forall (Forall (Forall P)) (V3.readings (mem (V3_polled cfg up weather ci c ri r w))).
Proof.
  intros Hrow H. unfold V3_polled.
  destruct (measure "No route" (V3.routing up ci ri)) as [m | message]; [|exact H].
  destruct (V3.slot (V3.readings (mem w)) ci ri) as [arr|] eqn:Hslot; [|exact H].
  assert (Hnew : Forall (Forall (Forall P))
            (put_slot (V3.readings (mem w)) ci ri (keep 1000 (arr ++ [V3_row up weather ci ri m])))).
  { unfold put_slot, V3.slot in *.
    destruct (V3.readings (mem w) !! ci) as [inner|] eqn:Hinner; simpl in Hslot; [|discriminate].
    assert (Hin : Forall (Forall P) inner).
    { rewrite Forall_forall in H. apply H. eapply list_elem_of_lookup_2; eauto. }
    apply Forall_alter; [exact H|]. intros inner' Hinner' _.
    rewrite Hinner in Hinner'. inversion Hinner'; subst inner'.
    apply (Forall_insert (Forall P) inner ri _ Hin).
    apply keep_Forall; [|apply Hrow].
    rewrite Forall_forall in Hin. apply Hin. eapply list_elem_of_lookup_2; eauto. }
  destruct (V3.disk up (Route.logFile r)); exact Hnew.
Qed.

Lemma V2_run_Forall (P : V2.Row.t -> Prop) (cfg : V2.Config) (ticks : list V2.Upstream)
    (w : V2.World) :
  (forall up i m, P (V2_row up i m)) ->
  Forall (Forall P) (mem w) -> Forall (Forall P) (mem (V2_run cfg ticks w)).
Proof.
  intros Hrow. revert w. induction ticks as [|up ticks IH]; intros w H; simpl; [exact H|].
  apply IH. unfold exec. rewrite V2_checkAll_run. simpl.
  apply (steps_from_preserved (fun w' => Forall (Forall P) (mem w'))); [|exact H].
  intros i r w' _ Hw'. apply V2_polled_Forall; [apply Hrow | exact Hw'].
Qed.

Lemma V3_run_Forall (P : V3.Row.t -> Prop) (crossings : list V3.Crossing.t) (cfg : V3.Config)
    (ticks : list V3.Upstream) (w : V3.World) :
  (forall up weather ci ri m, P (V3_row up weather ci ri m)) ->
  Forall (Forall (Forall P)) (V3.readings (mem w)) ->
  Forall (Forall (Forall P)) (V3.readings (mem (V3_run crossings cfg ticks w))).
Proof.
  intros Hrow. revert w. induction ticks as [|up ticks IH]; intros w H; simpl; [exact H|].
  apply IH. unfold exec. rewrite V3_checkAll_run. simpl. unfold V3_outer.
  apply (steps_from_preserved (fun w' => Forall (Forall (Forall P)) (V3.readings (mem w')))).
  - intros ci c w1 _ H1. simpl. unfold V3_inner.
    apply (steps_from_preserved (fun w' => Forall (Forall (Forall P)) (V3.readings (mem w'))));
      [|exact H1].
    intros ri r w2 _ H2. apply V3_polled_Forall; [apply Hrow | exact H2].
  - destruct (fetchWeather_frame up w) as (Hrd & _ & _).
    unfold V3_after_weather. destruct (cycle_weather up w); simpl; now rewrite Hrd.
Qed.

Lemma V2_boot_Forall (P : V2.Row.t -> Prop) (cfg : V2.Config) (disk_files : gmap string string) :
  Forall (Forall P) (mem (V2.boot cfg disk_files)).
Proof.
  simpl. unfold V2.readings_init. apply Forall_fmap, Forall_forall. intros r _. constructor.
Qed.

Lemma V3_boot_Forall (P : V3.Row.t -> Prop) (crossings : list V3.Crossing.t)
    (disk_files : gmap string string) :
  Forall (Forall (Forall P)) (V3.readings (mem (V3.boot crossings disk_files))).
Proof.
  simpl. unfold V3.readings_init. apply Forall_fmap, Forall_forall. intros c _. simpl.
  apply Forall_fmap, Forall_forall. intros r _. constructor.
Qed.

Lemma V3_slot_Forall (P : V3.Row.t -> Prop) (rd : list (list (list V3.Row.t))) (ci ri : nat)
    (arr : list V3.Row.t) (row : V3.Row.t) :
  Forall (Forall (Forall P)) rd -> V3.slot rd ci ri = Some arr -> row ∈ arr -> P row.
Proof.
  intros H Harr Hrow. unfold V3.slot in Harr.
  destruct (rd !! ci) as [inner|] eqn:Hinner; simpl in Harr; [|discriminate].
  rewrite Forall_forall in H. specialize (H inner (list_elem_of_lookup_2 _ _ _ Hinner)).
  rewrite Forall_forall in H. specialize (H arr (list_elem_of_lookup_2 _ _ _ Harr)).
  rewrite Forall_forall in H. exact (H row Hrow).
Qed.

Lemma classified_bands (f : Z -> Level) (traffic normal delay : Z) (level : Level) :
  (forall d, (d <= 2 /\ f d = LOW) \/ (3 <= d <= 10 /\ f d = MODERATE) \/ (10 < d /\ f d = HIGH)) ->
  delay = Z.max 0 (traffic - normal) ->
  level = f delay ->
  (level = LOW <-> traffic - normal <= 2)
  /\ (level = MODERATE <-> 3 <= traffic - normal <= 10)
  /\ (level = HIGH <-> 10 < traffic - normal).
Proof.
  intros Hf Hd Hl.
  destruct (Hf delay) as [[Hle E] | [[Hle E] | [Hle E]]]; rewrite E in Hl; subst level;
    repeat split; intros; try discriminate; try lia; reflexivity.
Qed.

(** X5.  Every reading held in memory, after any number of cycles from the
    start of the process (in both editions), has the level that
    [trafficLevel] gives its stored delay; so it is LOW exactly when the
    current minutes exceed the baseline minutes by at most 2, MODERATE
    when by 3 to 10, and HIGH when by more than 10. *)
Theorem reading_level_classified
    (cfg2 : V2.Config) (files2 : gmap string string) (ticks2 : list V2.Upstream) (i : nat)
    (crossings : list V3.Crossing.t) (cfg3 : V3.Config) (files3 : gmap string string)
    (ticks3 : list V3.Upstream) (ci ri : nat) :
  (forall (arr : list V2.Row.t) (row : V2.Row.t),
      mem (exec (V2.cycles cfg2 ticks2) (V2.boot cfg2 files2)) !! i = Some arr ->
      row ∈ arr ->
      V2.Row.level row = V2.trafficLevel (V2.Row.delay row)
      /\ (V2.Row.level row = LOW <-> V2.Row.trafficMin row - V2.Row.normalMin row <= 2)
      /\ (V2.Row.level row = MODERATE <-> 3 <= V2.Row.trafficMin row - V2.Row.normalMin row <= 10)
      /\ (V2.Row.level row = HIGH <-> 10 < V2.Row.trafficMin row - V2.Row.normalMin row))
  /\ (forall (arr : list V3.Row.t) (row : V3.Row.t),
        V3.slot (V3.readings (mem (exec (V3.cycles crossings cfg3 ticks3)
                                        (V3.boot crossings files3)))) ci ri = Some arr ->
        row ∈ arr ->
        V3.Row.level row = V3.trafficLevel (V3.Row.delay row)
        /\ (V3.Row.level row = LOW <-> V3.Row.trafficMin row - V3.Row.normalMin row <= 2)
        /\ (V3.Row.level row = MODERATE
            <-> 3 <= V3.Row.trafficMin row - V3.Row.normalMin row <= 10)
        /\ (V3.Row.level row = HIGH <-> 10 < V3.Row.trafficMin row - V3.Row.normalMin row)).
Proof.
  split.
  - intros arr row Harr Hrow. unfold exec in Harr. rewrite V2_cycles_run in Harr. simpl in Harr.
    assert (H : Forall (Forall (fun row => V2_clamped row /\ V2_classified row))
                  (mem (V2_run cfg2 ticks2 (V2.boot cfg2 files2)))).
    { apply V2_run_Forall; [|apply V2_boot_Forall].
      intros up j m. split; [apply V2_row_clamped | reflexivity]. }
    rewrite Forall_forall in H. specialize (H arr (list_elem_of_lookup_2 _ _ _ Harr)).
    rewrite Forall_forall in H. destruct (H row Hrow) as [[Hd _] Hl].
    split; [exact Hl|].
    exact (classified_bands V2.trafficLevel _ _ _ _ V2_trafficLevel_cases Hd Hl).
  - intros arr row Harr Hrow. unfold exec in Harr. rewrite V3_cycles_run in Harr. simpl in Harr.
    assert (H : Forall (Forall (Forall (fun row => V3_clamped row /\ V3_classified row)))
                  (V3.readings (mem (V3_run crossings cfg3 ticks3 (V3.boot crossings files3))))).
    { apply V3_run_Forall; [|apply V3_boot_Forall].
      intros up weather cj rj m. split; [apply V3_row_clamped | reflexivity]. }
    destruct (V3_slot_Forall _ _ _ _ _ _ H Harr Hrow) as [[Hd _] Hl].
    split; [exact Hl|].
    exact (classified_bands V3.trafficLevel _ _ _ _ V3_trafficLevel_cases Hd Hl).
Qed.

Lemma reading_level_classified_witness :
  exists (arr : list V3.Row.t) (row : V3.Row.t),
    V3.slot (V3.readings (mem (exec (V3.cycles V3.CROSSINGS demo_config [demo_up3 0])
                                    demo_world))) 0 0 = Some arr
    /\ row ∈ arr
    /\ V3.Row.trafficMin row - V3.Row.normalMin row = 8
    /\ V3.Row.level row = MODERATE.
Proof.
  exists [V3.Row.make "0" 17 9 (JS.div (JS.of_Z 42) (JS.of_Z 10)) 8 MODERATE None None],
         (V3.Row.make "0" 17 9 (JS.div (JS.of_Z 42) (JS.of_Z 10)) 8 MODERATE None None).
  assert (Harr : V3.slot (V3.readings (mem (exec (V3.cycles V3.CROSSINGS demo_config [demo_up3 0])
                                                 demo_world))) 0 0
                 = Some [V3.Row.make "0" 17 9 (JS.div (JS.of_Z 42) (JS.of_Z 10)) 8 MODERATE
                           None None])
    by (vm_compute; reflexivity).
  assert (Hin : V3.Row.make "0" 17 9 (JS.div (JS.of_Z 42) (JS.of_Z 10)) 8 MODERATE None None
                ∈ [V3.Row.make "0" 17 9 (JS.div (JS.of_Z 42) (JS.of_Z 10)) 8 MODERATE None None])
    by (apply list_elem_of_singleton; reflexivity).
  split; [exact Harr|]. split; [exact Hin|]. split; [reflexivity|].
  destruct (reading_level_classified demo_config2 ∅ [] 0
              V3.CROSSINGS demo_config ∅ [demo_up3 0] 0 0) as [_ H3].
  destruct (H3 _ _ Harr Hin) as (_ & _ & Hmod & _). apply Hmod. simpl. lia.
Defined.

(** ** How far the stored delay is from the real one *)

(** X6.  The delay a poll stores is computed from the two rounded minute
    counts, so it can differ from the real delay, the difference of the
    seconds the provider reports (clamped at 0): by less than one minute.
    A real delay of at most two minutes is therefore always classified
    LOW and one of eleven minutes or more always HIGH. *)
Theorem delay_within_a_minute
    (cfg2 : V2.Config) (cfg3 : V3.Config) (o d : Point.t)
    (data : Api.Routing) (first : Api.RouteEntry) (rest : list Api.RouteEntry)
    (w2 : V2.World) (w3 : V3.World) :
  Api.routes data = Some (first :: rest) ->
  let s := Api.summary first in
  let real := Z.max 0 (Api.travelTimeInSeconds s - baselineSeconds s) in
  exists m : Measurement.t,
    eval (V2.fetchRoute cfg2 o d (Body data)) w2 = Normal m
    /\ eval (V3.fetchRoute cfg3 o d (Body data)) w3 = Normal m
    /\ let delay := JS.Math_max 0 (Measurement.trafficMin m - Measurement.normalMin m) in
       Z.abs (60 * delay - real) < 60
       /\ (real <= 120 -> V2.trafficLevel delay = LOW /\ V3.trafficLevel delay = LOW)
       /\ (660 <= real -> V2.trafficLevel delay = HIGH /\ V3.trafficLevel delay = HIGH).
Proof.
  intros Hroutes s real. exists (measurement_of s).
  unfold eval. rewrite V2_fetchRoute_run, V3_fetchRoute_run. simpl.
  rewrite Hroutes. fold s.
  split; [reflexivity|]. split; [reflexivity|].
  pose proof (Math_round_div_spec (Api.travelTimeInSeconds s) 60 ltac:(lia)) as Ht.
  pose proof (Math_round_div_spec (baselineSeconds s) 60 ltac:(lia)) as Hn.
  unfold JS.Math_max, real.
  set (tm := JS.Math_round_div (Api.travelTimeInSeconds s) 60) in *.
  set (nm := JS.Math_round_div (baselineSeconds s) 60) in *.
  assert (Hclose : Z.abs (60 * Z.max 0 (tm - nm)
                          - Z.max 0 (Api.travelTimeInSeconds s - baselineSeconds s)) < 60) by lia.
  split; [exact Hclose|]. split; intros Hreal.
  - assert (Hd : Z.max 0 (tm - nm) <= 2) by lia.
    destruct (V2_trafficLevel_cases (Z.max 0 (tm - nm))) as [[_ E2] | [[? _] | [? _]]]; [|lia|lia].
    destruct (V3_trafficLevel_cases (Z.max 0 (tm - nm))) as [[_ E3] | [[? _] | [? _]]]; [|lia|lia].
    now split.
  - assert (Hd : 10 < Z.max 0 (tm - nm)) by lia.
    destruct (V2_trafficLevel_cases (Z.max 0 (tm - nm))) as [[? _] | [[? _] | [_ E2]]]; [lia|lia|].
    destruct (V3_trafficLevel_cases (Z.max 0 (tm - nm))) as [[? _] | [[? _] | [_ E3]]]; [lia|lia|].
    now split.
Qed.

Lemma delay_within_a_minute_witness :
  exists m : Measurement.t,
    eval (V3.fetchRoute demo_config (Point.make "35.1" "33.3" "South")
            (Point.make "35.2" "33.3" "North")
            (Body (Api.mkRouting (Some [Api.mkRouteEntry (Api.mkSummary 149 (Some 90) None 4200)])
                                 None))) demo_world = Normal m
    /\ JS.Math_max 0 (Measurement.trafficMin m - Measurement.normalMin m) = 0
    /\ Z.abs (60 * JS.Math_max 0 (Measurement.trafficMin m - Measurement.normalMin m) - 59) < 60.
Proof.
  destruct (delay_within_a_minute demo_config2 demo_config
              (Point.make "35.1" "33.3" "South") (Point.make "35.2" "33.3" "North")
              (Api.mkRouting (Some [Api.mkRouteEntry (Api.mkSummary 149 (Some 90) None 4200)]) None)
              (Api.mkRouteEntry (Api.mkSummary 149 (Some 90) None 4200)) []
              demo_world2 demo_world eq_refl)
    as (m & _ & E3 & Hclose & _).
  exists m. split; [exact E3|]. split; [|exact Hclose].
  vm_compute in E3. inversion E3. reflexivity.
Defined.

(** ** Restarting the process *)

(** X7.  The log survives a restart and the array in memory does not.
    Run the process for some cycles, stop it, and start it again on the
    disk it left (either edition, with a key, start-up writes that go
    through, and no two routes sharing a log file).  The log of a route is
    then its first content (the header, if the file was new), the lines of
    the first run and the lines of the second run, with no second header;
    the array of the route holds readings of the second run only. *)
Theorem log_survives_restart
    (cfg2 : V2.Config) (disk_files2 : gmap string string) (boot_disk2 : string -> option string)
    (first2 second2 : list V2.Upstream) (i : nat) (r2 : Route.t)
    (crossings : list V3.Crossing.t) (cfg3 : V3.Config) (disk_files3 : gmap string string)
    (boot_disk3 : string -> option string) (first3 second3 : list V3.Upstream)
    (ci ri : nat) (c : V3.Crossing.t) (r3 : Route.t) :
  V2_distinct_logs (V2.routes cfg2) ->
  V2.routes cfg2 !! i = Some r2 ->
  V2.tomtomKey cfg2 <> "" ->
  (forall path, boot_disk2 path = None) ->
  V3_distinct_logs crossings ->
  crossings !! ci = Some c ->
  V3.Crossing.routes c !! ri = Some r3 ->
  V3.tomtomKey cfg3 <> "" ->
  (forall path, boot_disk3 path = None) ->
  let stopped2 := exec (V2.main cfg2 boot_disk2 first2) (V2.boot cfg2 disk_files2) in
  let w2 := exec (V2.main cfg2 boot_disk2 second2) (V2.boot cfg2 (files stopped2)) in
  let start3 := exec (V3.ensureCsv crossings boot_disk3) (V3.boot crossings disk_files3) in
  let stopped3 := exec (V3.main crossings cfg3 boot_disk3 first3) (V3.boot crossings disk_files3) in
  let restart3 := exec (V3.ensureCsv crossings boot_disk3) (V3.boot crossings (files stopped3)) in
  let w3 := exec (V3.main crossings cfg3 boot_disk3 second3)
                 (V3.boot crossings (files stopped3)) in
  (files w2 !! Route.logFile r2
   = Some (default V2.HEADER (disk_files2 !! Route.logFile r2)
           +:+ text (map (V2.csvLine r2) (V2_logged i r2 first2 ++ V2_logged i r2 second2)))
   /\ mem w2 !! i = Some (lastn 500 (V2_history i second2)))
  /\ (files w3 !! Route.logFile r3
      = Some (default V3.HEADER (disk_files3 !! Route.logFile r3)
              +:+ text (map (V3.csvLine c r3)
                          (V3_logged crossings cfg3 ci ri r3 first3 start3
                           ++ V3_logged crossings cfg3 ci ri r3 second3 restart3)))
      /\ V3.slot (V3.readings (mem w3)) ci ri
         = Some (lastn 1000 (V3_history crossings cfg3 ci ri second3 restart3))).
Proof.
  intros Hlogs2 Hr2 Hkey2 Hdisk2 Hlogs3 Hc Hr3 Hkey3 Hdisk3
         stopped2 w2 start3 stopped3 restart3 w3.
  split.
  - destruct (V2_main_log cfg2 disk_files2 boot_disk2 first2 i r2 Hlogs2 Hr2 Hkey2 Hdisk2)
      as [Hfile1 _].
    destruct (V2_main_log cfg2 (files stopped2) boot_disk2 second2 i r2 Hlogs2 Hr2 Hkey2 Hdisk2)
      as [Hfile2 Hmem2].
    split; [|exact Hmem2].
    unfold w2. rewrite Hfile2. unfold stopped2. rewrite Hfile1. simpl.
    now rewrite map_app, text_app, append_assoc.
  - destruct (V3_main_log crossings cfg3 disk_files3 boot_disk3 first3 ci ri c r3
                Hlogs3 Hc Hr3 Hkey3 Hdisk3) as [Hfile1 _].
    destruct (V3_main_log crossings cfg3 (files stopped3) boot_disk3 second3 ci ri c r3
                Hlogs3 Hc Hr3 Hkey3 Hdisk3) as [Hfile2 Hmem2].
    split; [|exact Hmem2].
    unfold w3. rewrite Hfile2. unfold stopped3. rewrite Hfile1. simpl.
    now rewrite map_app, text_app, append_assoc.
Qed.

Lemma log_survives_restart_witness :
  let stopped3 := exec (V3.main V3.CROSSINGS demo_config always_writable (demo_ticks3 2))
                       demo_world in
  let w3 := exec (V3.main V3.CROSSINGS demo_config always_writable (demo_ticks3 1))
                 (V3.boot V3.CROSSINGS (files stopped3)) in
  count_lines <$> files w3 !! "log-metehan-n2s.csv" = Some 4%nat
  /\ List.length <$> V3.slot (V3.readings (mem w3)) 0 1 = Some 1%nat.
Proof.
  intros stopped3 w3.
  destruct (log_survives_restart
              demo_config2 ∅ always_writable [] [] 0
              (Route.make "South to North" "log-south-to-north.csv"
                 (Point.make "35.17738946649458" "33.323703790315996" "South")
                 (Point.make "35.18248230357691" "33.32297160214468" "North"))
              V3.CROSSINGS demo_config ∅ always_writable (demo_ticks3 2) (demo_ticks3 1) 0 1
              metehan north_to_south
              default_routes_distinct_logs eq_refl ltac:(discriminate) (fun _ => eq_refl)
              CROSSINGS_distinct_logs eq_refl eq_refl ltac:(discriminate) (fun _ => eq_refl))
    as (_ & Hfile & Hmem).
  split.
  - rewrite (Hfile : files w3 !! "log-metehan-n2s.csv" = _). vm_compute. reflexivity.
  - rewrite (Hmem : V3.slot (V3.readings (mem w3)) 0 1 = _). vm_compute. reflexivity.
Defined.

(** ** Creating the log files *)

Lemma for_from_invariant {Mem Line A : Type} (P : Process Mem Line -> Prop) (xs : list A)
    (body : nat -> A -> Node (Process Mem Line) unit) (i0 : nat) (w : Process Mem Line) :
  (forall k x w', P w' -> P (exec (body k x) w')) ->
  P w -> P (exec (for_from i0 xs body) w).
Proof.
  intros Hbody. revert i0 w. induction xs as [|x xs IH]; intros i0 w Hw; [exact Hw|].
  unfold exec. simpl. unfold mbind, Node_bind.
  pose proof (Hbody i0 x w Hw) as Hstep. unfold exec in Hstep.
  destruct (body i0 x w) as [[[] | message] w1]; simpl in *; [|exact Hstep].
  now apply IH.
Qed.

Lemma created_only_refl {Mem Line : Type} (header : string) (w : Process Mem Line) :
  created_only header w w.
Proof. repeat split. intros path. now left. Qed.

Lemma created_only_step {Mem Line : Type} (header : string) (disk : string -> option string)
    (r : Route.t) (w0 w : Process Mem Line) :
  created_only header w0 w ->
  created_only header w0
    (exec (found ← existsSync (Route.logFile r);
           if negb found
           then writeFileSync (disk (Route.logFile r)) (Route.logFile r) header
           else mret tt) w).
Proof.
  intros (Hm & Hc & Hr & Hf).
  unfold exec, mbind, Node_bind, existsSync, writeFileSync. simpl.
  case_bool_decide as Hex; simpl; [now repeat split|].
  destruct (disk (Route.logFile r)); simpl; [now repeat split|].
  repeat split; try assumption.
  intros path. cbn [files]. destruct (decide (path = Route.logFile r)) as [-> | Hne].
  - right. rewrite lookup_insert_eq. split; [|reflexivity].
    destruct (Hf (Route.logFile r)) as [E | [E _]]; [|exact E].
    rewrite <- E. destruct (files w !! Route.logFile r) eqn:E'; [|reflexivity].
    exfalso. apply Hex. eauto.
  - rewrite lookup_insert_ne by congruence. apply Hf.
Qed.

Lemma V2_ensureCsv_created (cfg : V2.Config) (disk : string -> option string) (w : V2.World) :
  created_only V2.HEADER w (exec (V2.ensureCsv cfg disk) w).
Proof.
  unfold V2.ensureCsv, forEach.
  apply (for_from_invariant (created_only V2.HEADER w)); [|apply created_only_refl].
  intros k r w' Hw'. now apply created_only_step.
Qed.

Lemma V3_ensureCsv_created (crossings : list V3.Crossing.t) (disk : string -> option string)
    (w : V3.World) :
  created_only V3.HEADER w (exec (V3.ensureCsv crossings disk) w).
Proof.
  unfold V3.ensureCsv, forEach.
  apply (for_from_invariant (created_only V3.HEADER w)); [|apply created_only_refl].
  intros k c w' Hw'.
  apply (for_from_invariant (created_only V3.HEADER w)); [|exact Hw'].
  intros k' r w'' Hw''. now apply created_only_step.
Qed.








(** ** Splitting texts *)

Lemma count_char_app (c : ascii) (a b : string) :
  count_char c (a +:+ b) = (count_char c a + count_char c b)%nat.
Proof.
  induction a as [|ch a IH]; [reflexivity|].
  change (count_char c (String ch (a +:+ b))
          = (count_char c (String ch a) + count_char c b)%nat).
  simpl. rewrite IH. lia.
Qed.

Lemma count_lines_count_char (s : string) : count_lines s = count_char (ascii_of_nat 10) s.
Proof. induction s as [|ch s IH]; [reflexivity|]. simpl. now rewrite IH. Qed.

Lemma split_plain (sep : ascii) (a : string) :
  count_char sep a = 0%nat -> JStr.split sep a = [a].
Proof.
  induction a as [|ch a IH]; [reflexivity|]. simpl.
  destruct (Ascii.eqb ch sep); [discriminate|]. simpl.
  intros H. now rewrite (IH H).
Qed.

Lemma split_field (sep : ascii) (a rest : string) :
  count_char sep a = 0%nat ->
  JStr.split sep (a +:+ String sep rest) = a :: JStr.split sep rest.
Proof.
  induction a as [|ch a IH].
  - intros _. change (JStr.split sep (String sep rest) = "" :: JStr.split sep rest).
    simpl. now rewrite Ascii.eqb_refl.
  - change (count_char sep (String ch a) = 0%nat ->
            JStr.split sep (String ch (a +:+ String sep rest))
            = String ch a :: JStr.split sep rest).
    simpl. destruct (Ascii.eqb ch sep); [discriminate|]. simpl.
    intros H. now rewrite (IH H).
Qed.

Lemma split_pieces (sep : ascii) (s piece : string) :
  piece ∈ JStr.split sep s -> count_char sep piece = 0%nat.
Proof.
  revert piece. induction s as [|ch s IH]; intros piece; simpl.
  - intros H. apply list_elem_of_singleton in H. now subst.
  - destruct (Ascii.eqb ch sep) eqn:E.
    + intros H. apply elem_of_cons in H. destruct H as [-> | H]; [reflexivity | now apply IH].
    + destruct (JStr.split sep s) as [|first pieces] eqn:Hs.
      * intros H. apply list_elem_of_singleton in H. subst. simpl. now rewrite E.
      * intros H. apply elem_of_cons in H. destruct H as [-> | H].
        -- simpl. rewrite E. simpl. apply IH. apply elem_of_cons. now left.
        -- apply IH. apply elem_of_cons. now right.
Qed.

Lemma split_nonempty (sep : ascii) (s : string) : JStr.split sep s <> [].
Proof.
  destruct s as [|ch s]; simpl; [discriminate|].
  destruct (Ascii.eqb ch sep); [discriminate|].
  destruct (JStr.split sep s); discriminate.
Qed.

Lemma split_join (sep : ascii) (s : string) : join sep (JStr.split sep s) = s.
Proof.
  induction s as [|ch s IH]; [reflexivity|]. simpl.
  pose proof (split_nonempty sep s) as Hne.
  destruct (JStr.split sep s) as [|first pieces]; [now destruct Hne|].
  destruct (Ascii.eqb_spec ch sep) as [-> | _].
  - change (String sep (join sep (first :: pieces)) = String sep s). now rewrite IH.
  - destruct pieces as [|second pieces].
    + simpl in *. now rewrite IH.
    + change (String ch (first +:+ String sep (join sep (second :: pieces))) = String ch s).
      now rewrite <- IH.
Qed.

Lemma length_append (a b : string) :
  String.length (a +:+ b) = (String.length a + String.length b)%nat.
Proof.
  induction a as [|ch a IH]; [reflexivity|].
  change (S (String.length (a +:+ b)) = S (String.length a + String.length b)).
  now rewrite IH.
Qed.

Lemma append_cancel_r (a a' b : string) : a +:+ b = a' +:+ b -> a = a'.
Proof.
  intros H.
  assert (Hlen : String.length a = String.length a').
  { apply (f_equal String.length) in H. rewrite !length_append in H. lia. }
  revert a' H Hlen. induction a as [|ch a IH]; intros [|ch' a'] H Hlen; try discriminate.
  - reflexivity.
  - change (String ch (a +:+ b) = String ch' (a' +:+ b)) in H.
    inversion H as [[Hch Hrest]]. f_equal. apply IH; [exact Hrest|].
    simpl in Hlen. lia.
Qed.

(** ** The fields of a log line *)

Lemma pretty_N_go_count (c : ascii) (x : N) (s : string) :
  (forall d, pretty_N_char d <> c) ->
  count_char c (pretty_N_go x s) = count_char c s.
Proof.
  intros Hc. revert s. induction (N.lt_wf_0 x) as [x _ IH]; intros s.
  assert (x = 0 \/ 0 < x)%N as [-> | Hpos] by lia.
  - now rewrite pretty_N_go_0.
  - rewrite pretty_N_go_step by exact Hpos.
    rewrite IH by (now apply N.div_lt). cbn [count_char].
    destruct (Ascii.eqb_spec (pretty_N_char (x `mod` 10)) c) as [E | _]; [|reflexivity].
    now destruct (Hc _ E).
Qed.

Lemma pretty_Z_count (c : ascii) (z : Z) :
  (forall d, pretty_N_char d <> c) -> c <> "-"%char ->
  count_char c (pretty z) = 0%nat.
Proof.
  intros Hc Hdash.
  assert (HN : forall p, count_char c (pretty (N.pos p)) = 0%nat).
  { intros p. unfold pretty, pretty_N. rewrite decide_False by discriminate.
    now rewrite pretty_N_go_count. }
  destruct z as [|p|p].
  - change (count_char c "0" = 0%nat). cbn [count_char].
    destruct (Ascii.eqb_spec "0"%char c) as [E | _]; [|reflexivity].
    now destruct (Hc 0%N E).
  - apply HN.
  - change (count_char c (String "-"%char (pretty (N.pos p))) = 0%nat). cbn [count_char].
    rewrite (HN p). destruct (Ascii.eqb_spec "-"%char c) as [E | _]; [|reflexivity].
    now destruct Hdash.
Qed.

Lemma digit_not_comma (d : N) : pretty_N_char d <> ","%char.
Proof. unfold pretty_N_char. repeat case_match; discriminate. Qed.

Lemma digit_not_line_feed (d : N) : pretty_N_char d <> ascii_of_nat 10.
Proof. unfold pretty_N_char. repeat case_match; discriminate. Qed.

Lemma String_of_int_plain (n : Z) : plain (JS.String_of_int n).
Proof.
  unfold plain, JS.String_of_int. split.
  - apply pretty_Z_count; [apply digit_not_comma | discriminate].
  - rewrite count_lines_count_char. apply pretty_Z_count; [apply digit_not_line_feed | discriminate].
Qed.


Lemma quoted_plain (x : string) : plain x -> plain (quote +:+ x +:+ quote).
Proof.
  intros [Hc Hl]. split.
  - rewrite !count_char_app, Hc. reflexivity.
  - rewrite !count_lines_app, Hl. reflexivity.
Qed.

Lemma Level_text_inj (a b : Level) : Level_text a = Level_text b -> a = b.
Proof. destruct a, b; simpl; intros H; try reflexivity; discriminate. Qed.

Lemma quoted_inj (x y tail : string) :
  quote +:+ x +:+ quote +:+ tail = quote +:+ y +:+ quote +:+ tail -> x = y.
Proof.
  intros H. change (String (ascii_of_nat 34) (x +:+ quote +:+ tail)
                    = String (ascii_of_nat 34) (y +:+ quote +:+ tail)) in H.
  inversion H as [H']. now apply append_cancel_r in H'.
Qed.

Lemma quoted_field_inj (x y : string) : quote +:+ x +:+ quote = quote +:+ y +:+ quote -> x = y.
Proof.
  intros H. change (String (ascii_of_nat 34) (x +:+ quote)
                    = String (ascii_of_nat 34) (y +:+ quote)) in H.
  inversion H as [H']. now apply append_cancel_r in H'.
Qed.

(** A line of fields, the last of which ends the line, splits into its
    fields. *)
Lemma split_line (fields : list string) (last : string) :
  Forall plain fields -> count_char "," last = 0%nat ->
  JStr.split "," (foldr (fun field line => field +:+ "," +:+ line) last fields)
  = (fields ++ [last])%list.
Proof.
  intros Hfields Hlast. induction Hfields as [|field fields [Hc _] _ IH]; simpl.
  - now apply split_plain.
  - change (field +:+ "," +:+ foldr (fun field line => field +:+ "," +:+ line) last fields)
      with (field +:+ String "," (foldr (fun field line => field +:+ "," +:+ line) last fields)).
    rewrite split_field by exact Hc. now rewrite IH.
Qed.

Lemma count_lines_line (fields : list string) (last : string) :
  Forall plain fields ->
  count_lines (foldr (fun field line => field +:+ "," +:+ line) last fields) = count_lines last.
Proof.
  intros Hfields. induction Hfields as [|field fields [_ Hl] _ IH]; simpl; [reflexivity|].
  rewrite !count_lines_app, Hl, IH. reflexivity.
Qed.

Lemma V2_csvLine_line (r : Route.t) (row : V2.Row.t) :
  V2.csvLine r row
  = foldr (fun field line => field +:+ "," +:+ line)
      (quote +:+ Level_text (V2.Row.level row) +:+ quote +:+ newline)
      [quote +:+ V2.Row.timestamp row +:+ quote;
       quote +:+ Route.name r +:+ quote;
       quote +:+ Point.label (Route.origin r) +:+ quote;
       quote +:+ Point.label (Route.dest r) +:+ quote;
       JS.String_of_int (V2.Row.trafficMin row);
       JS.String_of_int (V2.Row.normalMin row);
       JS.String_of_int (V2.Row.delay row)].
Proof. unfold V2.csvLine. simpl. now rewrite !append_assoc. Qed.

Lemma V3_csvLine_line (c : V3.Crossing.t) (r : Route.t) (row : V3.Row.t) :
  V3.csvLine c r row
  = foldr (fun field line => field +:+ "," +:+ line)
      (quote +:+ Level_text (V3.Row.level row) +:+ quote +:+ newline)
      [quote +:+ V3.Row.timestamp row +:+ quote;
       quote +:+ V3.Crossing.name c +:+ quote;
       quote +:+ Route.name r +:+ quote;
       JS.String_of_int (V3.Row.trafficMin row);
       JS.String_of_int (V3.Row.normalMin row);
       JS.String_of_int (V3.Row.delay row)].
Proof. unfold V3.csvLine. simpl. now rewrite !append_assoc. Qed.

Lemma last_field_plain (l : Level) :
  count_char "," (quote +:+ Level_text l +:+ quote +:+ newline) = 0%nat
  /\ count_lines (quote +:+ Level_text l +:+ quote +:+ newline) = 1%nat.
Proof. destruct l; split; reflexivity. Qed.

(** X9.  A log line can be read back.  When the timestamp and the names
    written into it hold no comma and no line feed, the line [appendCsv]
    writes is one line, which splits at its commas into exactly the
    fields written, as many as the header has columns (8 in the two-route
    edition, 7 in the v3 edition); and two readings of a route with the
    same line have the same timestamp, current minutes, baseline minutes,
    delay and level. *)
Theorem csvLine_fields
    (r : Route.t) (row2 : V2.Row.t) (c : V3.Crossing.t) (row3 : V3.Row.t) :
  plain (Route.name r) ->
  plain (Point.label (Route.origin r)) ->
  plain (Point.label (Route.dest r)) ->
  plain (V3.Crossing.name c) ->
  plain (V2.Row.timestamp row2) ->
  plain (V3.Row.timestamp row3) ->
  (JStr.split "," (V2.csvLine r row2)
   = [quote +:+ V2.Row.timestamp row2 +:+ quote;
      quote +:+ Route.name r +:+ quote;
      quote +:+ Point.label (Route.origin r) +:+ quote;
      quote +:+ Point.label (Route.dest r) +:+ quote;
      JS.String_of_int (V2.Row.trafficMin row2);
      JS.String_of_int (V2.Row.normalMin row2);
      JS.String_of_int (V2.Row.delay row2);
      quote +:+ Level_text (V2.Row.level row2) +:+ quote +:+ newline]
   /\ List.length (JStr.split "," (V2.csvLine r row2)) = List.length (JStr.split "," V2.HEADER)
   /\ count_lines (V2.csvLine r row2) = 1%nat
   /\ (forall row : V2.Row.t,
         plain (V2.Row.timestamp row) ->
         V2.csvLine r row = V2.csvLine r row2 ->
         V2.Row.timestamp row = V2.Row.timestamp row2
         /\ V2.Row.trafficMin row = V2.Row.trafficMin row2
         /\ V2.Row.normalMin row = V2.Row.normalMin row2
         /\ V2.Row.delay row = V2.Row.delay row2
         /\ V2.Row.level row = V2.Row.level row2))
  /\ (JStr.split "," (V3.csvLine c r row3)
      = [quote +:+ V3.Row.timestamp row3 +:+ quote;
         quote +:+ V3.Crossing.name c +:+ quote;
         quote +:+ Route.name r +:+ quote;
         JS.String_of_int (V3.Row.trafficMin row3);
         JS.String_of_int (V3.Row.normalMin row3);
         JS.String_of_int (V3.Row.delay row3);
         quote +:+ Level_text (V3.Row.level row3) +:+ quote +:+ newline]
      /\ List.length (JStr.split "," (V3.csvLine c r row3))
         = List.length (JStr.split "," V3.HEADER)
      /\ count_lines (V3.csvLine c r row3) = 1%nat
      /\ (forall row : V3.Row.t,
            plain (V3.Row.timestamp row) ->
            V3.csvLine c r row = V3.csvLine c r row3 ->
            V3.Row.timestamp row = V3.Row.timestamp row3
            /\ V3.Row.trafficMin row = V3.Row.trafficMin row3
            /\ V3.Row.normalMin row = V3.Row.normalMin row3
            /\ V3.Row.delay row = V3.Row.delay row3
            /\ V3.Row.level row = V3.Row.level row3)).
Proof.
  intros Hname Horigin Hdest Hcrossing Hts2 Hts3.
  assert (Hsplit2 : forall row, plain (V2.Row.timestamp row) ->
            JStr.split "," (V2.csvLine r row)
            = [quote +:+ V2.Row.timestamp row +:+ quote;
               quote +:+ Route.name r +:+ quote;
               quote +:+ Point.label (Route.origin r) +:+ quote;
               quote +:+ Point.label (Route.dest r) +:+ quote;
               JS.String_of_int (V2.Row.trafficMin row);
               JS.String_of_int (V2.Row.normalMin row);
               JS.String_of_int (V2.Row.delay row);
               quote +:+ Level_text (V2.Row.level row) +:+ quote +:+ newline]).
  { intros row Hts. rewrite V2_csvLine_line, split_line; [reflexivity| |apply last_field_plain].
    repeat constructor; try (now apply quoted_plain); apply String_of_int_plain. }
  assert (Hsplit3 : forall row, plain (V3.Row.timestamp row) ->
            JStr.split "," (V3.csvLine c r row)
            = [quote +:+ V3.Row.timestamp row +:+ quote;
               quote +:+ V3.Crossing.name c +:+ quote;
               quote +:+ Route.name r +:+ quote;
               JS.String_of_int (V3.Row.trafficMin row);
               JS.String_of_int (V3.Row.normalMin row);
               JS.String_of_int (V3.Row.delay row);
               quote +:+ Level_text (V3.Row.level row) +:+ quote +:+ newline]).
  { intros row Hts. rewrite V3_csvLine_line, split_line; [reflexivity| |apply last_field_plain].
    repeat constructor; try (now apply quoted_plain); apply String_of_int_plain. }
  split.
  - split; [now apply Hsplit2|]. split; [rewrite Hsplit2 by exact Hts2; reflexivity|].
    split.
    + rewrite V2_csvLine_line, count_lines_line; [apply last_field_plain|].
      repeat constructor; try (now apply quoted_plain); apply String_of_int_plain.
    + intros row Hts Hline. apply (f_equal (JStr.split ",")) in Hline.
      rewrite (Hsplit2 row Hts), (Hsplit2 row2 Hts2) in Hline.
      pose proof (f_equal (fun l => l !! 0%nat) Hline) as Ht.
      pose proof (f_equal (fun l => l !! 4%nat) Hline) as Htm.
      pose proof (f_equal (fun l => l !! 5%nat) Hline) as Hnm.
      pose proof (f_equal (fun l => l !! 6%nat) Hline) as Hd.
      pose proof (f_equal (fun l => l !! 7%nat) Hline) as Hl.
      cbn [lookup list_lookup] in Ht, Htm, Hnm, Hd, Hl.
      apply (inj Some) in Ht, Htm, Hnm, Hd, Hl.
      split; [now apply quoted_field_inj|].
      unfold JS.String_of_int in *.
      split; [now apply (inj pretty)|]. split; [now apply (inj pretty)|].
      split; [now apply (inj pretty)|].
      apply Level_text_inj. now apply (quoted_inj _ _ newline).
  - split; [now apply Hsplit3|]. split; [rewrite Hsplit3 by exact Hts3; reflexivity|].
    split.
    + rewrite V3_csvLine_line, count_lines_line; [apply last_field_plain|].
      repeat constructor; try (now apply quoted_plain); apply String_of_int_plain.
    + intros row Hts Hline. apply (f_equal (JStr.split ",")) in Hline.
      rewrite (Hsplit3 row Hts), (Hsplit3 row3 Hts3) in Hline.
      pose proof (f_equal (fun l => l !! 0%nat) Hline) as Ht.
      pose proof (f_equal (fun l => l !! 3%nat) Hline) as Htm.
      pose proof (f_equal (fun l => l !! 4%nat) Hline) as Hnm.
      pose proof (f_equal (fun l => l !! 5%nat) Hline) as Hd.
      pose proof (f_equal (fun l => l !! 6%nat) Hline) as Hl.
      cbn [lookup list_lookup] in Ht, Htm, Hnm, Hd, Hl.
      apply (inj Some) in Ht, Htm, Hnm, Hd, Hl.
      split; [now apply quoted_field_inj|].
      unfold JS.String_of_int in *.
      split; [now apply (inj pretty)|]. split; [now apply (inj pretty)|].
      split; [now apply (inj pretty)|].
      apply Level_text_inj. now apply (quoted_inj _ _ newline).
Qed.

Lemma csvLine_fields_witness :
  JStr.split ","
    (V3.csvLine metehan north_to_south
       (V3.Row.make "2026-02-27T11:20:00.000Z" 17 9 (JS.of_Z 4) 8 MODERATE None None))
  = [quote +:+ "2026-02-27T11:20:00.000Z" +:+ quote;
     quote +:+ "Agios Dometios / Metehan" +:+ quote;
     quote +:+ "North to South" +:+ quote;
     "17"; "9"; "8";
     quote +:+ "MODERATE" +:+ quote +:+ newline].
Proof.
  destruct (csvLine_fields north_to_south
              (V2.Row.make "2026-02-27T11:20:00.000Z" 17 9 (JS.of_Z 4) 8 MODERATE)
              metehan
              (V3.Row.make "2026-02-27T11:20:00.000Z" 17 9 (JS.of_Z 4) 8 MODERATE None None)
              (conj eq_refl eq_refl) (conj eq_refl eq_refl) (conj eq_refl eq_refl)
              (conj eq_refl eq_refl) (conj eq_refl eq_refl) (conj eq_refl eq_refl))
    as (_ & Hsplit & _).
  exact Hsplit.
Defined.

(** ** The durable log, line by line *)










(** ** Slices and the trend arrow *)

Lemma slice_from_lastn {A : Type} (arr : list A) (n : nat) :
  (0 < n)%nat -> JArr.slice_from arr (- Z.of_nat n) = lastn n arr.
Proof.
  intros Hn. unfold JArr.slice_from, lastn, JS.length.
  destruct (Z.ltb_spec (- Z.of_nat n) 0) as [_ | Hge]; [|lia].
  f_equal. lia.
Qed.

Lemma lastn_app_exact {A : Type} (pre tail : list A) :
  lastn (List.length tail) (pre ++ tail) = tail.
Proof.
  unfold lastn. rewrite length_app.
  replace (List.length pre + List.length tail - List.length tail)%nat
    with (List.length pre) by lia.
  now rewrite drop_app_length.
Qed.

(** X10.  The trend arrow of a route compares its newest reading with the
    reading two polls before it, and with nothing else: for an array that
    ends with the readings [a], [b], [c], whatever comes before them and
    whatever [b] is, [calcTrend] (which never throws) shows "up" exactly
    when the current minutes of [c] exceed those of [a] by 2 or more,
    "down" exactly when they are lower by 2 or more, and "level"
    otherwise; with fewer than three readings it shows no arrow. *)
Theorem calcTrend_compares (a c : V3.Row.t) :
  let diff := V3.Row.trafficMin c - V3.Row.trafficMin a in
  (exists t : V3_http.Trend,
      (forall (pre : list V3.Row.t) (b : V3.Row.t),
          V3_http.calcTrend (pre ++ [a; b; c]) = Normal t)
      /\ (V3_http.arrow t = "↑" <-> 2 <= diff)
      /\ (V3_http.arrow t = "↓" <-> diff <= -2)
      /\ (V3_http.arrow t = "→" <-> -2 < diff < 2))
  /\ (forall arr : list V3.Row.t,
        (List.length arr < 3)%nat -> V3_http.calcTrend arr = Normal (V3_http.mkTrend "" "")).
Proof.
  intros diff.
  assert (Hrun : forall (pre : list V3.Row.t) (b : V3.Row.t),
             V3_http.calcTrend (pre ++ [a; b; c])
             = if 2 <=? diff then Normal (V3_http.mkTrend "↑" "var(--high)")
               else if diff <=? -2 then Normal (V3_http.mkTrend "↓" "var(--low)")
               else Normal (V3_http.mkTrend "→" "var(--muted)")).
  { intros pre b. unfold V3_http.calcTrend, JS.length.
    rewrite length_app. simpl List.length.
    destruct (Z.ltb_spec (Z.of_nat (List.length pre + 3)) 3) as [Hlt | _]; [lia|].
    change (-3) with (- Z.of_nat 3). rewrite slice_from_lastn by lia.
    rewrite (lastn_app_exact pre [a; b; c] : lastn 3 (pre ++ [a; b; c]) = [a; b; c]).
    reflexivity. }
  split.
  - destruct (2 <=? diff) eqn:Eup.
    + exists (V3_http.mkTrend "↑" "var(--high)"). split; [exact Hrun|].
      apply Z.leb_le in Eup. simpl.
      repeat split; intros; try discriminate; try lia; reflexivity.
    + destruct (diff <=? -2) eqn:Edown.
      * exists (V3_http.mkTrend "↓" "var(--low)"). split; [exact Hrun|].
        apply Z.leb_gt in Eup. apply Z.leb_le in Edown. simpl.
        repeat split; intros; try discriminate; try lia; reflexivity.
      * exists (V3_http.mkTrend "→" "var(--muted)"). split; [exact Hrun|].
        apply Z.leb_gt in Eup. apply Z.leb_gt in Edown. simpl.
        repeat split; intros; try discriminate; try lia; reflexivity.
  - intros arr Hlen. unfold V3_http.calcTrend, JS.length.
    destruct (Z.ltb_spec (Z.of_nat (List.length arr)) 3) as [_ | Hge]; [reflexivity | lia].
Qed.

Lemma calcTrend_compares_witness :
  V3_http.calcTrend
    [V3.Row.make "2026-02-27T11:10:00.000Z" 12 9 (JS.of_Z 4) 3 MODERATE None None;
     V3.Row.make "2026-02-27T11:15:00.000Z" 30 9 (JS.of_Z 4) 21 HIGH None None]
  = Normal (V3_http.mkTrend "" "").
Proof.
  destruct (calcTrend_compares
              (V3.Row.make "2026-02-27T11:10:00.000Z" 12 9 (JS.of_Z 4) 3 MODERATE None None)
              (V3.Row.make "2026-02-27T11:15:00.000Z" 30 9 (JS.of_Z 4) 21 HIGH None None))
    as [_ Hshort].
  apply Hshort. simpl. lia.
Defined.

(** ** The weather table *)

(** X19.  The icon never contradicts the description: two weather codes
    with the same description have the same icon (drizzle and rain share
    one).  Every whole code up to 99 has a description; "Unknown", with
    the thermometer icon, is for the codes above 99 only, and a negative
    code reads as "Partly cloudy". *)
Theorem weatherIcon_follows_description (code code' : Z) :
  (V3.weatherDescription code = V3.weatherDescription code' ->
   V3.weatherIcon code = V3.weatherIcon code')
  /\ (V3.weatherDescription code = "Unknown" <-> 99 < code)
  /\ (V3.weatherIcon code = "🌡️" <-> 99 < code)
  /\ (code < 0 -> V3.weatherDescription code = "Partly cloudy")
  /\ (V3.weatherDescription code = "Drizzle" <-> 50 <= code <= 59)
  /\ (V3.weatherDescription code = "Rain" <-> 60 <= code <= 69).
Proof.
  unfold V3.weatherDescription, V3.weatherIcon.
  repeat match goal with
         | |- context [?x =? ?y] => destruct (Z.eqb_spec x y)
         | |- context [?x <=? ?y] => destruct (Z.leb_spec x y)
         end;
    repeat split; intros; try discriminate; try lia; try reflexivity.
Qed.

Lemma weatherIcon_follows_description_witness :
  V3.weatherIcon 51 = V3.weatherIcon 55 /\ V3.weatherDescription (-1) = "Partly cloudy".
Proof.
  destruct (weatherIcon_follows_description 51 55) as [Hicon _].
  destruct (weatherIcon_follows_description (-1) 0) as (_ & _ & _ & Hneg & _).
  split; [apply Hicon; reflexivity | apply Hneg; lia].
Defined.

(** ** The weather a page shows *)

Lemma first_some_app {A : Type} (l k : list (option A)) :
  first_some (l ++ k) = match first_some l with Some x => Some x | None => first_some k end.
Proof. induction l as [|[x|] l IH]; simpl; auto. Qed.

Lemma first_some_mjoin {A : Type} (ls : list (list (option A))) :
  first_some (mjoin ls) = first_some (map first_some ls).
Proof.
  induction ls as [|l ls IH]; [reflexivity|]. simpl.
  rewrite first_some_app, IH. now destruct (first_some l).
Qed.

(** A loop that looks for the first value that is not [null]. *)
Lemma for_while_first {Mem Line A B : Type} (xs : list A)
    (body : nat -> A -> option B -> Node (Process Mem Line) (option B))
    (g : nat -> A -> option B) (i0 : nat) (s : option B) (w : Process Mem Line) :
  (forall k x, xs !! k = Some x -> body (i0 + k)%nat x None w = (Normal (g (i0 + k)%nat x), w)) ->
  for_while i0 xs (fun s => negb (bool_decide (is_Some s))) body s w
  = (Normal (match s with
             | Some _ => s
             | None => first_some (imap (fun k => g (i0 + k)%nat) xs)
             end), w).
Proof.
  revert i0 s. induction xs as [|x xs IH]; intros i0 s Hbody.
  - simpl. now destruct s.
  - simpl. destruct s as [b|]; [reflexivity|]. simpl.
    unfold mbind, Node_bind.
    pose proof (Hbody 0%nat x eq_refl) as H0. rewrite Nat.add_0_r in H0. rewrite H0.
    rewrite (IH (S i0) (g i0 x)).
    + rewrite Nat.add_0_r. destruct (g i0 x); [reflexivity|].
      do 3 f_equal. apply imap_ext. intros k y _. simpl. f_equal. lia.
    + intros k y Hk. replace (S i0 + k)%nat with (i0 + S k)%nat by lia. now apply Hbody.
Qed.

Lemma routesWeather_run (ci : nat) (c : V3.Crossing.t) (w : V3.World)
    (weather : option V3.Weather.t) :
  (forall ri r, V3.Crossing.routes c !! ri = Some r ->
                is_Some (V3.slot (V3.readings (mem w)) ci ri)) ->
  V3_http.routesWeather ci c weather w
  = (Normal (match weather with
             | Some _ => weather
             | None =>
                 first_some (imap (fun ri _ => V3.latest (V3.readings (mem w)) ci ri
                                               ≫= V3.Row.weather)
                                  (V3.Crossing.routes c))
             end), w).
Proof.
  intros Hshape. unfold V3_http.routesWeather.
  rewrite (for_while_first (V3.Crossing.routes c) _
             (fun ri _ => V3.latest (V3.readings (mem w)) ci ri ≫= V3.Row.weather) 0 weather w).
  - reflexivity.
  - intros ri r Hr. simpl.
    destruct (Hshape ri r Hr) as [arr Harr].
    unfold V3.latest, V3.readings_at, mbind, Node_bind, gets. simpl. rewrite Harr. simpl.
    unfold JS.length, JS.at_last.
    destruct arr as [|first arr]; [reflexivity|].
    destruct (Z.ltb_spec 0 (Z.of_nat (List.length (first :: arr)))) as [_ | Hle];
      [|simpl in Hle; lia].
    destruct (last (first :: arr)) as [reading|] eqn:Hlast; [reflexivity|].
    apply last_None in Hlast. discriminate.
Qed.

(** X11.  The weather shown on the main page is the snapshot of the
    latest reading of the first route, in the order of the table, whose
    latest reading has one (and none if no route has one); on the detail
    page of a crossing, the same among the routes of the crossing.  The
    search reads the arrays and changes nothing. *)
Theorem pageWeather_first_snapshot (crossings : list V3.Crossing.t) (w : V3.World) :
  V3_shaped crossings (V3.readings (mem w)) ->
  V3_http.pageWeather crossings w
  = (Normal (first_some (latest_snapshots crossings (V3.readings (mem w)))), w)
  /\ (forall ci c,
        crossings !! ci = Some c ->
        V3_http.routesWeather ci c None w
        = (Normal (first_some
                     (imap (fun ri _ => V3.latest (V3.readings (mem w)) ci ri ≫= V3.Row.weather)
                           (V3.Crossing.routes c))), w)).
Proof.
  intros Hshape.
  assert (Hinner : forall ci c weather,
            crossings !! ci = Some c ->
            V3_http.routesWeather ci c weather w
            = (Normal (match weather with
                       | Some _ => weather
                       | None =>
                           first_some
                             (imap (fun ri _ => V3.latest (V3.readings (mem w)) ci ri
                                                ≫= V3.Row.weather)
                                   (V3.Crossing.routes c))
                       end), w)).
  { intros ci c weather Hc. apply routesWeather_run.
    intros ri r Hr. exact (Hshape ci c ri r Hc Hr). }
  split; [|intros ci c Hc; exact (Hinner ci c None Hc)].
  unfold V3_http.pageWeather.
  rewrite (for_while_first crossings _
             (fun ci c =>
                first_some (imap (fun ri _ => V3.latest (V3.readings (mem w)) ci ri
                                              ≫= V3.Row.weather)
                                 (V3.Crossing.routes c))) 0 None w).
  - unfold latest_snapshots. rewrite first_some_mjoin.
    f_equal. f_equal.
    change (map first_some ?l) with (first_some <$> l). now rewrite fmap_imap.
  - intros ci c Hc. simpl. exact (Hinner ci c None Hc).
Qed.

Lemma pageWeather_first_snapshot_witness :
  let sunny := Body (Api.mkForecast (Some (Api.mkCurrent (JS.of_Z 21) (JS.of_Z 0) 0 (JS.of_Z 9)))) in
  let rain := Body (Api.mkForecast (Some (Api.mkCurrent (JS.of_Z 12) (JS.of_Z 3) 61 (JS.of_Z 20)))) in
  let up1 := V3.mkUpstream 0 sunny 0
               (fun _ _ => demo_reply 1020 (Some 540) None) (fun _ _ => Failed "offline")
               (fun _ _ => "2026-02-27T11:20:00.000Z") (fun _ => None) in
  let up2 := V3.mkUpstream 600000 rain 600000
               (fun ci ri => match ci, ri with
                             | O, O => no_route_reply
                             | _, _ => demo_reply 1020 (Some 540) None
                             end)
               (fun _ _ => Failed "offline")
               (fun _ _ => "2026-02-27T11:30:00.000Z") (fun _ => None) in
  let w := exec (V3.cycles V3.CROSSINGS demo_config [up1; up2]) demo_world in
  exists shown : V3.Weather.t,
    eval (V3_http.pageWeather V3.CROSSINGS) w = Normal (Some shown)
    /\ V3.Weather.condition shown = "Clear sky"
    /\ V3.Weather.condition <$> (V3.latest (V3.readings (mem w)) 0 1 ≫= V3.Row.weather)
       = Some "Rain".
Proof.
  intros sunny rain up1 up2 w.
  assert (Hshape : V3_shaped V3.CROSSINGS (V3.readings (mem w))).
  { intros ci c ri r Hc Hr.
    destruct ci as [|[|ci]]; simpl in Hc; [| |discriminate];
      inversion Hc; subst c;
      (destruct ri as [|[|ri]]; simpl in Hr; [| |discriminate]);
      vm_compute; eauto. }
  destruct (pageWeather_first_snapshot V3.CROSSINGS w Hshape) as [Hmain _].
  exists (snapshot_of (Api.mkCurrent (JS.of_Z 21) (JS.of_Z 0) 0 (JS.of_Z 9))).
  unfold eval. rewrite Hmain.
  split; [vm_compute; reflexivity|]. split; vm_compute; reflexivity.
Defined.

(** ** The credential check *)

Lemma checkAuth_cases (user pass : string) (base64 : string -> string)
    (req : V3_http.Request.t) :
  V3_http.checkAuth user pass base64 req = None
  \/ V3_http.checkAuth user pass base64 req
     = Some (V3_http.Response.make 401
               [("WWW-Authenticate",
                 "Basic realm=" +:+ quote +:+ "TrafficWatch Downloads" +:+ quote);
                ("Content-Type", "text/plain")]
               (V3_http.Text "Authentication required")).
Proof.
  unfold V3_http.checkAuth.
  destruct (V3_http.Request.authorization req) as [[|a rest]|]; auto.
  destruct (JStr.split ":" (base64 _)) as [|user' [|pass' pieces]]; auto.
  destruct (bool_decide (user' = user) && bool_decide (pass' = pass)); auto.
Qed.

Lemma checkAuth_accepted (user pass : string) (base64 : string -> string)
    (req : V3_http.Request.t) :
  V3_http.checkAuth user pass base64 req = None
  <-> exists header pieces,
        V3_http.Request.authorization req = Some header /\ header <> ""
        /\ JStr.split ":" (base64 (or_text (JStr.split " " header !! 1%nat) ""))
           = user :: pass :: pieces.
Proof.
  unfold V3_http.checkAuth. split.
  - destruct (V3_http.Request.authorization req) as [[|a rest]|]; try discriminate.
    destruct (JStr.split ":" (base64 _)) as [|user' [|pass' pieces]] eqn:Hsplit; try discriminate.
    destruct (bool_decide (user' = user) && bool_decide (pass' = pass)) eqn:Hok; [|discriminate].
    intros _. apply andb_true_iff in Hok. destruct Hok as [Hu Hp].
    apply bool_decide_eq_true in Hu, Hp. subst.
    exists (String a rest), pieces. split; [reflexivity|]. split; [discriminate | exact Hsplit].
  - intros (header & pieces & Hheader & Hne & Hsplit). rewrite Hheader.
    destruct header as [|a rest]; [now destruct Hne|].
    rewrite Hsplit. now rewrite !bool_decide_true.
Qed.

(** X12.  A user name or a password with a colon in it locks the
    downloads: [checkAuth] cuts the decoded credentials at every colon
    and compares the first two pieces, so when [CONFIG.downloadUser] or
    [CONFIG.downloadPass] holds a colon no request is accepted, whatever
    its Authorization header and however it is decoded; the answer is
    401. *)
Theorem checkAuth_colon_lockout (user pass : string) (base64 : string -> string)
    (req : V3_http.Request.t) :
  (0 < count_char ":" user)%nat \/ (0 < count_char ":" pass)%nat ->
  exists answer : V3_http.Response.t,
    V3_http.checkAuth user pass base64 req = Some answer
    /\ V3_http.Response.status answer = 401.
Proof.
  intros Hcolon.
  destruct (checkAuth_cases user pass base64 req) as [Hyes | Hno].
  - exfalso. apply checkAuth_accepted in Hyes.
    destruct Hyes as (header & pieces & _ & _ & Hsplit).
    assert (Hu : count_char ":" user = 0%nat).
    { apply (split_pieces ":" (base64 (or_text (JStr.split " " header !! 1%nat) ""))).
      rewrite Hsplit. apply elem_of_cons. now left. }
    assert (Hp : count_char ":" pass = 0%nat).
    { apply (split_pieces ":" (base64 (or_text (JStr.split " " header !! 1%nat) ""))).
      rewrite Hsplit. apply elem_of_cons. right. apply elem_of_cons. now left. }
    lia.
  - eexists. split; [exact Hno | reflexivity].
Qed.

Lemma checkAuth_colon_lockout_witness :
  exists answer : V3_http.Response.t,
    V3_http.checkAuth "admin" "pass:word" base64_text
      (V3_http.Request.make "/download/metehan-s2n" (Some "Basic YWRtaW46cGFzczp3b3Jk"))
    = Some answer
    /\ V3_http.Response.status answer = 401
    /\ base64_text "YWRtaW46cGFzczp3b3Jk" = "admin:pass:word".
Proof.
  destruct (checkAuth_colon_lockout "admin" "pass:word" base64_text
              (V3_http.Request.make "/download/metehan-s2n" (Some "Basic YWRtaW46cGFzczp3b3Jk"))
              ltac:(right; simpl; lia)) as (answer & Hanswer & Hstatus).
  exists answer. split; [exact Hanswer|]. split; [exact Hstatus|]. vm_compute. reflexivity.
Defined.

(** X13.  What [checkAuth] accepts, for a user name and a password without
    colons: exactly the requests whose Authorization header is not empty
    and whose second word (the text after the first space; the empty text
    if there is none) decodes to the user name, a colon and the password,
    followed by nothing or by a colon and anything.  The first word of the
    header, the scheme, is not looked at, and neither are further words.
    Every other request gets the same answer: 401 with a
    [WWW-Authenticate] header. *)
Theorem checkAuth_accepts (user pass : string) (base64 : string -> string)
    (req : V3_http.Request.t) :
  count_char ":" user = 0%nat ->
  count_char ":" pass = 0%nat ->
  (V3_http.checkAuth user pass base64 req = None
   <-> exists header tail,
         V3_http.Request.authorization req = Some header /\ header <> ""
         /\ base64 (or_text (JStr.split " " header !! 1%nat) "")
            = user +:+ ":" +:+ pass +:+ tail
         /\ (tail = "" \/ exists rest, tail = ":" +:+ rest))
  /\ (V3_http.checkAuth user pass base64 req <> None ->
      V3_http.checkAuth user pass base64 req
      = Some (V3_http.Response.make 401
                [("WWW-Authenticate",
                  "Basic realm=" +:+ quote +:+ "TrafficWatch Downloads" +:+ quote);
                 ("Content-Type", "text/plain")]
                (V3_http.Text "Authentication required"))).
Proof.
  intros Hu Hp. split.
  - rewrite checkAuth_accepted. split.
    + intros (header & pieces & Hheader & Hne & Hsplit).
      exists header, (match pieces with [] => "" | _ => ":" +:+ join ":" pieces end).
      split; [exact Hheader|]. split; [exact Hne|]. split.
      * rewrite <- (split_join ":" (base64 _)), Hsplit.
        destruct pieces as [|piece pieces]; [now rewrite append_empty_r | reflexivity].
      * destruct pieces; [now left | right; eauto].
    + intros (header & tail & Hheader & Hne & Hdecoded & Htail).
      exists header, (match tail with "" => [] | String _ rest => JStr.split ":" rest end).
      split; [exact Hheader|]. split; [exact Hne|]. rewrite Hdecoded.
      change (user +:+ ":" +:+ pass +:+ tail) with (user +:+ String ":" (pass +:+ tail)).
      rewrite split_field by exact Hu. f_equal.
      destruct Htail as [-> | [rest ->]].
      * rewrite append_empty_r. now apply split_plain.
      * change (pass +:+ ":" +:+ rest) with (pass +:+ String ":" rest).
        now rewrite split_field.
  - intros Hno. destruct (checkAuth_cases user pass base64 req) as [Hyes | Hdenied];
      [now destruct Hno | exact Hdenied].
Qed.

Lemma checkAuth_accepts_witness :
  V3_http.checkAuth "admin" "" base64_text
    (V3_http.Request.make "/download/metehan-s2n" (Some "Bearer YWRtaW46")) = None
  /\ V3_http.checkAuth "admin" "s3cret" base64_text
       (V3_http.Request.make "/download/metehan-s2n" (Some "Basic YWRtaW46czNjcmV0OmV4dHJh"))
     = None
  /\ base64_text "YWRtaW46czNjcmV0OmV4dHJh" = "admin:s3cret:extra".
Proof.
  split; [|split].
  - apply (proj1 (checkAuth_accepts "admin" "" base64_text
                    (V3_http.Request.make "/download/metehan-s2n" (Some "Bearer YWRtaW46"))
                    eq_refl eq_refl)).
    exists "Bearer YWRtaW46", "". split; [reflexivity|]. split; [discriminate|].
    split; [vm_compute; reflexivity | now left].
  - apply (proj1 (checkAuth_accepts "admin" "s3cret" base64_text
                    (V3_http.Request.make "/download/metehan-s2n"
                       (Some "Basic YWRtaW46czNjcmV0OmV4dHJh"))
                    eq_refl eq_refl)).
    exists "Basic YWRtaW46czNjcmV0OmV4dHJh", ":extra". split; [reflexivity|].
    split; [discriminate|]. split; [vm_compute; reflexivity | right; now exists "extra"].
  - vm_compute. reflexivity.
Defined.

(** ** Paths *)

Lemma startsWith_skip (s p : string) :
  JStr.startsWith s p = true -> s = p +:+ JStr.skip (String.length p) s.
Proof.
  revert s. induction p as [|a p IH]; intros s; [reflexivity|].
  destruct s as [|b s]; simpl; [discriminate|].
  intros H. apply andb_true_iff in H. destruct H as [Hab Hrest].
  apply Ascii.eqb_eq in Hab. subst b.
  change (String a s = String a (p +:+ JStr.skip (String.length p) s)).
  f_equal. now apply IH.
Qed.

Lemma replace_prefix (s p : string) :
  JStr.startsWith s p = true -> JStr.replace s p "" = JStr.skip (String.length p) s.
Proof. intros H. destruct s; simpl in *; now rewrite H. Qed.

Lemma startsWith_append (p rest : string) : JStr.startsWith (p +:+ rest) p = true.
Proof.
  induction p as [|a p IH]; [reflexivity|].
  change (JStr.startsWith (String a (p +:+ rest)) (String a p) = true).
  simpl. now rewrite Ascii.eqb_refl, IH.
Qed.

Lemma skip_append (p rest : string) : JStr.skip (String.length p) (p +:+ rest) = rest.
Proof. induction p as [|a p IH]; [reflexivity | exact IH]. Qed.

Lemma path_plain (url : string) (auth : option string) :
  count_char "?" url = 0%nat -> V3_http.path (V3_http.Request.make url auth) = url.
Proof. intros H. unfold V3_http.path. simpl. now rewrite split_plain. Qed.

Lemma path_query (url query : string) (auth : option string) :
  count_char "?" url = 0%nat ->
  V3_http.path (V3_http.Request.make (url +:+ "?" +:+ query) auth) = url.
Proof.
  intros H. unfold V3_http.path. simpl.
  change (url +:+ "?" +:+ query) with (url +:+ String "?" query).
  now rewrite split_field.
Qed.

(** ** The table of downloads *)

Lemma downloadMap_flat (crossings : list V3.Crossing.t) (m : gmap string V3_http.Entry) :
  foldl (fun m c =>
           foldl (fun m r =>
                    <[V3_http.slug r := V3_http.mkEntry (Route.logFile r) (Route.logFile r)]> m)
                 m (V3.Crossing.routes c))
        m crossings
  = foldl (fun m r =>
             <[V3_http.slug r := V3_http.mkEntry (Route.logFile r) (Route.logFile r)]> m)
          m (V3_routes crossings).
Proof.
  revert m. induction crossings as [|c crossings IH]; intros m; [reflexivity|].
  unfold V3_routes. simpl. rewrite foldl_app. apply IH.
Qed.

Lemma inserts_found (routes : list Route.t) (m : gmap string V3_http.Entry)
    (s : string) (e : V3_http.Entry) :
  foldl (fun m r =>
           <[V3_http.slug r := V3_http.mkEntry (Route.logFile r) (Route.logFile r)]> m)
        m routes !! s = Some e ->
  m !! s = Some e
  \/ exists r, r ∈ routes /\ V3_http.slug r = s
               /\ e = V3_http.mkEntry (Route.logFile r) (Route.logFile r).
Proof.
  revert m. induction routes as [|r routes IH]; intros m; simpl; [now left|].
  intros H. destruct (IH _ H) as [Hm | (r' & Hin & Hslug & He)].
  - destruct (decide (V3_http.slug r = s)) as [E | N].
    + rewrite E, lookup_insert_eq in Hm. inversion Hm; subst e.
      right. exists r. split; [apply elem_of_cons; now left | now split].
    + rewrite lookup_insert_ne in Hm by exact N. now left.
  - right. exists r'. split; [apply elem_of_cons; now right | now split].
Qed.

Lemma inserts_other (routes : list Route.t) (m : gmap string V3_http.Entry) (s : string) :
  s ∉ map V3_http.slug routes ->
  foldl (fun m r =>
           <[V3_http.slug r := V3_http.mkEntry (Route.logFile r) (Route.logFile r)]> m)
        m routes !! s = m !! s.
Proof.
  revert m. induction routes as [|r routes IH]; intros m Hs; simpl; [reflexivity|].
  simpl in Hs. rewrite IH.
  - apply lookup_insert_ne. intros E. apply Hs. rewrite E. apply elem_of_cons. now left.
  - intros Hin. apply Hs. apply elem_of_cons. now right.
Qed.

Lemma inserts_lookup (routes : list Route.t) (m : gmap string V3_http.Entry) (r : Route.t) :
  NoDup (map V3_http.slug routes) ->
  r ∈ routes ->
  foldl (fun m r =>
           <[V3_http.slug r := V3_http.mkEntry (Route.logFile r) (Route.logFile r)]> m)
        m routes !! V3_http.slug r
  = Some (V3_http.mkEntry (Route.logFile r) (Route.logFile r)).
Proof.
  revert m. induction routes as [|r0 routes IH]; intros m Hnd Hin; simpl.
  - now apply elem_of_nil in Hin.
  - simpl in Hnd. apply NoDup_cons in Hnd. destruct Hnd as [Hfresh Hnd].
    apply elem_of_cons in Hin. destruct Hin as [-> | Hin].
    + rewrite inserts_other by exact Hfresh. apply lookup_insert_eq.
    + now apply IH.
Qed.

Lemma V3_routes_elem (crossings : list V3.Crossing.t) (r : Route.t) :
  r ∈ V3_routes crossings
  <-> exists ci c ri, crossings !! ci = Some c /\ V3.Crossing.routes c !! ri = Some r.
Proof.
  unfold V3_routes. rewrite list_elem_of_In, in_flat_map. split.
  - intros (c & Hc & Hr). apply list_elem_of_In, list_elem_of_lookup in Hc, Hr.
    destruct Hc as [ci Hc]. destruct Hr as [ri Hr]. now exists ci, c, ri.
  - intros (ci & c & ri & Hc & Hr). exists c.
    split; apply list_elem_of_In; eapply list_elem_of_lookup_2; eauto.
Qed.

(** ** Downloads *)

Section Downloads.
Variable crossings : list V3.Crossing.t.
Variable user pass : string.
Variable base64 : string -> string.
Variable mainMarkup : option V3.Weather.t -> Node V3.World string.
Variable detailChart : nat -> Node V3.World string.
Variable detailMarkup : nat -> string -> option V3.Weather.t -> Node V3.World string.

Local Abbreviation onRequest :=
  (V3_http.onRequest crossings user pass base64 mainMarkup detailChart detailMarkup).

(** What the listener does with a request for a download. *)
Lemma onRequest_download (disk : string -> option string) (req : V3_http.Request.t)
    (w : V3.World) :
  JStr.startsWith (V3_http.path req) "/download/" = true ->
  onRequest disk req w
  = (match V3_http.checkAuth user pass base64 req with
     | Some answer => Normal answer
     | None =>
         match V3_http.downloadMap crossings
               !! JStr.skip 10 (V3_http.path req) with
         | None => Normal V3_http.notFound
         | Some entry =>
             match files w !! V3_http.file entry with
             | None => Normal V3_http.notFound
             | Some data =>
                 match disk (V3_http.file entry) with
                 | Some message => Throw message
                 | None =>
                     Normal
                       (V3_http.Response.make 200
                          [("Content-Type", "text/csv");
                           ("Content-Disposition",
                            "attachment; filename=" +:+ quote +:+ V3_http.name entry +:+ quote)]
                          (V3_http.Text data))
                 end
             end
         end
     end, w).
Proof.
  intros Hstart. unfold V3_http.onRequest.
  assert (Hh : V3_http.path req <> "/health").
  { intros E. rewrite E in Hstart. discriminate. }
  assert (Ha : V3_http.path req <> "/api/data").
  { intros E. rewrite E in Hstart. discriminate. }
  rewrite (bool_decide_false _ Hh), (bool_decide_false _ Ha), Hstart.
  destruct (V3_http.checkAuth user pass base64 req) as [answer|]; [reflexivity|].
  rewrite (replace_prefix _ _ Hstart). simpl String.length.
  destruct (V3_http.downloadMap crossings !! _) as [entry|]; [|reflexivity].
  unfold mbind, Node_bind, existsSync, readFileSync. simpl.
  destruct (files w !! V3_http.file entry) as [data|] eqn:Hfile.
  - rewrite bool_decide_true by eauto. simpl.
    destruct (disk (V3_http.file entry)); [reflexivity|]. now rewrite Hfile.
  - rewrite bool_decide_false by (intros [? ?]; discriminate). reflexivity.
Qed.

End Downloads.

(** X14.  A download is served to accepted credentials only, and only from
    the logs of the table.  A request whose path starts with [/download/]
    leaves the process as it is; it is answered 200, 401 or 404, or the
    listener throws.  When [checkAuth] does not accept the request, the
    answer is the 401 of [checkAuth] and nothing is read.  Status 200
    means that the credentials were accepted, that the rest of the path is
    the slug of a route of the table, that the read went through and that
    the body is the content of the log file of that route.  The listener
    throws only for accepted credentials and the slug of a route of the
    table whose log file exists and cannot be read, and what it throws is
    what the read threw; when no read fails, an answer is sent. *)
Theorem download_needs_credentials
    (crossings : list V3.Crossing.t) (user pass : string) (base64 : string -> string)
    (mainMarkup : option V3.Weather.t -> Node V3.World string)
    (detailChart : nat -> Node V3.World string)
    (detailMarkup : nat -> string -> option V3.Weather.t -> Node V3.World string)
    (disk : string -> option string) (req : V3_http.Request.t) (w : V3.World) :
  JStr.startsWith (V3_http.path req) "/download/" = true ->
  let result :=
    V3_http.onRequest crossings user pass base64 mainMarkup detailChart detailMarkup disk req w in
  result.2 = w
  /\ (forall denied, V3_http.checkAuth user pass base64 req = Some denied ->
                     result.1 = Normal denied /\ V3_http.Response.status denied = 401)
  /\ (forall answer, result.1 = Normal answer ->
        (V3_http.Response.status answer = 200
         \/ V3_http.Response.status answer = 401
         \/ V3_http.Response.status answer = 404)
        /\ (V3_http.Response.status answer = 200 ->
            V3_http.checkAuth user pass base64 req = None
            /\ exists ci c ri r content,
                 crossings !! ci = Some c /\ V3.Crossing.routes c !! ri = Some r
                 /\ V3_http.path req = "/download/" +:+ V3_http.slug r
                 /\ files w !! Route.logFile r = Some content
                 /\ disk (Route.logFile r) = None
                 /\ V3_http.Response.body answer = V3_http.Text content))
  /\ (forall message, result.1 = Throw message ->
        V3_http.checkAuth user pass base64 req = None
        /\ exists ci c ri r,
             crossings !! ci = Some c /\ V3.Crossing.routes c !! ri = Some r
             /\ V3_http.path req = "/download/" +:+ V3_http.slug r
             /\ is_Some (files w !! Route.logFile r)
             /\ disk (Route.logFile r) = Some message)
  /\ ((forall path, disk path = None) -> exists answer, result.1 = Normal answer).
Proof.
  intros Hstart result. unfold result.
  rewrite (onRequest_download crossings user pass base64 mainMarkup detailChart detailMarkup
             disk req w Hstart).
  cbn [fst snd]. split; [reflexivity|].
  destruct (checkAuth_cases user pass base64 req) as [Hyes | Hno].
  - rewrite Hyes.
    destruct (V3_http.downloadMap crossings !! JStr.skip 10 (V3_http.path req))
      as [entry|] eqn:Hentry.
    + assert (Hroute : exists ci c ri r,
                 crossings !! ci = Some c /\ V3.Crossing.routes c !! ri = Some r
                 /\ V3_http.path req = "/download/" +:+ V3_http.slug r
                 /\ V3_http.file entry = Route.logFile r).
      { unfold V3_http.downloadMap in Hentry. rewrite downloadMap_flat in Hentry.
        apply inserts_found in Hentry.
        destruct Hentry as [Hempty | (r & Hin & Hslug & ->)];
          [rewrite lookup_empty in Hempty; discriminate|].
        apply V3_routes_elem in Hin. destruct Hin as (ci & c & ri & Hc & Hr).
        exists ci, c, ri, r. split; [exact Hc|]. split; [exact Hr|].
        split; [|reflexivity]. rewrite Hslug. exact (startsWith_skip _ _ Hstart). }
      destruct Hroute as (ci & c & ri & r & Hc & Hr & Hpath & Hfile).
      rewrite Hfile.
      destruct (files w !! Route.logFile r) as [data|] eqn:Hdata.
      * destruct (disk (Route.logFile r)) as [fault|] eqn:Hdisk.
        -- split; [discriminate|]. split; [discriminate|]. split.
           ++ intros message E. inversion E; subst. split; [reflexivity|].
              exists ci, c, ri, r. rewrite Hdata. eauto 10.
           ++ intros Hnone. rewrite Hnone in Hdisk. discriminate.
        -- split; [discriminate|]. split.
           ++ intros answer E. inversion E; subst. simpl. split; [now left|].
              intros _. split; [reflexivity|]. exists ci, c, ri, r, data. eauto 10.
           ++ split; [discriminate | eauto].
      * split; [discriminate|]. split.
        -- intros answer E. inversion E; subst. simpl. split; [right; now right | discriminate].
        -- split; [discriminate | eauto].
    + split; [discriminate|]. split.
      * intros answer E. inversion E; subst. simpl. split; [right; now right | discriminate].
      * split; [discriminate | eauto].
  - rewrite Hno. split.
    + intros denied E. inversion E. now split.
    + split.
      * intros answer E. inversion E; subst. simpl. split; [right; now left | discriminate].
      * split; [discriminate | eauto].
Qed.

Lemma download_needs_credentials_witness :
  let disk_files := <["log-metehan-s2n.csv" := "rows"]> (∅ : gmap string string) in
  let w := V3.boot V3.CROSSINGS disk_files in
  let unreadable := fun _ : string => Some "EISDIR: illegal operation on a directory, read" in
  (exists denied : V3_http.Response.t,
      V3_http.onRequest V3.CROSSINGS "admin" "s3cret" base64_text blank_main blank_chart
        blank_detail unreadable (V3_http.Request.make "/download/metehan-s2n" None) w
      = (Normal denied, w)
      /\ V3_http.Response.status denied = 401)
  /\ V3_http.onRequest V3.CROSSINGS "admin" "s3cret" base64_text blank_main blank_chart
       blank_detail unreadable
       (V3_http.Request.make "/download/metehan-s2n" (Some "Basic YWRtaW46czNjcmV0")) w
     = (Throw "EISDIR: illegal operation on a directory, read", w)
  /\ V3_http.checkAuth "admin" "s3cret" base64_text
       (V3_http.Request.make "/download/metehan-s2n" (Some "Basic YWRtaW46czNjcmV0")) = None.
Proof.
  intros disk_files w unreadable. split; [|split].
  - destruct (download_needs_credentials V3.CROSSINGS "admin" "s3cret" base64_text
                blank_main blank_chart blank_detail unreadable
                (V3_http.Request.make "/download/metehan-s2n" None) w eq_refl)
      as (Hw & Hdenied & _).
    destruct (Hdenied _ eq_refl) as [Hrun Hstatus].
    eexists. split; [|exact Hstatus].
    apply injective_projections; [exact Hrun | exact Hw].
  - vm_compute. reflexivity.
  - destruct (download_needs_credentials V3.CROSSINGS "admin" "s3cret" base64_text
                blank_main blank_chart blank_detail unreadable
                (V3_http.Request.make "/download/metehan-s2n" (Some "Basic YWRtaW46czNjcmV0"))
                w eq_refl)
      as (_ & _ & _ & Hthrown & _).
    exact (proj1 (Hthrown "EISDIR: illegal operation on a directory, read"
                    ltac:(vm_compute; reflexivity))).
Defined.

(** X15.  The download links of the detail page work.  The page links the
    log of a route as [/download/] followed by the slug of the route, and
    the server looks the slug up in a table filled with the same slugs:
    when no two routes of the table have the same slug (and the slug
    holds no question mark), a request for that path with accepted
    credentials is about the log file of that very route.  With the file
    missing, the answer is 404; with the file there and the read going
    through, it is 200 with the content of the file, offered under the
    name of the file; and when the read fails, the listener throws what
    the read threw.  The process is left as it is in every case. *)
Theorem download_link_round_trip
    (crossings : list V3.Crossing.t) (user pass : string) (base64 : string -> string)
    (mainMarkup : option V3.Weather.t -> Node V3.World string)
    (detailChart : nat -> Node V3.World string)
    (detailMarkup : nat -> string -> option V3.Weather.t -> Node V3.World string)
    (disk : string -> option string)
    (auth : option string) (w : V3.World) (ci ri : nat) (c : V3.Crossing.t) (r : Route.t) :
  NoDup (map V3_http.slug (V3_routes crossings)) ->
  crossings !! ci = Some c ->
  V3.Crossing.routes c !! ri = Some r ->
  count_char "?" (V3_http.slug r) = 0%nat ->
  let req := V3_http.Request.make ("/download/" +:+ V3_http.slug r) auth in
  V3_http.checkAuth user pass base64 req = None ->
  V3_http.onRequest crossings user pass base64 mainMarkup detailChart detailMarkup disk req w
  = (match files w !! Route.logFile r with
     | None => Normal (V3_http.Response.make 404 [] (V3_http.Text "File not found"))
     | Some content =>
         match disk (Route.logFile r) with
         | Some message => Throw message
         | None =>
             Normal
               (V3_http.Response.make 200
                  [("Content-Type", "text/csv");
                   ("Content-Disposition",
                    "attachment; filename=" +:+ quote +:+ Route.logFile r +:+ quote)]
                  (V3_http.Text content))
         end
     end, w).
Proof.
  intros Hnd Hc Hr Hplain req Hauth.
  assert (Hpath : V3_http.path req = "/download/" +:+ V3_http.slug r).
  { apply path_plain. rewrite count_char_app, Hplain. reflexivity. }
  rewrite onRequest_download by (rewrite Hpath; apply startsWith_append).
  rewrite Hauth, Hpath.
  change 10%nat with (String.length "/download/"). rewrite skip_append.
  unfold V3_http.downloadMap. rewrite downloadMap_flat.
  rewrite inserts_lookup; [reflexivity | exact Hnd|].
  apply V3_routes_elem. now exists ci, c, ri.
Qed.

Lemma download_link_round_trip_witness :
  let disk_files := <["log-astromeritis-n2s.csv" := "rows"]> (∅ : gmap string string) in
  let w := V3.boot V3.CROSSINGS disk_files in
  let r := Route.make "North to South" "log-astromeritis-n2s.csv"
             (Point.make "35.15883484408819" "33.01876659029276" "North")
             (Point.make "35.14498045733702" "33.03600414981479" "South") in
  let req := V3_http.Request.make "/download/astromeritis-n2s" (Some "Basic YWRtaW46czNjcmV0") in
  V3_http.slug r = "astromeritis-n2s"
  /\ V3_http.onRequest V3.CROSSINGS "admin" "s3cret" base64_text blank_main blank_chart blank_detail
       always_writable req w
     = (Normal (V3_http.Response.make 200
                  [("Content-Type", "text/csv");
                   ("Content-Disposition",
                    "attachment; filename=" +:+ quote +:+ "log-astromeritis-n2s.csv" +:+ quote)]
                  (V3_http.Text "rows")), w)
  /\ V3_http.onRequest V3.CROSSINGS "admin" "s3cret" base64_text blank_main blank_chart blank_detail
       (fun _ => Some "EACCES: permission denied") req w
     = (Throw "EACCES: permission denied", w).
Proof.
  intros disk_files w r req.
  assert (Hlink : forall disk : string -> option string,
             V3_http.onRequest V3.CROSSINGS "admin" "s3cret" base64_text blank_main blank_chart
               blank_detail disk req w
             = (match files w !! Route.logFile r with
                | None => Normal (V3_http.Response.make 404 [] (V3_http.Text "File not found"))
                | Some content =>
                    match disk (Route.logFile r) with
                    | Some message => Throw message
                    | None =>
                        Normal
                          (V3_http.Response.make 200
                             [("Content-Type", "text/csv");
                              ("Content-Disposition",
                               "attachment; filename=" +:+ quote +:+ Route.logFile r +:+ quote)]
                             (V3_http.Text content))
                    end
                end, w)).
  { intros disk.
    exact (download_link_round_trip V3.CROSSINGS "admin" "s3cret" base64_text
             blank_main blank_chart blank_detail disk (Some "Basic YWRtaW46czNjcmV0") w 1 1
             (V3.Crossing.make "astromeritis" "Astromeritis / Zodia" "Astromeritis"
                "West Nicosia crossing"
                [ Route.make "South to North" "log-astromeritis-s2n.csv"
                    (Point.make "35.14493622086859" "33.03599537704171" "South")
                    (Point.make "35.15883484408819" "33.01875938024711" "North");
                  r ])
             r
             ltac:(apply (bool_decide_unpack _); vm_compute; exact I)
             eq_refl eq_refl eq_refl ltac:(vm_compute; reflexivity)). }
  split; [vm_compute; reflexivity|]. split.
  - rewrite (Hlink always_writable). reflexivity.
  - rewrite (Hlink (fun _ => Some "EACCES: permission denied")). reflexivity.
Defined.

(** ** Pages *)

Lemma findIndex_from_none {A : Type} (p : A -> bool) (arr : list A) (i : Z) :
  (forall x, x ∈ arr -> p x = false) -> JArr.findIndex_from i p arr = -1.
Proof.
  revert i. induction arr as [|x arr IH]; intros i H; simpl; [reflexivity|].
  rewrite (H x) by (apply elem_of_cons; now left).
  apply IH. intros y Hy. apply H. apply elem_of_cons. now right.
Qed.

Lemma findIndex_from_found {A : Type} (p : A -> bool) (arr : list A) (i : Z) (x : A) :
  x ∈ arr -> p x = true ->
  exists (k : nat) (y : A),
    arr !! k = Some y /\ p y = true /\ JArr.findIndex_from i p arr = i + Z.of_nat k.
Proof.
  revert i. induction arr as [|x0 arr IH]; intros i Hin Hp; [now apply elem_of_nil in Hin|].
  simpl. destruct (p x0) eqn:Hp0.
  - exists 0%nat, x0. split; [reflexivity|]. split; [exact Hp0 | lia].
  - apply elem_of_cons in Hin. destruct Hin as [-> | Hin]; [congruence|].
    destruct (IH (i + 1) Hin Hp) as (k & y & Hk & Hy & E).
    exists (S k), y. split; [exact Hk|]. split; [exact Hy | lia].
Qed.

Section Pages.
Variable crossings : list V3.Crossing.t.
Variable user pass : string.
Variable base64 : string -> string.
Variable mainMarkup : option V3.Weather.t -> Node V3.World string.
Variable detailChart : nat -> Node V3.World string.
Variable detailMarkup : nat -> string -> option V3.Weather.t -> Node V3.World string.

Lemma buildDetailPage_unknown (id : string) (w : V3.World) :
  (forall c, c ∈ crossings -> V3.Crossing.id c <> id) ->
  V3_http.buildDetailPage crossings detailChart detailMarkup id w = (Normal None, w).
Proof.
  intros H. unfold V3_http.buildDetailPage, JArr.findIndex.
  rewrite findIndex_from_none; [reflexivity|].
  intros c Hc. apply bool_decide_eq_false. now apply H.
Qed.

Lemma buildDetailPage_known (id : string) (c : V3.Crossing.t) (w w' : V3.World) :
  c ∈ crossings -> V3.Crossing.id c = id ->
  V3_http.buildDetailPage crossings detailChart detailMarkup id w <> (Normal None, w').
Proof.
  intros Hc Hid. unfold V3_http.buildDetailPage, JArr.findIndex.
  destruct (findIndex_from_found (fun c => bool_decide (V3.Crossing.id c = id)) crossings 0 c Hc
              (bool_decide_eq_true_2 _ Hid)) as (k & y & Hk & _ & E).
  rewrite E, Z.add_0_l.
  destruct (Z.eqb_spec (Z.of_nat k) (-1)) as [Hneg | _]; [lia|].
  unfold JS.index. destruct (Z.ltb_spec (Z.of_nat k) 0) as [Hneg | _]; [lia|].
  rewrite Nat2Z.id, Hk. unfold mbind, Node_bind.
  destruct (detailChart k w) as [[chart | message] w1]; [|discriminate].
  destruct (V3_http.routesWeather k y None w1) as [[weather | message] w2]; [|discriminate].
  destruct (detailMarkup k chart weather w2) as [[html | message] w3]; discriminate.
Qed.

(** X16.  The server never sends a missing page.  [buildDetailPage]
    returns [null] for an [id] that no crossing of the table has, and
    only then; and the request listener calls it only for the [id] of a
    crossing it has just found in the table.  So whatever the request,
    an answer that is sent never has [null] for its body. *)
Theorem page_never_null :
  (forall (id : string) (w : V3.World),
      (forall c, c ∈ crossings -> V3.Crossing.id c <> id) ->
      V3_http.buildDetailPage crossings detailChart detailMarkup id w = (Normal None, w))
  /\ (forall (id : string) (c : V3.Crossing.t) (w w' : V3.World),
        c ∈ crossings -> V3.Crossing.id c = id ->
        V3_http.buildDetailPage crossings detailChart detailMarkup id w <> (Normal None, w'))
  /\ (forall (disk : string -> option string) (req : V3_http.Request.t) (w w' : V3.World)
             (answer : V3_http.Response.t),
        V3_http.onRequest crossings user pass base64 mainMarkup detailChart detailMarkup
          disk req w
        = (Normal answer, w') ->
        V3_http.Response.body answer <> V3_http.Html None).
Proof.
  split; [exact buildDetailPage_unknown|]. split; [exact buildDetailPage_known|].
  intros disk req w w' answer.
  destruct (JStr.startsWith (V3_http.path req) "/download/") eqn:Hstart.
  { rewrite (onRequest_download crossings user pass base64 mainMarkup detailChart detailMarkup
               disk req w Hstart).
    intros E. inversion E as [[Hanswer Hw]]. subst w'. clear E. revert Hanswer.
    destruct (checkAuth_cases user pass base64 req) as [-> | ->];
      [|intros E; inversion E; discriminate].
    destruct (V3_http.downloadMap crossings !! _) as [entry|];
      [|intros E; inversion E; discriminate].
    destruct (files w !! V3_http.file entry); [|intros E; inversion E; discriminate].
    destruct (disk (V3_http.file entry)); [discriminate|].
    intros E. inversion E. discriminate. }
  unfold V3_http.onRequest. rewrite Hstart.
  case_bool_decide as Hhealth; [intros E; inversion E; discriminate|].
  case_bool_decide as Hapi.
  { unfold mbind, Node_bind.
    destruct (V3_http.apiData crossings w) as [[data | message] w1]; [|discriminate].
    intros E. inversion E. discriminate. }
  destruct (negb _ && _) eqn:Hdetail.
  - apply andb_true_iff in Hdetail. destruct Hdetail as [_ Hfound].
    apply bool_decide_eq_true in Hfound. destruct Hfound as [c Hfound].
    unfold JArr.find in Hfound. apply find_some in Hfound. destruct Hfound as [Hin Hid].
    apply list_elem_of_In in Hin. apply bool_decide_eq_true in Hid.
    unfold mbind, Node_bind.
    destruct (V3_http.buildDetailPage crossings detailChart detailMarkup _ w)
      as [[[html|] | message] w1] eqn:Hpage.
    + intros E. inversion E. discriminate.
    + now destruct (buildDetailPage_known _ c w w1 Hin Hid).
    + discriminate.
  - unfold mbind, Node_bind.
    destruct (V3_http.buildMainPage crossings mainMarkup w) as [[html | message] w1];
      [|discriminate].
    intros E. inversion E. discriminate.
Qed.

Lemma map_from_pure {Mem Line A B : Type} (xs : list A)
    (f : nat -> A -> Node (Process Mem Line) B) (g : nat -> A -> B) (i0 : nat)
    (w : Process Mem Line) :
  (forall k x, xs !! k = Some x -> f (i0 + k)%nat x w = (Normal (g (i0 + k)%nat x), w)) ->
  map_from i0 xs f w = (Normal (imap (fun k => g (i0 + k)%nat) xs), w).
Proof.
  revert i0. induction xs as [|x xs IH]; intros i0 H; [reflexivity|].
  simpl. unfold mbind, Node_bind.
  pose proof (H 0%nat x eq_refl) as H0. rewrite Nat.add_0_r in H0. rewrite H0.
  rewrite (IH (S i0)).
  - rewrite Nat.add_0_r. unfold mret, Node_ret. do 3 f_equal.
    apply imap_ext. intros k y _. simpl. f_equal. lia.
  - intros k y Hk. replace (S i0 + k)%nat with (i0 + S k)%nat by lia. now apply H.
Qed.

Lemma apiData_run (w : V3.World) :
  V3_shaped crossings (V3.readings (mem w)) ->
  V3_http.apiData crossings w
  = (Normal
       (imap (fun ci c =>
                V3_http.CrossingJson.make (V3.Crossing.id c) (V3.Crossing.name c)
                  (imap (fun ri r =>
                           V3_http.RouteJson.make (Route.name r)
                             (V3.latest (V3.readings (mem w)) ci ri))
                        (V3.Crossing.routes c)))
             crossings), w).
Proof.
  intros Hshape. unfold V3_http.apiData.
  rewrite (map_from_pure crossings _
             (fun ci c =>
                V3_http.CrossingJson.make (V3.Crossing.id c) (V3.Crossing.name c)
                  (imap (fun ri r =>
                           V3_http.RouteJson.make (Route.name r)
                             (V3.latest (V3.readings (mem w)) ci ri))
                        (V3.Crossing.routes c))) 0 w); [reflexivity|].
  intros ci c Hc. simpl. unfold mbind, Node_bind.
  rewrite (map_from_pure (V3.Crossing.routes c) _
             (fun ri r =>
                V3_http.RouteJson.make (Route.name r) (V3.latest (V3.readings (mem w)) ci ri))
             0 w); [reflexivity|].
  intros ri r Hr. simpl.
  destruct (Hshape ci c ri r Hc Hr) as [arr Harr].
  unfold V3.latest, V3.readings_at, mbind, Node_bind, gets. simpl. now rewrite Harr.
Qed.

End Pages.

Lemma page_never_null_witness :
  V3_http.buildDetailPage V3.CROSSINGS blank_chart blank_detail "nicosia" demo_world
  = (Normal None, demo_world)
  /\ V3_http.buildDetailPage V3.CROSSINGS blank_chart blank_detail "metehan" demo_world
     <> (Normal None, demo_world).
Proof.
  destruct (page_never_null V3.CROSSINGS "admin" "secret" base64_text blank_main blank_chart
              blank_detail) as (Hunknown & Hknown & _).
  split.
  - apply Hunknown. intros c Hc.
    repeat (apply elem_of_cons in Hc; destruct Hc as [-> | Hc]; [discriminate|]).
    now apply elem_of_nil in Hc.
  - apply (Hknown "metehan" metehan); [|reflexivity].
    unfold V3.CROSSINGS. repeat first [apply list_elem_of_here | apply list_elem_of_further].
Defined.

Lemma V3_checkAll_shaped (crossings : list V3.Crossing.t) (cfg : V3.Config) (up : V3.Upstream)
    (w : V3.World) :
  V3_shaped crossings (V3.readings (mem w)) ->
  V3_shaped crossings (V3.readings (mem (exec (V3.checkAll crossings cfg up) w))).
Proof.
  intros H ci c ri r Hc Hr. rewrite (V3_checkAll_slot crossings cfg up ci c ri r w Hc Hr).
  destruct (H ci c ri r Hc Hr) as [arr Harr]. rewrite Harr.
  destruct (V3_appended up w ci ri); eauto.
Qed.

Lemma V3_run_shaped (crossings : list V3.Crossing.t) (cfg : V3.Config)
    (ticks : list V3.Upstream) (w : V3.World) :
  V3_shaped crossings (V3.readings (mem w)) ->
  V3_shaped crossings (V3.readings (mem (V3_run crossings cfg ticks w))).
Proof.
  revert w. induction ticks as [|up ticks IH]; intros w H; simpl; [exact H|].
  apply IH. now apply V3_checkAll_shaped.
Qed.

Lemma V3_boot_shaped (crossings : list V3.Crossing.t) (disk_files : gmap string string) :
  V3_shaped crossings (V3.readings (mem (V3.boot crossings disk_files))).
Proof.
  intros ci c ri r Hc Hr. simpl. rewrite (V3_boot_slot crossings ci c ri r Hc Hr). eauto.
Qed.

(** What the cycles leave as the latest reading of a route: the last
    reading appended for it. *)
Lemma V3_run_latest (crossings : list V3.Crossing.t) (cfg : V3.Config)
    (disk_files : gmap string string) (ticks : list V3.Upstream)
    (ci : nat) (c : V3.Crossing.t) (ri : nat) (r : Route.t) :
  crossings !! ci = Some c ->
  V3.Crossing.routes c !! ri = Some r ->
  V3.latest (V3.readings (mem (V3_run crossings cfg ticks (V3.boot crossings disk_files)))) ci ri
  = last (V3_history crossings cfg ci ri ticks (V3.boot crossings disk_files)).
Proof.
  intros Hc Hr. unfold V3.latest.
  rewrite (V3_run_slot crossings cfg ci c ri r ticks (V3.boot crossings disk_files) [] Hc Hr
             (V3_boot_slot crossings ci c ri r Hc Hr : V3.slot _ ci ri = Some []))
    by (simpl; lia).
  simpl. unfold JS.at_last. apply lastn_last. lia.
Qed.

(** X17.  [/api/data] shows what the engine has stored.  After any number
    of cycles from the start of the process (none, or cycles in which
    every call failed, included), a request for [/api/data] (with or
    without a query string) is answered 200, without any change to the
    process, with one entry for every crossing and every route of the
    table, in the order of the table, each route with the latest reading
    of its array: the last reading ever appended for the route, and
    [null] when there is none.  For a route whose routing call resolved
    in the last cycle, that is the reading of that cycle. *)
Theorem api_data_latest
    (crossings : list V3.Crossing.t) (cfg : V3.Config) (disk_files : gmap string string)
    (ticks : list V3.Upstream)
    (user pass : string) (base64 : string -> string)
    (mainMarkup : option V3.Weather.t -> Node V3.World string)
    (detailChart : nat -> Node V3.World string)
    (detailMarkup : nat -> string -> option V3.Weather.t -> Node V3.World string)
    (disk : string -> option string) (query auth : option string) :
  let start := V3.boot crossings disk_files in
  let w := exec (V3.cycles crossings cfg ticks) start in
  let url := "/api/data" +:+ match query with Some q => "?" +:+ q | None => "" end in
  let data :=
    imap (fun ci c =>
            V3_http.CrossingJson.make (V3.Crossing.id c) (V3.Crossing.name c)
              (imap (fun ri r =>
                       V3_http.RouteJson.make (Route.name r)
                         (V3.latest (V3.readings (mem w)) ci ri))
                    (V3.Crossing.routes c)))
         crossings in
  V3_http.onRequest crossings user pass base64 mainMarkup detailChart detailMarkup disk
    (V3_http.Request.make url auth) w
  = (Normal (V3_http.Response.make 200 [("Content-Type", "application/json")]
               (V3_http.Json data)), w)
  /\ List.length data = List.length crossings
  /\ (forall ci c ri r,
        crossings !! ci = Some c -> V3.Crossing.routes c !! ri = Some r ->
        data !! ci ≫= (fun entry => V3_http.CrossingJson.routes entry !! ri)
        = Some (V3_http.RouteJson.make (Route.name r)
                  (last (V3_history crossings cfg ci ri ticks start))))
  /\ (forall earlier up ci c ri r m,
        ticks = (earlier ++ [up])%list ->
        crossings !! ci = Some c -> V3.Crossing.routes c !! ri = Some r ->
        eval (V3.fetchRoute cfg (Route.origin r) (Route.dest r) (V3.routing up ci ri))
             (exec (V3.cycles crossings cfg earlier) start) = Normal m ->
        exists row : V3.Row.t,
          data !! ci ≫= (fun entry => V3_http.CrossingJson.routes entry !! ri)
          = Some (V3_http.RouteJson.make (Route.name r) (Some row))
          /\ V3.Row.timestamp row = V3.stamp up ci ri
          /\ V3.Row.trafficMin row = Measurement.trafficMin m
          /\ V3.Row.normalMin row = Measurement.normalMin m).
Proof.
  intros start w url data.
  assert (Hw : w = V3_run crossings cfg ticks start).
  { unfold w, exec. now rewrite V3_cycles_run. }
  assert (Hshape : V3_shaped crossings (V3.readings (mem w))).
  { rewrite Hw. apply V3_run_shaped, V3_boot_shaped. }
  assert (Hentry : forall ci c ri r,
             crossings !! ci = Some c -> V3.Crossing.routes c !! ri = Some r ->
             data !! ci ≫= (fun entry => V3_http.CrossingJson.routes entry !! ri)
             = Some (V3_http.RouteJson.make (Route.name r)
                       (V3.latest (V3.readings (mem w)) ci ri))).
  { intros ci c ri r Hc Hr. unfold data.
    rewrite list_lookup_imap, Hc. simpl. now rewrite list_lookup_imap, Hr. }
  split; [|split; [|split]].
  - assert (Hpath : V3_http.path (V3_http.Request.make url auth) = "/api/data").
    { unfold url. destruct query as [q|].
      - now apply path_query.
      - rewrite append_empty_r. now apply path_plain. }
    unfold V3_http.onRequest. rewrite Hpath. simpl.
    unfold mbind, Node_bind. now rewrite apiData_run.
  - unfold data. apply length_imap.
  - intros ci c ri r Hc Hr. rewrite (Hentry ci c ri r Hc Hr). do 2 f_equal.
    rewrite Hw. now apply (V3_run_latest crossings cfg disk_files ticks ci c ri r).
  - intros earlier up ci c ri r m Hticks Hc Hr Hm. rewrite V3_eval_fetchRoute in Hm.
    assert (Hearlier : V3_shaped crossings
                         (V3.readings (mem (V3_run crossings cfg earlier start)))).
    { apply V3_run_shaped, V3_boot_shaped. }
    destruct (Hearlier ci c ri r Hc Hr) as [arr Harr].
    pose proof (V3_checkAll_latest crossings cfg up ci c ri r _ m arr Hc Hr Hm Harr) as Hlatest.
    assert (Hstep : w = exec (V3.checkAll crossings cfg up) (V3_run crossings cfg earlier start)).
    { rewrite Hw, Hticks. unfold V3_run. now rewrite foldl_snoc. }
    rewrite <- Hstep in Hlatest.
    exists (V3_row up (cycle_weather up (V3_run crossings cfg earlier start)) ci ri m).
    split; [|repeat split]. rewrite (Hentry ci c ri r Hc Hr). now rewrite Hlatest.
Qed.

Lemma api_data_latest_witness :
  let fresh := exec (V3.cycles V3.CROSSINGS demo_config []) demo_world in
  let w := exec (V3.cycles V3.CROSSINGS demo_config [split_up3]) demo_world in
  let entry (data : list V3_http.CrossingJson.t) (ci ri : nat) :=
    V3_http.RouteJson.latest
      <$> (data !! ci ≫= (fun entry => V3_http.CrossingJson.routes entry !! ri)) in
  (exists data : list V3_http.CrossingJson.t,
      V3_http.onRequest V3.CROSSINGS "admin" "" base64_text blank_main blank_chart blank_detail
        always_writable (V3_http.Request.make "/api/data" None) fresh
      = (Normal (V3_http.Response.make 200 [("Content-Type", "application/json")]
                   (V3_http.Json data)), fresh)
      /\ List.length data = 2%nat
      /\ entry data 0%nat 1%nat = Some None)
  /\ (exists data : list V3_http.CrossingJson.t,
        V3_http.onRequest V3.CROSSINGS "admin" "" base64_text blank_main blank_chart blank_detail
          always_writable (V3_http.Request.make "/api/data?pretty=1" None) w
        = (Normal (V3_http.Response.make 200 [("Content-Type", "application/json")]
                     (V3_http.Json data)), w)
        /\ entry data 0%nat 0%nat = Some None
        /\ fmap (fmap V3.Row.trafficMin) (entry data 0%nat 1%nat) = Some (Some 17)).
Proof.
  intros fresh w entry. split.
  - destruct (api_data_latest V3.CROSSINGS demo_config ∅ [] "admin" "" base64_text
                blank_main blank_chart blank_detail always_writable None None)
      as (Hrun & Hlen & Hlast & _).
    eexists. split; [exact Hrun|]. split; [exact Hlen|].
    unfold entry. now rewrite (Hlast 0%nat metehan 1%nat north_to_south eq_refl eq_refl).
  - destruct (api_data_latest V3.CROSSINGS demo_config ∅ [split_up3] "admin" "" base64_text
                blank_main blank_chart blank_detail always_writable (Some "pretty=1") None)
      as (Hrun & _ & Hlast & Hcycle).
    eexists. split; [exact Hrun|]. split.
    + unfold entry. now rewrite (Hlast 0%nat metehan 0%nat south_to_north eq_refl eq_refl).
    + destruct (Hcycle [] split_up3 0%nat metehan 1%nat north_to_south
                  (measurement_of (Api.mkSummary 1020 (Some 540) None 4200))
                  eq_refl eq_refl eq_refl eq_refl) as (row & Hentry & _ & Htraffic & _).
      unfold entry. rewrite Hentry. simpl. now rewrite Htraffic.
Defined.

(** ** The chart of the dashboard (v2) *)

Lemma lastn_lastn {A : Type} (l : list A) (n m : nat) :
  (n <= m)%nat -> lastn n (lastn m l) = lastn n l.
Proof.
  intros H. unfold lastn. rewrite length_drop, drop_drop. f_equal. lia.
Qed.

(** X18.  The chart of a route on the dashboard shows the twelve newest
    readings of the route, oldest first, and its caption counts them
    right.  After any number of cycles from the start of the process,
    [routeData] holds for the route the array in memory and its latest
    reading, and the three series of [chartData] (labels, current
    minutes, baseline minutes) are taken from the last 12 readings
    appended for the route, in the order they were appended; the three
    have the same length, the number the caption gives. *)
Theorem chart_shows_last_twelve
    (cfg : V2.Config) (disk_files : gmap string string) (ticks : list V2.Upstream)
    (toLocaleTimeString : string -> string) (i : nat) (r : Route.t) :
  V2.routes cfg !! i = Some r ->
  let w := exec (V2.cycles cfg ticks) (V2.boot cfg disk_files) in
  let shown := lastn 12 (V2_history i ticks) in
  exists (routeData : list V2_http.RouteData.t) (data : V2_http.RouteData.t)
         (chart : V2_http.ChartData.t),
    V2_http.routeData cfg w = (Normal routeData, w)
    /\ routeData !! i = Some data
    /\ V2_http.RouteData.readings data = lastn 500 (V2_history i ticks)
    /\ V2_http.RouteData.latest data = last (V2_history i ticks)
    /\ V2_http.chartData toLocaleTimeString routeData !! i = Some chart
    /\ V2_http.ChartData.traffic chart = map V2.Row.trafficMin shown
    /\ V2_http.ChartData.normal chart = map V2.Row.normalMin shown
    /\ V2_http.ChartData.labels chart
       = map (fun x => toLocaleTimeString (V2.Row.timestamp x)) shown
    /\ Z.of_nat (List.length (V2_http.ChartData.traffic chart)) = V2_http.chartCaption data
    /\ List.length (V2_http.ChartData.labels chart)
       = List.length (V2_http.ChartData.traffic chart)
    /\ List.length (V2_http.ChartData.normal chart)
       = List.length (V2_http.ChartData.traffic chart).
Proof.
  intros Hr w shown.
  assert (Hslot : forall j r', V2.routes cfg !! j = Some r' ->
                               mem w !! j = Some (lastn 500 (V2_history j ticks))).
  { intros j r' Hj. unfold w, exec. rewrite V2_cycles_run. simpl.
    rewrite (V2_run_slot cfg j r' ticks (V2.boot cfg disk_files) [] Hj (V2_boot_slot cfg j r' Hj))
      by (simpl; lia).
    reflexivity. }
  set (g := fun (j : nat) (r' : Route.t) =>
              V2_http.RouteData.make (Route.name r') (Point.label (Route.origin r'))
                (Point.label (Route.dest r')) (lastn 500 (V2_history j ticks))
                (JS.at_last (lastn 500 (V2_history j ticks)))).
  assert (Hrun : V2_http.routeData cfg w = (Normal (imap g (V2.routes cfg)), w)).
  { unfold V2_http.routeData.
    rewrite (map_from_pure (V2.routes cfg) _ g 0 w); [reflexivity|].
    intros j r' Hj. simpl.
    unfold V2.readings_at, mbind, Node_bind, gets. simpl. now rewrite (Hslot j r' Hj). }
  assert (Hshown : JArr.slice_from (lastn 500 (V2_history i ticks)) (-12) = shown).
  { change (-12) with (- Z.of_nat 12). rewrite slice_from_lastn by lia.
    apply lastn_lastn. lia. }
  exists (imap g (V2.routes cfg)), (g i r). eexists.
  split; [exact Hrun|].
  split; [now rewrite list_lookup_imap, Hr|].
  split; [reflexivity|].
  split; [unfold g, JS.at_last; simpl; apply lastn_last; lia|].
  split.
  { unfold V2_http.chartData.
    change (map ?f (imap g (V2.routes cfg))) with (f <$> imap g (V2.routes cfg)).
    rewrite list_lookup_fmap, list_lookup_imap, Hr. reflexivity. }
  unfold g. simpl. rewrite Hshown.
  split; [reflexivity|]. split; [reflexivity|]. split; [reflexivity|].
  split; [|now rewrite !length_map].
  unfold V2_http.chartCaption, JS.length. simpl.
  rewrite length_map. unfold shown. rewrite !lastn_length_min. lia.
Qed.

Lemma chart_shows_last_twelve_witness :
  let w := exec (V2.cycles demo_config2 (demo_ticks2 15)) demo_world2 in
  exists (routeData : list V2_http.RouteData.t) (chart : V2_http.ChartData.t),
    V2_http.routeData demo_config2 w = (Normal routeData, w)
    /\ V2_http.chartData (fun stamp => stamp) routeData !! 0%nat = Some chart
    /\ V2_http.ChartData.labels chart
       = ["3"; "4"; "5"; "6"; "7"; "8"; "9"; "10"; "11"; "12"; "13"; "14"].
Proof.
  intros w.
  destruct (chart_shows_last_twelve demo_config2 ∅ (demo_ticks2 15) (fun stamp => stamp) 0
              (Route.make "South to North" "log-south-to-north.csv"
                 (Point.make "35.17738946649458" "33.323703790315996" "South")
                 (Point.make "35.18248230357691" "33.32297160214468" "North"))
              eq_refl)
    as (routeData & data & chart & Hrun & _ & _ & _ & Hchart & _ & _ & Hlabels & _).
  exists routeData, chart. split; [exact Hrun|]. split; [exact Hchart|].
  rewrite Hlabels. vm_compute. reflexivity.
Defined.

(** ** A start-up that fails *)

(** X20.  A start-up that fails polls nothing.  Without a key, [main]
    only prints its complaint: no file is created and no request is sent.
    With a key, if the creation of a log file fails, [main] rejects with
    the message of the disk before the first cycle: no request has been
    sent and memory is as it was, while the log files created before the
    failure stay. *)
Theorem startup_failure_polls_nothing
    (cfg2 : V2.Config) (disk2 : string -> option string) (ticks2 : list V2.Upstream)
    (w2 : V2.World)
    (crossings : list V3.Crossing.t) (cfg3 : V3.Config) (disk3 : string -> option string)
    (ticks3 : list V3.Upstream) (w3 : V3.World) :
  (V2.tomtomKey cfg2 = "" ->
   V2.main cfg2 disk2 ticks2 w2
   = (Normal tt, mkProcess (mem w2) (files w2) (console w2 ++ [V2.err_no_key]) (requests w2)))
  /\ (forall message,
        V2.tomtomKey cfg2 <> "" ->
        eval (V2.ensureCsv cfg2 disk2) w2 = Throw message ->
        V2.main cfg2 disk2 ticks2 w2 = (Throw message, exec (V2.ensureCsv cfg2 disk2) w2)
        /\ requests (exec (V2.main cfg2 disk2 ticks2) w2) = requests w2
        /\ mem (exec (V2.main cfg2 disk2 ticks2) w2) = mem w2)
  /\ (V3.tomtomKey cfg3 = "" ->
      V3.main crossings cfg3 disk3 ticks3 w3
      = (Normal tt, mkProcess (mem w3) (files w3) (console w3 ++ [V3.err_no_key]) (requests w3)))
  /\ (forall message,
        V3.tomtomKey cfg3 <> "" ->
        eval (V3.ensureCsv crossings disk3) w3 = Throw message ->
        V3.main crossings cfg3 disk3 ticks3 w3
        = (Throw message, exec (V3.ensureCsv crossings disk3) w3)
        /\ requests (exec (V3.main crossings cfg3 disk3 ticks3) w3) = requests w3
        /\ mem (exec (V3.main crossings cfg3 disk3 ticks3) w3) = mem w3).
Proof.
  split; [|split; [|split]].
  - intros Hkey. unfold V2.main. now rewrite decide_True by exact Hkey.
  - intros message Hkey Hthrow.
    assert (E : V2.main cfg2 disk2 ticks2 w2 = (Throw message, exec (V2.ensureCsv cfg2 disk2) w2)).
    { unfold V2.main. rewrite decide_False by exact Hkey.
      unfold mbind, Node_bind, eval, exec in *.
      destruct (V2.ensureCsv cfg2 disk2 w2) as [[[] | message'] w']; simpl in *;
        [discriminate | congruence]. }
    split; [exact E|]. unfold exec at 1 2. rewrite E. simpl.
    destruct (V2_ensureCsv_created cfg2 disk2 w2) as (Hm & _ & Hr & _). now split.
  - intros Hkey. unfold V3.main. now rewrite decide_True by exact Hkey.
  - intros message Hkey Hthrow.
    assert (E : V3.main crossings cfg3 disk3 ticks3 w3
                = (Throw message, exec (V3.ensureCsv crossings disk3) w3)).
    { unfold V3.main. rewrite decide_False by exact Hkey.
      unfold mbind, Node_bind, eval, exec in *.
      destruct (V3.ensureCsv crossings disk3 w3) as [[[] | message'] w']; simpl in *;
        [discriminate | congruence]. }
    split; [exact E|]. unfold exec at 1 2. rewrite E. simpl.
    destruct (V3_ensureCsv_created crossings disk3 w3) as (Hm & _ & Hr & _). now split.
Qed.

Lemma startup_failure_polls_nothing_witness :
  let disk := fun path : string =>
                if bool_decide (path = "log-metehan-n2s.csv")
                then Some "EACCES: permission denied" else None in
  let w := exec (V3.main V3.CROSSINGS demo_config disk (demo_ticks3 3)) demo_world in
  eval (V3.main V3.CROSSINGS demo_config disk (demo_ticks3 3)) demo_world
  = Throw "EACCES: permission denied"
  /\ requests w = []
  /\ files w !! "log-metehan-s2n.csv" = Some V3.HEADER
  /\ files w !! "log-metehan-n2s.csv" = None.
Proof.
  intros disk w.
  destruct (startup_failure_polls_nothing demo_config2 always_writable [] demo_world2
              V3.CROSSINGS demo_config disk (demo_ticks3 3) demo_world)
    as (_ & _ & _ & Hfail).
  destruct (Hfail "EACCES: permission denied" ltac:(discriminate) eq_refl) as (Hrun & Hreq & _).
  split; [unfold eval; now rewrite Hrun|]. split; [exact Hreq|].
  unfold w, exec. rewrite Hrun. split; vm_compute; reflexivity.
Defined.
